(** * LAVA dispatcher: the master-image target (lava_dispatcher/device/master.py)

    A shallow embedding of [MasterImageTarget] and [MasterCommandRunner].
    The serial console, the device behind it and the host tools are the
    environment: every call that waits for the environment consumes one
    answer of a script carried by the world, and every call that acts on it
    is appended to a transcript.  Python exceptions are values of [exn];
    a computation is a function from a world to a result and a world. *)

From Stdlib Require Import ZArith List String Ascii Bool Lia.
From Stdlib Require Import Numbers.DecimalString.
From stdpp Require Import base gmap strings.

Import ListNotations.
Local Open Scope string_scope.
Local Open Scope list_scope.
Local Open Scope Z_scope.

(** ** Python values used by the module *)

Module Py.

(** [str(n)] for an [int]. *)
Definition str_Z (z : Z) : string := NilZero.string_of_int (Z.to_int z).
Arguments str_Z : simpl never.

(** The double-quote character, for command lines that embed it. *)
Definition dquote : string := String (ascii_of_nat 34) EmptyString.

(** The exceptions the module raises, catches or lets through. *)
Inductive exn : Type :=
| OperationFailed (msg : string)
| TIMEOUT
| EOF
| NetworkError (msg : string)
| CriticalError (msg : string)
| RuntimeError (msg : string)
| TypeError (msg : string)
| ValueError (msg : string)
| AssertionError (msg : string)
| NoOptionError (option : string)
| UnicodeError (msg : string)
| HostError (msg : string).

(** [str(e)] *)
Definition exn_str (e : exn) : string :=
  match e with
  | OperationFailed m | NetworkError m | CriticalError m | RuntimeError m
  | TypeError m | ValueError m | AssertionError m | NoOptionError m
  | UnicodeError m | HostError m => m
  | TIMEOUT => "TIMEOUT"
  | EOF => "EOF"
  end.

(** [except (OperationFailed, pexpect.TIMEOUT)] *)
Definition is_OperationFailed_or_TIMEOUT (e : exn) : bool :=
  match e with OperationFailed _ | TIMEOUT => true | _ => false end.

(** [except pexpect.TIMEOUT] *)
Definition is_TIMEOUT (e : exn) : bool :=
  match e with TIMEOUT => true | _ => false end.

(** [except NetworkError] *)
Definition is_NetworkError (e : exn) : bool :=
  match e with NetworkError _ => true | _ => false end.

(** The string operator [fmt % args] for the conversions the module uses
    ([%s], [%d], [%r], each applied to an argument already converted to
    text, and [%%]).  Too few arguments and arguments left over are both a
    [TypeError], as in Python. *)
Fixpoint percent (fmt : string) (args : list string) : exn + string :=
  match fmt with
  | EmptyString =>
      match args with
      | [] => inr EmptyString
      | _ :: _ =>
          inl (TypeError "not all arguments converted during string formatting")
      end
  | String c rest =>
      if Ascii.eqb c "%"%char then
        match rest with
        | EmptyString => inl (ValueError "incomplete format")
        | String d rest' =>
            if Ascii.eqb d "%"%char then
              match percent rest' args with
              | inr s => inr (String "%"%char s)
              | inl e => inl e
              end
            else if (Ascii.eqb d "s" || Ascii.eqb d "d" || Ascii.eqb d "r")%bool then
              match args with
              | [] => inl (TypeError "not enough arguments for format string")
              | a :: args' =>
                  match percent rest' args' with
                  | inr s => inr (String.append a s)
                  | inl e => inl e
                  end
              end
            else inl (ValueError "unsupported format character")
        end
      else
        match percent rest args with
        | inr s => inr (String c s)
        | inl e => inl e
        end
  end.

(** Two lowercase hexadecimal digits for a byte. *)
Definition hex_digit (n : nat) : string := substring n 1 "0123456789abcdef".

Definition hex_byte (c : ascii) : string :=
  let n := nat_of_ascii c in
  String.append (hex_digit (n / 16)) (hex_digit (n mod 16)).

(** The first byte of [s] above 127, with its position. *)
Fixpoint first_non_ascii (s : string) (pos : nat) : option (nat * ascii) :=
  match s with
  | EmptyString => None
  | String c rest =>
      if (128 <=? nat_of_ascii c)%nat then Some (pos, c)
      else first_non_ascii rest (S pos)
  end.

(** [s.encode('ascii')] for a byte string (Python 2): the string is first
    decoded with the default codec, ASCII, which fails on the first byte
    above 127 with a UnicodeDecodeError, a UnicodeError; an ASCII string
    comes back as it is. *)
Definition encode_ascii (s : string) : exn + string :=
  match first_non_ascii s 0 with
  | None => inr s
  | Some (pos, c) =>
      inl (UnicodeError
             (String.append "'ascii' codec can't decode byte 0x"
                (String.append (hex_byte c)
                   (String.append " in position "
                      (String.append (str_Z (Z.of_nat pos))
                         ": ordinal not in range(128)")))))
  end.

End Py.
Export Py.

(** ** The environment: transcript and script *)

(** What [proc.expect] can be given to wait for. *)
Inductive pattern : Type :=
| Re (regex : string)
| PTimeout              (* pexpect.TIMEOUT *)
| PEof.                 (* pexpect.EOF *)

Inductive level : Type := DEBUG | INFO | WARNING | ERROR | CRITICAL.

(** Everything the module does to its environment, in program order. *)
Inductive event : Type :=
| Sendline (line : string)                           (* proc.sendline *)
| Send (text : string)                               (* proc.send *)
| Sendcontrol (c : string)                           (* proc.sendcontrol *)
| EmptyBuffer                                        (* proc.empty_buffer *)
| Expect (patterns : list pattern) (timeout : Z)     (* proc.expect *)
| Run (cmd : string) (timeout : Z) (failok : bool)   (* runner.run *)
| RunExpect (cmd : string) (patterns : list pattern) (timeout : Z)
| GetTargetIp                                        (* runner.get_target_ip *)
| HostCommand (cmd : string)                         (* context.run_command *)
| Host (op : string) (args : list string)            (* host library calls *)
| Sleep (seconds : Z)                                (* time.sleep *)
| Log (lvl : level) (msg : string).                  (* logging.* *)

(** One answer of the environment to a call that waits for it. *)
Inductive response : Type :=
| Reply (n : nat) (text : string)   (* matched pattern n / exit code n / value *)
| Silent                            (* nothing before the timeout *)
| Closed                            (* the stream ended *)
| Fails (e : exn).                  (* the call raises e *)

(** The mutable fields of a [MasterImageTarget] and its surroundings. *)
Record World : Type := mkWorld {
  master_ip : option string;
  device_version : option string;
  boot_cmds_dynamic : option (list string);    (* __boot_cmds_dynamic__ *)
  transcript : list event;
  script : list response
}.

Definition set_master_ip (ip : option string) (w : World) : World :=
  mkWorld ip (device_version w) (boot_cmds_dynamic w) (transcript w) (script w).
Definition set_device_version (v : option string) (w : World) : World :=
  mkWorld (master_ip w) v (boot_cmds_dynamic w) (transcript w) (script w).
Definition set_boot_cmds_dynamic (c : option (list string)) (w : World) : World :=
  mkWorld (master_ip w) (device_version w) c (transcript w) (script w).
Definition record_event (e : event) (w : World) : World :=
  mkWorld (master_ip w) (device_version w) (boot_cmds_dynamic w)
          (transcript w ++ [e]) (script w).
Definition set_script (s : list response) (w : World) : World :=
  mkWorld (master_ip w) (device_version w) (boot_cmds_dynamic w) (transcript w) s.

(** ** Computations that may raise *)

Inductive result (A : Type) : Type :=
| Ok (a : A)
| Raise (e : exn).
Arguments Ok {A} a.
Arguments Raise {A} e.

Definition M (A : Type) : Type := World -> result A * World.

Definition ret {A} (a : A) : M A := fun w => (Ok a, w).
Definition raise {A} (e : exn) : M A := fun w => (Raise e, w).
Definition bind {A B} (m : M A) (k : A -> M B) : M B :=
  fun w => match m w with
           | (Ok a, w') => k a w'
           | (Raise e, w') => (Raise e, w')
           end.

Declare Scope py_scope.
Delimit Scope py_scope with py.
Notation "x <- m ;; k" := (bind m (fun x => k))
  (at level 100, m at next level, right associativity) : py_scope.
Notation "m ;; k" := (bind m (fun _ => k))
  (at level 100, right associativity) : py_scope.
Local Open Scope py_scope.

(** [try: m  except <sel>: h e]; an exception [sel] rejects passes through. *)
Definition try_except {A} (m : M A) (sel : exn -> bool) (h : exn -> M A) : M A :=
  fun w => match m w with
           | (Ok a, w') => (Ok a, w')
           | (Raise e, w') => if sel e then h e w' else (Raise e, w')
           end.

(** [try: m  finally: c]; an exception of [c] replaces the outcome of [m]. *)
Definition try_finally {A} (m : M A) (c : M unit) : M A :=
  fun w => match m w with
           | (r, w') =>
               match c w' with
               | (Ok _, w'') => (r, w'')
               | (Raise e, w'') => (Raise e, w'')
               end
           end.

Definition emit (e : event) : M unit := fun w => (Ok tt, record_event e w).

(** The next answer of the environment; a script that has run out is a
    device that stays silent. *)
Definition recv : M response :=
  fun w => (Ok (hd Silent (script w)), set_script (tl (script w)) w).

Definition get {A} (f : World -> A) : M A := fun w => (Ok (f w), w).
Definition modify (f : World -> World) : M unit := fun w => (Ok tt, f w).

(** [fmt % args] inside a computation. *)
Definition format (fmt : string) (args : list string) : M string :=
  match percent fmt args with
  | inr s => ret s
  | inl e => raise e
  end.

(** [s.encode('ascii')] inside a computation. *)
Definition encode (s : string) : M string :=
  match encode_ascii s with
  | inr s' => ret s'
  | inl e => raise e
  end.

Definition logging (lvl : level) (msg : string) : M unit := emit (Log lvl msg).

(** ** Strings *)

(** [s.endswith(suffix)] *)
Definition endswith (s suffix : string) : bool :=
  let n := String.length s in
  let m := String.length suffix in
  (m <=? n)%nat && String.eqb (substring (n - m) m s) suffix.

(** [s.startswith(p)] *)
Fixpoint startswith (p s : string) : bool :=
  match p, s with
  | EmptyString, _ => true
  | String a p', String b s' => Ascii.eqb a b && startswith p' s'
  | String _ _, EmptyString => false
  end.

(** [c in chars] *)
Fixpoint char_in (c : ascii) (chars : string) : bool :=
  match chars with
  | EmptyString => false
  | String d chars' => Ascii.eqb c d || char_in c chars'
  end.

(** [s.lstrip(chars)], [s.rstrip(chars)], [s.strip(chars)] *)
Fixpoint lstrip (s chars : string) : string :=
  match s with
  | EmptyString => EmptyString
  | String c s' => if char_in c chars then lstrip s' chars else s
  end.

Fixpoint rstrip (s chars : string) : string :=
  match s with
  | EmptyString => EmptyString
  | String c s' =>
      match rstrip s' chars with
      | EmptyString => if char_in c chars then EmptyString else String c EmptyString
      | r => String c r
      end
  end.

Definition strip (s chars : string) : string := rstrip (lstrip s chars) chars.

(** [sep.join(parts)] *)
Fixpoint join (sep : string) (parts : list string) : string :=
  match parts with
  | [] => EmptyString
  | [p] => p
  | p :: rest => p +:+ sep +:+ join sep rest
  end.

(** [s.split(sep)] for a separator of one character. *)
Fixpoint split_char (sep : ascii) (s : string) : list string :=
  match s with
  | EmptyString => [EmptyString]
  | String c s' =>
      if Ascii.eqb c sep then EmptyString :: split_char sep s'
      else match split_char sep s' with
           | [] => [String c EmptyString]
           | p :: rest => String c p :: rest
           end
  end.

(** [s.replace(old, new)]: the occurrences of [old], left to right and
    without overlap.  [skip] counts the characters of an occurrence that
    are still to be dropped. *)
Fixpoint replace_from (old new : string) (skip : nat) (s : string) : string :=
  match s with
  | EmptyString => EmptyString
  | String c s' =>
      match skip with
      | S k => replace_from old new k s'
      | O =>
          if startswith old s
          then new +:+ replace_from old new (String.length old - 1) s'
          else String c (replace_from old new O s')
      end
  end.

Fixpoint interleave (new s : string) : string :=
  match s with
  | EmptyString => new
  | String c s' => new +:+ String c (interleave new s')
  end.

Definition str_replace (s old new : string) : string :=
  match old with
  | EmptyString => interleave new s
  | _ => replace_from old new O s
  end.

(** [posixpath.split] and [posixpath.join] (two components). *)
Fixpoint split_last_slash (p : string) : option (string * string) :=
  match p with
  | EmptyString => None
  | String c p' =>
      match split_last_slash p' with
      | Some (h, t) => Some (String c h, t)
      | None => if Ascii.eqb c "/" then Some ("/", p') else None
      end
  end.

Definition os_path_split (p : string) : string * string :=
  match split_last_slash p with
  | None => (EmptyString, p)
  | Some (head, tail) =>
      match lstrip head "/" with
      | EmptyString => (head, tail)
      | _ => (rstrip head "/", tail)
      end
  end.

Definition os_path_basename (p : string) : string := snd (os_path_split p).

Definition os_path_join (a b : string) : string :=
  if startswith "/" b then b
  else if String.eqb a EmptyString || endswith a "/" then a +:+ b
  else a +:+ "/" +:+ b.

(** ** Regular expressions of the boot-command rewriting *)

Module Re.

(** [\s] and [\d] on byte strings. *)
Definition is_space (c : ascii) : bool :=
  let n := nat_of_ascii c in
  ((n =? 32) || (n =? 9) || (n =? 10) || (n =? 11) || (n =? 12) || (n =? 13))%nat.

Definition is_digit (c : ascii) : bool :=
  let n := nat_of_ascii c in ((48 <=? n) && (n <=? 57))%nat.

(** The longest prefix of [s] made of characters that satisfy [p], and
    what follows it. *)
Fixpoint span (p : ascii -> bool) (s : string) : string * string :=
  match s with
  | EmptyString => (EmptyString, EmptyString)
  | String c s' =>
      if p c then let (run, rest) := span p s' in (String c run, rest)
      else (EmptyString, s)
  end.

(** [int(digits)] for a run of decimal digits. *)
Definition int_of_digits (digits : string) : Z :=
  let fix go (acc : Z) (s : string) : Z :=
    match s with
    | EmptyString => acc
    | String c s' => go (10 * acc + (Z.of_nat (nat_of_ascii c) - 48)) s'
    end in
  go 0 digits.

(** A pattern, as the function that matches it at the start of a string:
    the length of the match and the groups it captured. *)
Definition matcher : Type := string -> option (nat * string).

(** [root=UUID=\S+]: the literal, then the longest run of non-blank
    characters, which must not be empty.  Nothing follows [\S+] in the
    pattern, so the greedy match is the match. *)
Definition root_uuid : matcher :=
  fun s =>
    if startswith "root=UUID=" s then
      let (run, _) := span (fun c => negb (is_space c))
                        (substring 10 (String.length s - 10) s) in
      match run with
      | EmptyString => None
      | _ => Some ((10 + String.length run)%nat, EmptyString)
      end
    else None.

(** [\s+\d+:(?P<partition>\d+)\s+]: each repetition is followed by a
    character outside its class, so each one takes its longest run and the
    match never backtracks.  The group is [partition]. *)
Definition partition_ref : matcher :=
  fun s =>
    let (ws1, s1) := span is_space s in
    let (major, s2) := span is_digit s1 in
    match ws1, major, s2 with
    | String _ _, String _ _, String colon s3 =>
        if Ascii.eqb colon ":" then
          let (minor, s4) := span is_digit s3 in
          let (ws2, _) := span is_space s4 in
          match minor, ws2 with
          | String _ _, String _ _ =>
              Some ((String.length ws1 + String.length major + 1 +
                     String.length minor + String.length ws2)%nat, minor)
          | _, _ => None
          end
        else None
    | _, _, _ => None
    end.

(** [re.sub(pattern, repl, s, count)] for a pattern that never matches the
    empty string: matches are sought left to right, a match is replaced by
    [repl] of its group and the search goes on after it; at most [count]
    replacements are made when [limited].  [skip] counts the characters of
    the current match that remain to be passed over. *)
Fixpoint sub_from (m : matcher) (repl : string -> string)
    (limited : bool) (count : nat) (skip : nat) (s : string) : string :=
  match s with
  | EmptyString => EmptyString
  | String c s' =>
      match skip with
      | S k => sub_from m repl limited count k s'
      | O =>
          if limited && (count =? 0)%nat then s
          else
            match m s with
            | Some (S len, group) =>
                repl group +:+ sub_from m repl limited (count - 1) len s'
            | _ => String c (sub_from m repl limited count O s')
            end
      end
  end.

(** [count] is the fourth positional argument of [re.sub]; 0 means no
    limit. *)
Definition sub (m : matcher) (repl : string -> string) (s : string)
    (count : Z) : string :=
  sub_from m repl (negb (count =? 0)) (Z.to_nat count) O s.

(** [re.search(pattern, s) is not None] *)
Fixpoint search (m : matcher) (s : string) : bool :=
  match m s with
  | Some (S _, _) => true
  | _ => match s with
         | EmptyString => false
         | String _ s' => search m s'
         end
  end.

(** [re.MULTILINE] *)
Definition MULTILINE : Z := 8.

End Re.

(** ** The console and the runner *)

Fixpoint index_of (p : pattern) (l : list pattern) : option nat :=
  match l with
  | [] => None
  | q :: l' =>
      match p, q with
      | PTimeout, PTimeout | PEof, PEof => Some O
      | _, _ => option_map S (index_of p l')
      end
  end.

(** [proc.expect(patterns, timeout=...)]: the index of the pattern that
    matched and the text of its groups.  A timeout or the end of the stream
    is an index when the list names it, an exception otherwise (pexpect). *)
Definition expect (patterns : list pattern) (timeout : Z) : M (nat * string) :=
  emit (Expect patterns timeout);;
  r <- recv;;
  match r with
  | Reply n text => ret (n, text)
  | Silent =>
      match index_of PTimeout patterns with
      | Some i => ret (i, EmptyString)
      | None => raise TIMEOUT
      end
  | Closed =>
      match index_of PEof patterns with
      | Some i => ret (i, EmptyString)
      | None => raise EOF
      end
  | Fails e => raise e
  end.

Definition sendline (line : string) : M unit := emit (Sendline line).
Definition send (text : string) : M unit := emit (Send text).
Definition sendcontrol (c : string) : M unit := emit (Sendcontrol c).
Definition empty_buffer : M unit := emit EmptyBuffer.
Definition sleep (seconds : Z) : M unit := emit (Sleep seconds).
Definition run_command (cmd : string) : M unit := emit (HostCommand cmd).

(** Modelled from the spec: [CommandRunner.run] (lava_dispatcher/client/base.py
    is not among the sources).  The command is sent and the prompt awaited;
    the prompt carries the exit code; a non-zero code is a failure unless
    [failok]; a timeout or a closed stream is always a failure. *)
Definition run (cmd : string) (timeout : Z) (failok : bool) : M nat :=
  emit (Run cmd timeout failok);;
  r <- recv;;
  match r with
  | Reply rc _ =>
      if negb (rc =? 0)%nat && negb failok
      then raise (OperationFailed ("executing " +:+ cmd +:+ " failed"))
      else ret rc
  | Silent => raise TIMEOUT
  | Closed => raise EOF
  | Fails e => raise e
  end.

(** A host-side library call (downloads, archives, the file system of the
    dispatcher): it returns the text the environment answers, or raises. *)
Definition host (op : string) (args : list string) : M (nat * string) :=
  emit (Host op args);;
  r <- recv;;
  match r with
  | Reply n text => ret (n, text)
  | Silent => raise TIMEOUT
  | Closed => raise EOF
  | Fails e => raise e
  end.

(** ** Device configuration *)

(** [config.boot_cmds] is a string in a device configuration and a list
    when the job file defines interactive commands. *)
Inductive pyval : Type :=
| PStr (s : string)
| PList (l : list string).

Record Config : Type := mkConfig {
  master_str : string;
  boot_retries : Z;
  soft_boot_cmd : string;
  hard_reset_command : string;
  image_boot_msg : string;
  boot_device : string;
  testboot_offset : Z;
  read_boot_cmds_from_image : bool;
  boot_part : Z;
  root_part : Z;
  sdcard_part_android_org : Z;
  data_part_android_org : Z;
  boot_files : list string;
  boot_cmds : pyval;
  cp_main : gmap string string;         (* config.cp, section __main__ *)
  deployment_boot_cmds : string;        (* deployment_data['boot_cmds'] *)
  lava_proxy : option string;           (* context.config.lava_proxy *)
  lava_image_tmpdir : string;           (* context.config.lava_image_tmpdir *)
  lava_image_url : string;              (* context.config.lava_image_url *)
  scratch_dir : string
}.

(** Truth value of an optional string: [None] and [''] are false. *)
Definition truthy (s : option string) : bool :=
  match s with
  | None => false
  | Some s' => negb (String.eqb s' EmptyString)
  end.

Section Target.

Variable cfg : Config.

Definition MASTER_PS1 : string := master_str cfg +:+ " [rc=$(echo \$?)]# ".
Definition MASTER_PS1_PATTERN : string := master_str cfg +:+ " \[rc=(\d+)\]# ".

(** *** target_extract *)

(** One pass of the [while num_retry > 0] loop of [target_extract]; [n] is
    [num_retry - 1].  [true] is the [return] inside the [try]. *)
Definition target_extract_attempt (tar_url dest dc : string) (timeout : Z)
    (n : nat) : M bool :=
  r <- try_except
         (cmd <- format
            "wget --no-check-certificate --no-proxy --connect-timeout=30 -S --progress=dot -e dotbytes=2M -O- %s | tar --warning=no-timestamp --numeric-owner -C %s -x%sf -"
            [tar_url; dest; dc];;
          run cmd timeout false;;
          ret true)
         is_OperationFailed_or_TIMEOUT
         (fun _ =>
            msg <- format "transfering %s failed. %d retry left."
                     [tar_url; str_Z (Z.of_nat n)];;
            logging WARNING msg;;
            ret false);;
  if r : bool then ret true
  else
    (if (1 <? Z.of_nat (S n))
     then
       sendcontrol "c";;
       line <- format "echo 'retry left %s time(s)'" [str_Z (Z.of_nat n)];;
       sendline line;;
       msg <- format "Wait %d second before retry" [str_Z 60];;
       logging INFO msg;;
       sleep 60
     else ret tt);;
    ret false.

Fixpoint target_extract_loop (tar_url dest dc : string) (timeout : Z)
    (num_retry : nat) : M unit :=
  match num_retry with
  | O => msg <- format "extracting %s on target failed" [tar_url];;
         raise (RuntimeError msg)
  | S n =>
      returned <- target_extract_attempt tar_url dest dc timeout n;;
      if returned : bool then ret tt
      else target_extract_loop tar_url dest dc timeout n
  end.

(** [target_extract(runner, tar_url, dest, timeout=-1, num_retry=5)] *)
Definition target_extract (tar_url dest : string) (timeout : Z) (num_retry : Z)
    : M unit :=
  dc <- (if endswith tar_url ".gz" || endswith tar_url ".tgz" then ret "z"
         else if endswith tar_url ".bz2" then ret "j"
         else msg <- format "bad file extension: %s" [tar_url];;
              raise (RuntimeError msg));;
  target_extract_loop tar_url dest dc timeout (Z.to_nat num_retry).

(** *** MasterCommandRunner *)

(** Modelled from the spec: [CommandRunner.run] with a [response] list
    (client/base.py is not among the sources).  The command is sent and one
    of the caller's patterns awaited; no exit code is involved. *)
Definition run_expect (cmd : string) (patterns : list pattern) (timeout : Z)
    : M (nat * string) :=
  emit (RunExpect cmd patterns timeout);;
  r <- recv;;
  match r with
  | Reply n text => ret (n, text)
  | Silent =>
      match index_of PTimeout patterns with
      | Some i => ret (i, EmptyString)
      | None => raise TIMEOUT
      end
  | Closed =>
      match index_of PEof patterns with
      | Some i => ret (i, EmptyString)
      | None => raise EOF
      end
  | Fails e => raise e
  end.

(** Modelled from the spec: [NetworkCommandRunner.get_target_ip]
    (client/base.py is not among the sources).  It waits for the network
    and raises [NetworkError] when it never comes up; otherwise it parses
    the address and returns null when there is none. *)
Definition get_target_ip : M (option string) :=
  emit GetTargetIp;;
  r <- recv;;
  match r with
  | Reply O ip => ret (Some ip)
  | Reply (S _) _ => ret None
  | Silent => raise (NetworkError "network never came up")
  | Closed => raise EOF
  | Fails e => raise e
  end.

Definition device_version_cmd : string :=
  Eval cbv in
    ("echo " +:+ dquote +:+
     "device_version=$(lava-master-image-info --master-image-hwpack | sed 's/[^0-9-]//g; s/^-\+//')/$(lava-master-image-info --master-image-rootfs | sed 's/[^0-9-]//g; s/^-\+//')"
     +:+ dquote).

Definition get_device_version : M (option string) :=
  p <- run_expect device_version_cmd
         [Re "device_version=(\d+-\d+/\d+-\d+)"; PEof; PTimeout] 5;;
  if (fst p =? 0)%nat then
    msg <- format "Master image version (hwpack/rootfs) is %s" [snd p];;
    logging DEBUG msg;;
    ret (Some (snd p))
  else
    logging WARNING "Could not determine image version!";;
    ret None.

Definition is_file_exist (path : string) : M bool :=
  cmd <- format "ls %s > /dev/null" [path];;
  rc <- run cmd (-1) true;;
  if (rc =? 0)%nat then ret true else ret false.

Definition has_partition_with_label (label : option string) : M bool :=
  match label with
  | None | Some EmptyString => ret false
  | Some l =>
      path <- format "/dev/disk/by-label/%s" [l];;
      is_file_exist path
  end.

(** *** Booting the master image *)

(** Modelled from the spec: [Target._wait_for_prompt] (device/target.py is
    not among the sources) awaits the role's prompt pattern. *)
Definition _wait_for_prompt (prompt : string) (timeout : Z) : M unit :=
  expect [Re prompt] timeout;; ret tt.

Definition _wait_for_master_boot : M unit :=
  expect [Re (image_boot_msg cfg)] 300;;
  _wait_for_prompt (master_str cfg) 300.

Definition _soft_reboot : M unit :=
  logging INFO "Perform soft reboot the system";;
  modify (set_master_ip None);;
  sendcontrol "c";;
  sendline (soft_boot_cmd cfg);;
  p <- expect [PTimeout; Re "Restarting system.";
               Re "The system is going down for reboot NOW";
               Re "Will now restart"; Re "U-Boot"] 120;;
  if (fst p =? 0)%nat then raise (OperationFailed "Soft reboot failed")
  else ret tt.

Definition _hard_reboot : M unit :=
  logging INFO "Perform hard reset on the system";;
  modify (set_master_ip None);;
  if negb (String.eqb (hard_reset_command cfg) EmptyString)
  then run_command (hard_reset_command cfg)
  else
    send "~$";;
    sendline "hardreset";;
    empty_buffer.

(** The first [try] of a pass of the loop of [boot_master_image]: soft
    reboot, and hard reboot when that fails.  [false] is
    [attempts += 1; continue]. *)
Definition boot_master_reboot : M bool :=
  try_except
    (_soft_reboot;; _wait_for_master_boot;; ret true)
    is_OperationFailed_or_TIMEOUT
    (fun e =>
       msg <- format "Soft reboot failed: %s" [exn_str e];;
       logging INFO msg;;
       try_except
         (_hard_reboot;; _wait_for_master_boot;; ret true)
         is_OperationFailed_or_TIMEOUT
         (fun e =>
            msg <- format "Hard reboot into master image failed: %s" [exn_str e];;
            logging WARNING msg;;
            ret false)).

Definition export_PS1 : string :=
  Eval cbv in ("export PS1=" +:+ dquote +:+ "%s" +:+ dquote).

(** The second [try]: set the prompt and wait for it. *)
Definition boot_master_prompt : M bool :=
  try_except
    (line <- format export_PS1 [MASTER_PS1];;
     sendline line;;
     expect [Re MASTER_PS1_PATTERN] 120;;
     ret true)
    is_TIMEOUT
    (fun e =>
       msg <- format "Failed to get command line prompt: " [exn_str e];;
       logging WARNING msg;;
       ret false).

(** The third [try]: the address and the version of the master image. *)
Definition boot_master_network : M bool :=
  try_except
    (ip <- get_target_ip;;
     modify (set_master_ip ip);;
     v <- get_device_version;;
     modify (set_device_version v);;
     ret true)
    is_NetworkError
    (fun e =>
       msg <- format "Failed to get network up: " [exn_str e];;
       logging WARNING msg;;
       ret false).

(** One pass of the loop; the result is [in_master_image]. *)
Definition boot_master_attempt (attempts : Z) : M bool :=
  msg <- format "Booting the system master image. Attempt: %d"
           [str_Z (attempts + 1)];;
  logging INFO msg;;
  rebooted <- boot_master_reboot;;
  if negb rebooted then ret false else
  prompted <- boot_master_prompt;;
  if negb prompted then ret false else
  connected <- boot_master_network;;
  if negb connected then ret false else
  (if truthy (lava_proxy cfg) then
     logging INFO "Setting up http proxy";;
     cmd <- format "export http_proxy=%s" [default EmptyString (lava_proxy cfg)];;
     run cmd 30 false;;
     ret tt
   else ret tt);;
  logging INFO "System is in master image now";;
  ret true.

(** [while (attempts < boot_attempts) and (not in_master_image)], by
    recursion on [boot_attempts - attempts]: a pass either sets
    [in_master_image] or adds one to [attempts]. *)
Fixpoint boot_master_loop (remaining : nat) (attempts : Z) : M bool :=
  match remaining with
  | O => ret false
  | S r =>
      in_master_image <- boot_master_attempt attempts;;
      if in_master_image : bool then ret true
      else boot_master_loop r (attempts + 1)
  end.

Definition boot_master_image : M unit :=
  in_master_image <- boot_master_loop (Z.to_nat (boot_retries cfg)) 0;;
  if negb in_master_image then
    logging CRITICAL "Could not get master image booted properly";;
    raise (CriticalError "Could not get master image booted properly")
  else ret tt.

(** [with self._as_master() as master]: the generator has nothing after
    its [yield], so entering the session is all there is. *)
Definition _as_master : M unit :=
  sendline EmptyString;;
  p <- expect [Re MASTER_PS1_PATTERN; PTimeout] 10;;
  (if (fst p =? 1)%nat then boot_master_image else ret tt).

(** *** Deployment of the tarballs *)

Definition _format_testpartition (fstype : string) : M unit :=
  logging INFO "Format testboot and testrootfs partitions";;
  run "umount /dev/disk/by-label/testrootfs" (-1) true;;
  cmd <- format "nice mkfs -t %s -q /dev/disk/by-label/testrootfs -L testrootfs"
           [fstype];;
  run cmd 1800 false;;
  run "umount /dev/disk/by-label/testboot" (-1) true;;
  run "nice mkfs.vfat /dev/disk/by-label/testboot -n testboot" (-1) false;;
  ret tt.

Definition _deploy_linaro_rootfs (rootfs : string) : M unit :=
  logging INFO "Deploying linaro image";;
  run "udevadm trigger" (-1) false;;
  run "mkdir -p /mnt/root" (-1) false;;
  run "mount /dev/disk/by-label/testrootfs /mnt/root" (-1) false;;
  target_extract rootfs "/mnt/root" 18000 5;;
  rc <- run "chroot /mnt/root which dpkg-divert" (-1) true;;
  (if (rc =? 0)%nat then
     run "chroot /mnt/root dpkg-divert --local /usr/sbin/flash-kernel" (-1) false;;
     run "chroot /mnt/root ln -sf /bin/true /usr/sbin/flash-kernel" (-1) false;;
     ret tt
   else ret tt);;
  run "umount /mnt/root" (-1) false;;
  ret tt.

Definition _deploy_linaro_bootfs (bootfs : string) : M unit :=
  logging INFO "Deploying linaro bootfs";;
  run "udevadm trigger" (-1) false;;
  run "mkdir -p /mnt/boot" (-1) false;;
  run "mount /dev/disk/by-label/testboot /mnt/boot" (-1) false;;
  target_extract bootfs "/mnt/boot" (-1) 5;;
  run "umount /mnt/boot" (-1) false;;
  ret tt.

(** ['/'.join(u.strip('/') for u in [url, tarball])] *)
Definition tarball_url (url tarball : string) : string :=
  join "/" (map (fun u => strip u "/") [url; tarball]).

(** The statements of [_deploy_tarballs] before its [try]: the session and
    the formatting of the two partitions. *)
Definition deploy_tarballs_prepare : M unit :=
  _as_master;;
  _format_testpartition "ext4".

(** The body of the [try] of [_deploy_tarballs]. *)
Definition deploy_tarballs_steps (boot_url root_url : string) : M unit :=
  _deploy_linaro_rootfs root_url;;
  _deploy_linaro_bootfs boot_url.

Definition _deploy_tarballs (boot_tgz root_tgz : string) : M unit :=
  let tmpdir := lava_image_tmpdir cfg in
  let url := lava_image_url cfg in
  let boot_tarball := str_replace boot_tgz tmpdir EmptyString in
  let root_tarball := str_replace root_tgz tmpdir EmptyString in
  let boot_url := tarball_url url boot_tarball in
  let root_url := tarball_url url root_tarball in
  deploy_tarballs_prepare;;
  try_except
    (deploy_tarballs_steps boot_url root_url)
    (fun _ => true)
    (fun _ =>
       logging ERROR "Deployment failed";;
       raise (CriticalError "Deployment failed")).

(** *** Exchange of a directory with the host *)

Definition _android_data_label : M string :=
  found <- has_partition_with_label (Some "userdata");;
  if negb found then ret "sdcard" else ret "userdata".

Definition get_partition (partition : Z) : M string :=
  if partition =? boot_part cfg then ret "/dev/disk/by-label/testboot"
  else if partition =? root_part cfg then ret "/dev/disk/by-label/testrootfs"
  else if partition =? sdcard_part_android_org cfg
  then ret "/dev/disk/by-label/sdcard"
  else if partition =? data_part_android_org cfg then
    lbl <- _android_data_label;;
    format "/dev/disk/by-label/%s" [lbl]
  else
    msg <- format "unknown master image partition(%d)" [str_Z partition];;
    raise (RuntimeError msg).

(** [str(self.master_ip)] *)
Definition str_option (o : option string) : string := default "None" o.

(** [tf.split('/')[-2:]] *)
Definition last_two (parts : list string) : list string :=
  skipn (length parts - 2) parts.

(** The statements of [file_system] before its outer [try]: the assertion,
    the session, and the mount.  The result is the device of the
    partition. *)
Definition file_system_mount (partition : Z) (directory : string) : M string :=
  msg <- format "attempting to access master filesystem %r:%s"
           [str_Z partition; directory];;
  logging INFO msg;;
  (if String.eqb directory "/"
   then raise (AssertionError "cannot mount entire partition")
   else ret tt);;
  _as_master;;
  device <- get_partition partition;;
  cmd <- format "mount %s /mnt" [device];;
  run cmd (-1) false;;
  ret device.

(** The local variables of [file_system] at its [yield]. *)
Record exchange : Type := mkExchange {
  targetdir : string;
  parent_dir : string;
  target_name : string;
  tf : string;
  tfdir : string
}.

(** The outer [try] up to the inner one: the directory is archived on the
    device, served over HTTP and downloaded. *)
Definition file_system_serve (directory : string) : M exchange :=
  targetdir <- format "/mnt/%s" [directory];;
  present <- is_file_exist targetdir;;
  (if negb present then
     cmd <- format "mkdir %s" [targetdir];;
     run cmd (-1) false;; ret tt
   else ret tt);;
  let parent_dir := fst (os_path_split targetdir) in
  let target_name := snd (os_path_split targetdir) in
  cmd <- format "nice tar -czf /tmp/fs.tgz -C %s %s" [parent_dir; target_name];;
  run cmd (-1) false;;
  run "cd /tmp" (-1) false;;
  sendline "python -m SimpleHTTPServer 0 2>/dev/null";;
  p <- expect [Re "Serving HTTP on 0.0.0.0 port (\d+) \.\."; PEof; PTimeout] (-1);;
  (if negb (fst p =? 0)%nat then
     logging ERROR "Unable to start HTTP server on master";;
     raise (CriticalError "Unable to start HTTP server on master")
   else ret tt);;
  let port := snd p in
  ip <- get master_ip;;
  url <- format "http://%s:%s/fs.tgz" [str_option ip; port];;
  tf <- host "download_with_retry" [scratch_dir cfg; url];;
  now <- host "time.time" [];;
  let tfdir := os_path_join (scratch_dir cfg) (snd now) in
  ret (mkExchange targetdir parent_dir target_name (snd tf) tfdir).

(** The inner [try]: the archive is unpacked on the host and the block of
    the [with] statement runs at the [yield]. *)
Definition file_system_yield {A} (x : exchange) (body : string -> M A) : M A :=
  host "os.mkdir" [tfdir x];;
  cmd <- format "nice tar -C %s -xzf %s" [tfdir x; tf x];;
  run_command cmd;;
  body (os_path_join (tfdir x) (target_name x)).

(** The inner [finally]: the directory goes back to the device. *)
Definition file_system_upload (x : exchange) : M unit :=
  let tf := os_path_join (scratch_dir cfg) "fs.tgz" in
  host "mk_targz" [tf; tfdir x];;
  host "rmtree" [tfdir x];;
  sendcontrol "c";;
  let tf := join "/" (last_two (split_char "/" tf)) in
  url <- format "%s/%s" [lava_image_url cfg; tf];;
  cmd <- format "rm -rf %s" [targetdir x];;
  run cmd (-1) false;;
  target_extract url (parent_dir x) (-1) 5.

(** The body of the outer [try] of [file_system]; [body] is the block of
    the [with] statement. *)
Definition file_system_exchange {A} (directory : string) (body : string -> M A)
    : M A :=
  x <- file_system_serve directory;;
  try_finally (file_system_yield x body) (file_system_upload x).

(** The [finally] of the outer [try]. *)
Definition file_system_release : M unit :=
  sendcontrol "c";;
  run "umount /mnt" (-1) false;;
  ret tt.

(** [with target.file_system(partition, directory) as path: body path] *)
Definition file_system {A} (partition : Z) (directory : string)
    (body : string -> M A) : M A :=
  file_system_mount partition directory;;
  try_finally (file_system_exchange directory body) file_system_release.

(** *** Boot commands read from the image *)

Definition _rewrite_partition_number (partition_group : string) : string :=
  let partition := Re.int_of_digits partition_group + testboot_offset cfg in
  " " +:+ boot_device cfg +:+ ":" +:+ str_Z partition +:+ " ".

(** The text of [_rewrite_boot_cmds] before it is split into lines.  Both
    calls pass [re.MULTILINE] where [re.sub] takes [count]. *)
Definition rewrite_boot_text (boot_cmds : string) : string :=
  let boot_cmds :=
    Re.sub Re.root_uuid (fun _ => "root=LABEL=testrootfs") boot_cmds Re.MULTILINE in
  Re.sub Re.partition_ref _rewrite_partition_number boot_cmds Re.MULTILINE.

Definition _rewrite_boot_cmds (boot_cmds : string) : list string :=
  split_char "010" (rewrite_boot_text boot_cmds).

(** [for boot_file in boot_files] over the mounted boot partition: the
    first name that exists, then [break]. *)
Fixpoint find_boot_file_mounted (mnt : string) (files : list string)
    : M (option string) :=
  match files with
  | [] => ret None
  | boot_file :: rest =>
      let boot_path := os_path_join mnt boot_file in
      present <- host "os.path.exists" [boot_path];;
      if negb (fst present =? 0)%nat then ret (Some boot_path)
      else find_boot_file_mounted mnt rest
  end.

(** The nested loops over the extracted tarball: the [break] leaves the
    inner loop only, so a later name of [boot_files] that is found
    replaces an earlier one. *)
Fixpoint find_boot_file_extracted (files extracted : list string)
    (boot_file_path : option string) : option string :=
  match files with
  | [] => boot_file_path
  | boot_file :: rest =>
      find_boot_file_extracted rest extracted
        (match List.find (fun file_path =>
                            String.eqb boot_file (os_path_basename file_path))
                         extracted with
         | Some file_path => Some file_path
         | None => boot_file_path
         end)
  end.

(** [_read_boot_cmds(image=None, boot_tgz=None)].  The partition of the
    image, the temporary directory, the archive and the file are the
    host's. *)
Definition _read_boot_cmds (image boot_tgz : option string) : M unit :=
  if negb (read_boot_cmds_from_image cfg) then ret tt
  else
    dynamic <- get boot_cmds_dynamic;;
    match dynamic with
    | Some _ => logging DEBUG "We already have boot commands in place."
    | None =>
        boot_file_path <-
          (if truthy image then
             mnt <- host "image_partition_mounted.__enter__"
                      [default EmptyString image; str_Z (boot_part cfg)];;
             try_finally
               (find_boot_file_mounted (snd mnt) (boot_files cfg))
               (host "image_partition_mounted.__exit__" [snd mnt];; ret tt)
           else if truthy boot_tgz then
             tmp_dir <- host "mkdtemp" [];;
             extracted <- host "extract_targz"
                            [default EmptyString boot_tgz; snd tmp_dir];;
             ret (find_boot_file_extracted (boot_files cfg)
                    (split_char "010" (snd extracted)) None)
           else ret None);;
        present <-
          (if truthy boot_file_path then
             p <- host "os.path.exists" [default EmptyString boot_file_path];;
             ret (negb (fst p =? 0)%nat)
           else ret false);;
        if present : bool then
          content <- host "open.read" [default EmptyString boot_file_path];;
          modify (set_boot_cmds_dynamic (Some (_rewrite_boot_cmds (snd content))))
        else logging DEBUG "Unable to read boot commands dynamically."
    end.

(** *** Booting the test image *)

(** Code of the dispatcher that [_boot_linaro_image] calls and that is not
    among the sources: [boot_options.as_dict] (the value of each boot
    option, given the default for [boot_cmds]),
    [Target._is_job_defined_boot_cmds], [utils.string_to_list],
    [Target._enter_bootloader] and [Target._customize_bootloader]. *)
Variable as_dict : string -> gmap string string.
Variable _is_job_defined_boot_cmds : pyval -> bool.
Variable string_to_list : string -> list string.
Variable _enter_bootloader : M unit.
Variable _customize_bootloader : pyval -> M unit.

(** [self.config.cp.get('__main__', key)] *)
Definition cp_get (key : string) : M string :=
  match cp_main cfg !! key with
  | Some v => ret v
  | None => raise (NoOptionError key)
  end.

(** [repr(s)] of a byte string (Python 2).  The quote is the single
    quote, unless the string holds a single quote and no double quote; the
    quote and the backslash are escaped, tab, line feed and carriage return
    are written as their escapes, every other byte below 32 or above 126 as
    its hexadecimal escape. *)
Definition repr_char (quote c : ascii) : string :=
  let n := nat_of_ascii c in
  if Ascii.eqb c quote || Ascii.eqb c "\" then String "\" (String c EmptyString)
  else if (n =? 9)%nat then "\t"
  else if (n =? 10)%nat then "\n"
  else if (n =? 13)%nat then "\r"
  else if (n <? 32)%nat || (127 <=? n)%nat then "\x" +:+ hex_byte c
  else String c EmptyString.

Fixpoint repr_body (quote : ascii) (s : string) : string :=
  match s with
  | EmptyString => EmptyString
  | String c rest => repr_char quote c +:+ repr_body quote rest
  end.

Definition repr_str (s : string) : string :=
  let quote :=
    if char_in "'" s && negb (char_in (ascii_of_nat 34) s)
    then ascii_of_nat 34 else "'"%char in
  String quote (repr_body quote s) +:+ String quote EmptyString.

(** [str] of the boot commands: a string as it is, a list of byte strings
    as the [repr] of its elements between brackets. *)
Definition str_pyval (v : pyval) : string :=
  match v with
  | PStr s => s
  | PList l => "[" +:+ join ", " (map repr_str l) +:+ "]"
  end.

(** The statements of [_boot_linaro_image] that choose [boot_cmds], up to
    the call of [_boot]. *)
Definition select_boot_cmds : M pyval :=
  let default_cmds := deployment_boot_cmds cfg in
  let options := as_dict default_cmds in
  let boot_cmds_job_file := _is_job_defined_boot_cmds (boot_cmds cfg) in
  let boot_cmds_boot_options :=
    match options !! "boot_cmds" with
    | Some value => negb (String.eqb value "boot_cmds")
    | None => false
    end in
  if boot_cmds_job_file then
    logging INFO "Overriding boot_cmds from job file";;
    ret (boot_cmds cfg)
  else if boot_cmds_boot_options then
    logging INFO "Overriding boot_cmds from boot_options";;
    let name := default EmptyString (options !! "boot_cmds") in
    msg <- format "boot_option=%s" [name];;
    logging INFO msg;;
    text <- cp_get name;;
    text <- encode text;;
    ret (PList (string_to_list text))
  else
    dynamic <- get boot_cmds_dynamic;;
    match dynamic with
    | Some cmds =>
        logging INFO "Loading boot_cmds from image";;
        ret (PList cmds)
    | None =>
        logging INFO "Loading boot_cmds from device configuration";;
        text <- cp_get default_cmds;;
        text <- encode text;;
        ret (PList (string_to_list text))
    end.

Definition _boot (cmds : pyval) : M unit :=
  try_except
    (_soft_reboot;; _enter_bootloader)
    (fun _ => true)
    (fun _ =>
       logging ERROR "_enter_bootloader failed";;
       _hard_reboot;;
       _enter_bootloader);;
  _customize_bootloader cmds.

Definition _boot_linaro_image : M unit :=
  cmds <- select_boot_cmds;;
  logging INFO ("boot_cmds: " +:+ str_pyval cmds);;
  _boot cmds.

(** *** extract_tarball *)

(** The statements of [extract_tarball] before its [try]: the session and
    the mount. *)
Definition extract_tarball_mount (url : string) (partition : Z) : M string :=
  msg <- format "extracting %s to target" [url];;
  logging INFO msg;;
  _as_master;;
  device <- get_partition partition;;
  cmd <- format "mount %s /mnt" [device];;
  run cmd (-1) false;;
  ret device.

(** [extract_tarball(tarball_url, partition, directory='/')] *)
Definition extract_tarball (url : string) (partition : Z) (directory : string)
    : M unit :=
  extract_tarball_mount url partition;;
  try_finally
    (dest <- format "/mnt/%s" [directory];;
     target_extract url dest (-1) 5)
    (run "umount /mnt" (-1) false;; ret tt).

(** *** Deployment of an Android image *)

(** The fields of the device configuration and of the deployment data
    that only the Android functions read. *)
Variable sys_part_android_org : string.
Variable cache_part_android_org : string.
Variable partition_padding_string_org : string.
Variable sys_part_android : string.
Variable data_part_android : string.
Variable partition_padding_string_android : string.
Variable android_orig_block_device : string.
Variable android_lava_block_device : string.
Variable possible_partitions_files : list string.
Variable sdcard_mountpoint_path : string.
Variable sdcard_part_android : string.
Variable git_url_disablesuspend_sh : string.
Variable TESTER_PS1 : string.

Definition sed_delete_fmt : string :=
  Eval cbv in ("sed -i " +:+ dquote +:+ "/\/dev\/block\/%s%s%s/d" +:+ dquote +:+ " %s").
Definition sed_replace_fmt : string :=
  Eval cbv in ("sed -i " +:+ dquote +:+ "s/%s%s%s/%s%s%s/g" +:+ dquote +:+ " %s").

Definition _update_uInitrd_partitions (rc_filename : string) : M unit :=
  let sys_part_org := sys_part_android_org in
  let cache_part_org := cache_part_android_org in
  let data_part_org := str_Z (data_part_android_org cfg) in
  let blkorg := android_orig_block_device in
  let blklava := android_lava_block_device in
  cmd <- format sed_delete_fmt
           [blkorg; partition_padding_string_org; cache_part_org; rc_filename];;
  run cmd (-1) false;;
  cmd <- format sed_replace_fmt
           [blkorg; partition_padding_string_org; data_part_org;
            blklava; partition_padding_string_android; data_part_android;
            rc_filename];;
  run cmd (-1) false;;
  cmd <- format sed_replace_fmt
           [blkorg; partition_padding_string_org; sys_part_org;
            blklava; partition_padding_string_android; sys_part_android;
            rc_filename];;
  run cmd (-1) false;;
  ret tt.

(** [for f in possible_partitions_files] of [_recreate_uInitrd] *)
Fixpoint update_partitions_files (files : list string) : M unit :=
  match files with
  | [] => ret tt
  | f :: rest =>
      present <- is_file_exist f;;
      (if present : bool then
         _update_uInitrd_partitions f;;
         cmd <- format "cat %s" [f];;
         run cmd (-1) true;;
         ret tt
       else ret tt);;
      update_partitions_files rest
  end.

Definition sed_init_rc_fmt : string :=
  Eval cbv in ("sed -i " +:+ dquote +:+ "/export PATH/a \ \ \ \ export PS1 '%s'"
               +:+ dquote +:+ " init.rc").
Definition mkimage_cmd : string :=
  Eval cbv in ("nice mkimage -A arm -O linux -T ramdisk -n " +:+ dquote +:+
               "Android Ramdisk Image" +:+ dquote +:+
               "             -d ramdisk_new.cpio.gz uInitrd").

Definition _recreate_uInitrd : M unit :=
  logging DEBUG "Recreate uInitrd";;
  run "mkdir -p ~/tmp/" (-1) false;;
  run "mv /mnt/lava/boot/uInitrd ~/tmp" (-1) false;;
  run "cd ~/tmp/" (-1) false;;
  run "nice dd if=uInitrd of=uInitrd.data ibs=64 skip=1" (-1) false;;
  run "mv uInitrd.data ramdisk.cpio.gz" (-1) false;;
  run "nice gzip -d -f ramdisk.cpio.gz; cpio -i -F ramdisk.cpio" (-1) false;;
  cmd <- format sed_init_rc_fmt [TESTER_PS1];;
  run cmd (-1) false;;
  update_partitions_files possible_partitions_files;;
  run "nice cpio -i -t -F ramdisk.cpio | cpio -o -H newc |             gzip > ramdisk_new.cpio.gz" (-1) false;;
  run mkimage_cmd (-1) false;;
  run "cd -" (-1) false;;
  run "mv ~/tmp/uInitrd /mnt/lava/boot/uInitrd" (-1) false;;
  run "rm -rf ~/tmp" (-1) false;;
  ret tt.

Definition _deploy_linaro_android_boot (boottbz2 : string) : M unit :=
  logging INFO "Deploying test boot filesystem";;
  run "mkdir -p /mnt/lava/boot" (-1) false;;
  run "mount /dev/disk/by-label/testboot /mnt/lava/boot" (-1) false;;
  target_extract boottbz2 "/mnt/lava" (-1) 5;;
  _recreate_uInitrd;;
  run "umount /mnt/lava/boot" (-1) false;;
  ret tt.

Definition sed_vold_fmt : string :=
  Eval cbv in ("sed -i " +:+ dquote +:+ "%s" +:+ dquote +:+
               " /mnt/lava/system/etc/vold.fstab").
Definition sed_mkshrc_fmt : string :=
  Eval cbv in ("sed -i " +:+ dquote +:+ "s/^PS1=.*$/PS1='%s'/" +:+ dquote +:+
               " /mnt/lava/system/etc/mkshrc").

(** [a and b and c] on three probes: a probe is made only when the ones
    before it were true. *)
Definition vold_fstab_needs_update : M bool :=
  userdata <- has_partition_with_label (Some "userdata");;
  if userdata : bool then
    sdcard <- has_partition_with_label (Some "sdcard");;
    if sdcard : bool then is_file_exist "/mnt/lava/system/etc/vold.fstab"
    else ret false
  else ret false.

Definition _deploy_linaro_android_system (systemtbz2 : string) : M unit :=
  logging INFO "Deploying the system filesystem";;
  run "mkdir -p /mnt/lava/system" (-1) false;;
  run "mount /dev/disk/by-label/testrootfs /mnt/lava/system" (-1) false;;
  target_extract systemtbz2 "/mnt/lava" 3600 5;;
  needed <- vold_fstab_needs_update;;
  (if needed : bool then
     original <- format "dev_mount sdcard %s %s "
                   [sdcard_mountpoint_path; str_Z (sdcard_part_android_org cfg)];;
     replacement <- format "dev_mount sdcard %s %s "
                      [sdcard_mountpoint_path; sdcard_part_android];;
     let sed_cmd := "s@" +:+ original +:+ "@" +:+ replacement +:+ "@" in
     cmd <- format sed_vold_fmt [sed_cmd];;
     run cmd (-1) true;;
     run "cat /mnt/lava/system/etc/vold.fstab" (-1) true;;
     ret tt
   else ret tt);;
  script_path <- format "%s/%s" ["/mnt/lava"; "/system/bin/disablesuspend.sh"];;
  present <- is_file_exist script_path;;
  (if negb present then
     cmd <- format "sh -c 'export http_proxy=%s'" [str_option (lava_proxy cfg)];;
     run cmd (-1) false;;
     cmd <- format "wget --no-check-certificate %s -O %s"
              [git_url_disablesuspend_sh; script_path];;
     run cmd (-1) false;;
     cmd <- format "chmod +x %s" [script_path];;
     run cmd (-1) false;;
     cmd <- format "chown :2000 %s" [script_path];;
     run cmd (-1) false;;
     ret tt
   else ret tt);;
  cmd <- format sed_mkshrc_fmt [TESTER_PS1];;
  run cmd (-1) true;;
  run "umount /mnt/lava/system" (-1) false;;
  ret tt.

Definition _purge_linaro_android_sdcard : M unit :=
  logging INFO "Reformatting Linaro Android sdcard filesystem";;
  run "nice mkfs.vfat /dev/disk/by-label/sdcard -n sdcard" (-1) false;;
  run "udevadm trigger" (-1) false;;
  ret tt.

Definition _deploy_linaro_android_data (datatbz2 : string) : M unit :=
  data_label <- _android_data_label;;
  cmd <- format "umount /dev/disk/by-label/%s" [data_label];;
  run cmd (-1) true;;
  cmd <- format "nice mkfs.ext4 -q /dev/disk/by-label/%s -L %s"
           [data_label; data_label];;
  run cmd (-1) false;;
  run "udevadm trigger" (-1) false;;
  run "mkdir -p /mnt/lava/data" (-1) false;;
  cmd <- format "mount /dev/disk/by-label/%s /mnt/lava/data" [data_label];;
  run cmd (-1) false;;
  target_extract datatbz2 "/mnt/lava" 600 5;;
  run "umount /mnt/lava/data" (-1) false;;
  ret tt.

Definition _deploy_android_tarballs (boot system data : string) : M unit :=
  let tmpdir := lava_image_tmpdir cfg in
  let url := lava_image_url cfg in
  let boot := str_replace boot tmpdir EmptyString in
  let system := str_replace system tmpdir EmptyString in
  let data := str_replace data tmpdir EmptyString in
  let boot_url := tarball_url url boot in
  let system_url := tarball_url url system in
  let data_url := tarball_url url data in
  _deploy_linaro_android_boot boot_url;;
  _deploy_linaro_android_system system_url;;
  _deploy_linaro_android_data data_url.

(** The end of the [with] block of [deploy_android]: the sdcard is
    reformatted when the device has both a userdata and an sdcard
    partition. *)
Definition deploy_android_purge : M unit :=
  userdata <- has_partition_with_label (Some "userdata");;
  if userdata : bool then
    sdcard <- has_partition_with_label (Some "sdcard");;
    if sdcard : bool then _purge_linaro_android_sdcard else ret tt
  else ret tt.

(** The [with self._as_master() as master] block of [deploy_android], on
    the three downloaded tarballs. *)
Definition deploy_android_session (boot system data : string) : M unit :=
  _as_master;;
  _format_testpartition "ext4";;
  _deploy_android_tarballs boot system data;;
  deploy_android_purge.

End Target.

(** ** Observations on transcripts and scripts *)

Definition tally (p : event -> bool) (evs : list event) : nat :=
  length (List.filter p evs).

Definition is_sleep (e : event) : bool :=
  match e with Sleep _ => true | _ => false end.
Definition is_run (e : event) : bool :=
  match e with Run _ _ _ => true | _ => false end.

(** The answers that make the fetch-and-unpack command fail in a way the
    retry loop handles: a non-zero exit code ([OperationFailed]) or no
    prompt before the timeout ([pexpect.TIMEOUT]). *)
Definition transfer_fails (r : response) : bool :=
  match r with
  | Reply rc _ => negb (rc =? 0)%nat
  | Silent => true
  | Fails e => is_OperationFailed_or_TIMEOUT e
  | Closed => false
  end.

Definition good_extension (url : string) : bool :=
  endswith url ".gz" || endswith url ".tgz" || endswith url ".bz2".

(** The log lines that mark a pass of the boot loop, a soft reboot and a
    hard reboot. *)
Definition attempt_started (e : event) : bool :=
  match e with
  | Log INFO m => startswith "Booting the system master image. Attempt: " m
  | _ => false
  end.
Definition soft_reboot_started (e : event) : bool :=
  match e with
  | Log INFO m => String.eqb m "Perform soft reboot the system"
  | _ => false
  end.
Definition hard_reboot_started (e : event) : bool :=
  match e with
  | Log INFO m => String.eqb m "Perform hard reset on the system"
  | _ => false
  end.

(** Every one of the next [n] passes of the boot loop ends in
    [attempts += 1; continue]. *)
Fixpoint attempts_all_fail (cfg : Config) (n : nat) (attempts : Z) (w : World)
    : bool :=
  match n with
  | O => true
  | S k =>
      match boot_master_attempt cfg attempts w with
      | (Ok false, w') => attempts_all_fail cfg k (attempts + 1) w'
      | _ => false
      end
  end.

(** What a stretch of a run adds to the transcript, counted by the three
    marks of the boot loop, and what it leaves in [master_ip]. *)
Definition adds (w w' : World) (a s h : nat) : Prop :=
  exists evs, transcript w' = transcript w ++ evs
    /\ tally attempt_started evs = a
    /\ tally soft_reboot_started evs = s
    /\ tally hard_reboot_started evs = h.

(** ** A sample device and console *)

(** A board with a U-Boot style configuration; [retries] is
    [boot_retries]. *)
Definition panda_cfg (retries : Z) : Config :=
  {| master_str := "root@master";
     boot_retries := retries;
     soft_boot_cmd := "reboot";
     hard_reset_command := EmptyString;
     image_boot_msg := "Starting kernel";
     boot_device := "0";
     testboot_offset := 2;
     read_boot_cmds_from_image := true;
     boot_part := 1;
     root_part := 2;
     sdcard_part_android_org := 3;
     data_part_android_org := 5;
     boot_files := ["boot.txt"; "uEnv.txt"];
     boot_cmds := PStr "boot_cmds";
     cp_main := {[ "boot_cmds" := "mmc init,mmc part 0,boot" ]};
     deployment_boot_cmds := "boot_cmds";
     lava_proxy := None;
     lava_image_tmpdir := "/linaro/images/tmp";
     lava_image_url := "http://dispatcher/images/tmp";
     scratch_dir := "/linaro/images/tmp/scratch" |}.

(** A target just constructed, in front of a device that will give the
    [answers] and then stay silent. *)
Definition fresh_world (answers : list response) : World :=
  mkWorld None None None [] answers.

(** A computation only ever adds to the transcript. *)
Definition extending {A} (m : M A) : Prop :=
  forall w, exists evs, transcript (snd (m w)) = transcript w ++ evs.

(** A sequence of calls of [_read_boot_cmds], each with its own
    arguments. *)
Fixpoint read_boot_cmds_calls (cfg : Config)
    (calls : list (option string * option string)) : M unit :=
  match calls with
  | [] => ret tt
  | (image, boot_tgz) :: rest =>
      _read_boot_cmds cfg image boot_tgz;;
      read_boot_cmds_calls cfg rest
  end.

(** The same board when the job file defines interactive boot commands. *)
Definition with_boot_cmds (cmds : pyval) (cfg : Config) : Config :=
  {| master_str := master_str cfg;
     boot_retries := boot_retries cfg;
     soft_boot_cmd := soft_boot_cmd cfg;
     hard_reset_command := hard_reset_command cfg;
     image_boot_msg := image_boot_msg cfg;
     boot_device := boot_device cfg;
     testboot_offset := testboot_offset cfg;
     read_boot_cmds_from_image := read_boot_cmds_from_image cfg;
     boot_part := boot_part cfg;
     root_part := root_part cfg;
     sdcard_part_android_org := sdcard_part_android_org cfg;
     data_part_android_org := data_part_android_org cfg;
     boot_files := boot_files cfg;
     boot_cmds := cmds;
     cp_main := cp_main cfg;
     deployment_boot_cmds := deployment_boot_cmds cfg;
     lava_proxy := lava_proxy cfg;
     lava_image_tmpdir := lava_image_tmpdir cfg;
     lava_image_url := lava_image_url cfg;
     scratch_dir := scratch_dir cfg |}.

(** Stand-ins for the absent helpers, for runs on the sample board: the
    interactive commands of a job file are a list (comment in
    [_boot_linaro_image]); no boot option is overridden; a configuration
    entry lists its commands separated by commas. *)
Definition is_job_list (v : pyval) : bool :=
  match v with PList _ => true | PStr _ => false end.
Definition default_options (default_cmds : string) : gmap string string :=
  {[ "boot_cmds" := default_cmds ]}.
Definition comma_list (text : string) : list string := split_char "," text.

(** The line feed, as a separator. *)
Definition LF : string := String "010" EmptyString.

(** A computation adds none of the three marks of the boot loop. *)
Definition quiet {A} (m : M A) : Prop :=
  forall w, adds w (snd (m w)) 0 0 0.

(** A computation leaves a field of the target as it is. *)
Definition keeps {A S} (f : World -> S) (m : M A) : Prop :=
  forall w, f (snd (m w)) = f w.

(** The fetch-and-unpack command line of [target_extract], for the codec
    letter [dc]. *)
Definition transfer_command (tar_url dest dc : string) : string :=
  "wget --no-check-certificate --no-proxy --connect-timeout=30 -S --progress=dot -e dotbytes=2M -O- "
  +:+ tar_url +:+ " | tar --warning=no-timestamp --numeric-owner -C "
  +:+ dest +:+ " -x" +:+ dc +:+ "f -".

(** The codec letter of a URL with a supported extension. *)
Definition codec (tar_url : string) : string :=
  if endswith tar_url ".gz" || endswith tar_url ".tgz" then "z" else "j".

(** The first extracted path whose base name is [boot_file]: the inner
    loop of the search in the tarball. *)
Definition extracted_as (boot_file : string) (extracted : list string)
    : option string :=
  List.find (fun file_path => String.eqb boot_file (os_path_basename file_path))
    extracted.

(** The same board under deployment data that name another entry of the
    configuration for the boot commands. *)
Definition with_deployment_boot_cmds (key : string) (cfg : Config) : Config :=
  {| master_str := master_str cfg;
     boot_retries := boot_retries cfg;
     soft_boot_cmd := soft_boot_cmd cfg;
     hard_reset_command := hard_reset_command cfg;
     image_boot_msg := image_boot_msg cfg;
     boot_device := boot_device cfg;
     testboot_offset := testboot_offset cfg;
     read_boot_cmds_from_image := read_boot_cmds_from_image cfg;
     boot_part := boot_part cfg;
     root_part := root_part cfg;
     sdcard_part_android_org := sdcard_part_android_org cfg;
     data_part_android_org := data_part_android_org cfg;
     boot_files := boot_files cfg;
     boot_cmds := boot_cmds cfg;
     cp_main := cp_main cfg;
     deployment_boot_cmds := key;
     lava_proxy := lava_proxy cfg;
     lava_image_tmpdir := lava_image_tmpdir cfg;
     lava_image_url := lava_image_url cfg;
     scratch_dir := scratch_dir cfg |}.

(** Every character of [s] satisfies [p]. *)
Fixpoint all_chars (p : ascii -> bool) (s : string) : bool :=
  match s with
  | EmptyString => true
  | String c s' => p c && all_chars p s'
  end.

(** A non-empty run of characters that are not blank: what [\S+] matches
    as a whole. *)
Definition nonblank (s : string) : bool :=
  match s with
  | EmptyString => false
  | _ => all_chars (fun c => negb (Re.is_space c)) s
  end.

(** A non-empty run of characters of the class [p]. *)
Definition run_of (p : ascii -> bool) (s : string) : bool :=
  match s with
  | EmptyString => false
  | _ => all_chars p s
  end.

(** [s] is empty or starts outside the class [p]: a run of [p] stops
    before it. *)
Definition stops (p : ascii -> bool) (s : string) : bool :=
  match s with
  | EmptyString => true
  | String c _ => negb (p c)
  end.

(** The last character of [s] is blank. *)
Fixpoint ends_with_blank (s : string) : bool :=
  match s with
  | EmptyString => false
  | String c EmptyString => Re.is_space c
  | String _ s' => ends_with_blank s'
  end.

(** * Properties *)

Local Open Scope py_scope.

(** ** The string functions on the values the module gives them *)

Example percent_two_arguments :
  percent "transfering %s failed. %d retry left." ["http://h/boot.tgz"; str_Z 4] =
  inr "transfering http://h/boot.tgz failed. 4 retry left.".
Proof. reflexivity. Qed.

Example percent_no_conversion :
  percent "Failed to get network up: " ["network never came up"] =
  inl (TypeError "not all arguments converted during string formatting").
Proof. reflexivity. Qed.

Example os_path_split_target :
  os_path_split "/mnt/lava/results" = ("/mnt/lava", "results").
Proof. reflexivity. Qed.

Example os_path_split_root : os_path_split "/results" = ("/", "results").
Proof. reflexivity. Qed.

Example tarball_url_scratch :
  tarball_url "http://dispatcher/images/tmp"
    (str_replace "/linaro/images/tmp/scratch/boot.tgz" "/linaro/images/tmp"
       EmptyString) =
  "http://dispatcher/images/tmp/scratch/boot.tgz".
Proof. reflexivity. Qed.

Example last_two_of_path :
  join "/" (last_two (split_char "/" "/linaro/images/tmp/scratch/fs.tgz")) =
  "scratch/fs.tgz".
Proof. reflexivity. Qed.

Example partition_ref_match :
  Re.partition_ref "  0:12 0x80200000" = Some (7%nat, "12").
Proof. reflexivity. Qed.

(** ** Running a computation step by step *)

Section Steps.
Context {A B : Type}.

Lemma bind_ret (a : A) (k : A -> M B) w : bind (ret a) k w = k a w.
Proof. reflexivity. Qed.

Lemma bind_raise (e : exn) (k : A -> M B) w :
  bind (raise e) k w = (Raise e, w).
Proof. reflexivity. Qed.

Lemma bind_emit (e : event) (k : unit -> M B) w :
  bind (emit e) k w = k tt (record_event e w).
Proof. reflexivity. Qed.

Lemma bind_get {S} (f : World -> S) (k : S -> M B) w :
  bind (get f) k w = k (f w) w.
Proof. reflexivity. Qed.

Lemma bind_modify (f : World -> World) (k : unit -> M B) w :
  bind (modify f) k w = k tt (f w).
Proof. reflexivity. Qed.

Lemma bind_format fmt args s (k : string -> M B) w :
  percent fmt args = inr s -> bind (format fmt args) k w = k s w.
Proof. intros H. unfold format. rewrite H. reflexivity. Qed.

Lemma bind_format_error fmt args e (k : string -> M B) w :
percent fmt args = inl e -> bind (format fmt args) k w = (Raise e, w).
Proof. intros H. unfold format. rewrite H. reflexivity. Qed.

Lemma bind_recv (k : response -> M B) w :
  bind recv k w = k (hd Silent (script w)) (set_script (tl (script w)) w).
Proof. reflexivity. Qed.
End Steps.

Lemma bind_assoc {A B C} (m : M A) (f : A -> M B) (g : B -> M C) w :
  bind (bind m f) g w = bind m (fun a => bind (f a) g) w.
Proof. unfold bind. destruct (m w) as [[a|e] w']; reflexivity. Qed.

Lemma bind_try_except {A B} (m : M A) sel h (k : A -> M B) w :
  bind (try_except m sel h) k w =
  match m w with
  | (Ok a, w') => k a w'
  | (Raise e, w') => if sel e then bind (h e) k w' else (Raise e, w')
  end.
Proof.
  unfold bind, try_except. destruct (m w) as [[a|e] w']; [reflexivity|].
  destruct (sel e); reflexivity.
Qed.

Lemma bind_try_finally {A B} (m : M A) c (k : A -> M B) w :
  bind (try_finally m c) k w =
  match m w with
  | (r, w') =>
      match c w' with
      | (Ok _, w'') => match r with Ok a => k a w'' | Raise e => (Raise e, w'') end
      | (Raise e, w'') => (Raise e, w'')
      end
  end.
Proof.
  unfold bind, try_finally. destruct (m w) as [r w'].
  destruct (c w') as [[[]|e] w'']; reflexivity.
Qed.

Lemma script_record_event e w : script (record_event e w) = script w.
Proof. reflexivity. Qed.
Lemma transcript_record_event e w :
  transcript (record_event e w) = transcript w ++ [e].
Proof. reflexivity. Qed.
Lemma script_set_script s w : script (set_script s w) = s.
Proof. reflexivity. Qed.
Lemma transcript_set_script s w : transcript (set_script s w) = transcript w.
Proof. reflexivity. Qed.

#[local] Arguments bind : simpl never.
#[local] Arguments recv : simpl never.
#[local] Arguments emit : simpl never.
#[local] Arguments format : simpl never.
#[local] Arguments percent : simpl never.
#[local] Arguments try_except : simpl never.
#[local] Arguments try_finally : simpl never.

Lemma append_empty_r (s : string) : s +:+ EmptyString = s.
Proof.
  induction s as [|c s IH]; [reflexivity|].
  change (String c s +:+ EmptyString) with (String c (s +:+ EmptyString)). now rewrite IH.
Qed.

Ltac fmt_solve := cbv -[String.append str_Z exn_str]; reflexivity.

Ltac mstep :=
  first
    [ rewrite bind_assoc
    | rewrite bind_ret
    | rewrite bind_raise
    | rewrite bind_emit
    | rewrite bind_get
    | rewrite bind_modify
    | erewrite bind_format by fmt_solve
    | erewrite bind_format_error by fmt_solve
    | rewrite bind_try_except
    | rewrite bind_recv ];
  cbn.

Ltac msteps := repeat mstep.

(** ** Tarball transfer *)

Lemma target_extract_attempt_ok url dest dc timeout n w text rest :
  script w = Reply 0 text :: rest ->
  exists w' cmd, target_extract_attempt url dest dc timeout n w = (Ok true, w')
    /\ script w' = rest
    /\ transcript w' = transcript w ++ [Run cmd timeout false].
Proof.
  intros Hs.
  unfold target_extract_attempt.
  unfold run, sendline, sendcontrol, sleep, logging.
  msteps. rewrite Hs. cbn. msteps.
  eexists _, _. split; [reflexivity|]. cbn. split; reflexivity.
Qed.

Lemma target_extract_attempt_fails url dest dc timeout n w r rest :
  script w = r :: rest -> transfer_fails r = true ->
  exists w' evs, target_extract_attempt url dest dc timeout n w = (Ok false, w')
    /\ script w' = rest
    /\ transcript w' = transcript w ++ evs
    /\ List.filter is_sleep evs = match n with O => [] | S _ => [Sleep 60] end
    /\ length (List.filter is_run evs) = 1%nat.
Proof.
  intros Hs Hr.
  unfold target_extract_attempt.
  unfold run, sendline, sendcontrol, sleep, logging.
  msteps. rewrite Hs. cbn.
  assert (Hn : (1 <? Z.of_nat (S n)) = match n with O => false | S _ => true end).
  { destruct n; [reflexivity|]. apply Z.ltb_lt. lia. }
  destruct r as [rc t| | |e]; cbn in Hr; try discriminate.
  - destruct rc; [discriminate|]. cbn. msteps. rewrite Hn.
    destruct n; msteps; eexists _, _; (split; [reflexivity|]); cbn;
      rewrite <- ?app_assoc; (split; [reflexivity|]); (split; [reflexivity|]);
      cbn; auto.
  - msteps. rewrite Hn.
    destruct n; msteps; eexists _, _; (split; [reflexivity|]); cbn;
      rewrite <- ?app_assoc; (split; [reflexivity|]); (split; [reflexivity|]);
      cbn; auto.
  - msteps. rewrite Hr. msteps. rewrite Hn.
    destruct n; msteps; eexists _, _; (split; [reflexivity|]); cbn;
      rewrite <- ?app_assoc; (split; [reflexivity|]); (split; [reflexivity|]);
      cbn; auto.
Qed.

Lemma target_extract_loop_recovers url dest dc timeout text rest :
  forall fails n w,
    forallb transfer_fails fails = true ->
    (length fails < n)%nat ->
    script w = fails ++ Reply 0 text :: rest ->
    exists w' evs,
      target_extract_loop url dest dc timeout n w = (Ok tt, w')
      /\ script w' = rest
      /\ transcript w' = transcript w ++ evs
      /\ List.filter is_sleep evs = repeat (Sleep 60) (length fails)
      /\ length (List.filter is_run evs) = S (length fails).
Proof.
  induction fails as [|r fails IH]; intros n w Hf Hlen Hs.
  - destruct n as [|n]; [cbn in Hlen; lia|]. cbn [target_extract_loop].
    destruct (target_extract_attempt_ok url dest dc timeout n w text rest Hs)
      as (w' & cmd & Hrun & Hs' & Ht).
    unfold bind at 1. rewrite Hrun. cbn.
    exists w', [Run cmd timeout false]. auto.
  - destruct n as [|n]; [cbn in Hlen; lia|]. cbn [target_extract_loop].
    cbn in Hf. apply andb_prop in Hf as [Hr Hf].
    destruct (target_extract_attempt_fails url dest dc timeout n w r
                (fails ++ Reply 0 text :: rest) Hs Hr)
      as (w1 & evs1 & Hrun & Hs1 & Ht1 & Hsl1 & Hrn1).
    unfold bind at 1. rewrite Hrun. cbn [length] in Hlen.
    destruct (IH n w1 Hf ltac:(lia) Hs1) as (w' & evs & Hrun' & Hs' & Ht' & Hsl & Hrn).
    rewrite Hrun'. exists w', (evs1 ++ evs).
    split; [reflexivity|]. split; [assumption|].
    split; [rewrite Ht', Ht1, app_assoc; reflexivity|].
    rewrite !List.filter_app, Hsl1, Hsl, length_app, Hrn1, Hrn.
    destruct n as [|n']; [lia|]. split; reflexivity.
Qed.

Lemma target_extract_loop_exhausted url dest dc timeout rest :
  forall n fails w,
    forallb transfer_fails fails = true ->
    length fails = n ->
    script w = fails ++ rest ->
    exists w' evs,
      target_extract_loop url dest dc timeout n w =
        (Raise (RuntimeError ("extracting " +:+ url +:+ " on target failed")), w')
      /\ script w' = rest
      /\ transcript w' = transcript w ++ evs
      /\ List.filter is_sleep evs = repeat (Sleep 60) (n - 1)
      /\ length (List.filter is_run evs) = n.
Proof.
  induction n as [|n IH]; intros fails w Hf Hlen Hs.
  - destruct fails; [|discriminate]. cbn [target_extract_loop]. msteps.
    exists w, []. rewrite app_nil_r. cbn in Hs. auto.
  - destruct fails as [|r fails]; [discriminate|]. cbn [target_extract_loop].
    cbn in Hf. apply andb_prop in Hf as [Hr Hf]. injection Hlen as Hlen.
    destruct (target_extract_attempt_fails url dest dc timeout n w r
                (fails ++ rest) Hs Hr)
      as (w1 & evs1 & Hrun & Hs1 & Ht1 & Hsl1 & Hrn1).
    unfold bind at 1. rewrite Hrun.
    destruct (IH fails w1 Hf Hlen Hs1) as (w' & evs & Hrun' & Hs' & Ht' & Hsl & Hrn).
    rewrite Hrun'. exists w', (evs1 ++ evs).
    split; [reflexivity|]. split; [assumption|].
    split; [rewrite Ht', Ht1, app_assoc; reflexivity|].
    rewrite !List.filter_app, Hsl1, Hsl, length_app, Hrn1, Hrn.
    destruct n as [|n']; [split; reflexivity|].
    cbn. rewrite Nat.sub_0_r. split; reflexivity.
Qed.

Lemma target_extract_codec url dest timeout num_retry w :
  good_extension url = true ->
  exists dc,
    target_extract url dest timeout num_retry w =
    target_extract_loop url dest dc timeout (Z.to_nat num_retry) w.
Proof.
  unfold good_extension, target_extract. intros H.
  destruct (endswith url ".gz" || endswith url ".tgz") eqn:E.
  - exists "z". reflexivity.
  - cbn in H. rewrite H. exists "j". reflexivity.
Qed.

(** C2. With the default retry count of 5, a transfer whose command fails
    K < 5 times and then succeeds returns normally after exactly K + 1
    attempts and exactly K back-off sleeps of 60 seconds; five consecutive
    failures raise a fatal error after the fifth attempt, with four sleeps
    and no sixth attempt (the answers after the fifth stay unread). *)
Theorem target_extract_retries url dest timeout w fails rest :
  good_extension url = true ->
  forallb transfer_fails fails = true ->
  ((length fails < 5)%nat ->
   forall text, script w = fails ++ Reply 0 text :: rest ->
   exists w' evs,
     target_extract url dest timeout 5 w = (Ok tt, w')
     /\ script w' = rest
     /\ transcript w' = transcript w ++ evs
     /\ List.filter is_sleep evs = repeat (Sleep 60) (length fails)
     /\ length (List.filter is_run evs) = S (length fails))
  /\
  (length fails = 5%nat ->
   script w = fails ++ rest ->
   exists w' evs,
     target_extract url dest timeout 5 w =
       (Raise (RuntimeError ("extracting " +:+ url +:+ " on target failed")), w')
     /\ script w' = rest
     /\ transcript w' = transcript w ++ evs
     /\ List.filter is_sleep evs = repeat (Sleep 60) 4
     /\ length (List.filter is_run evs) = 5%nat).
Proof.
  intros Hext Hf.
  destruct (target_extract_codec url dest timeout 5 w Hext) as [dc ->].
  change (Z.to_nat 5) with 5%nat. split.
  - intros Hlen text Hs.
    exact (target_extract_loop_recovers url dest dc timeout text rest fails 5 w Hf Hlen Hs).
  - intros Hlen Hs.
    exact (target_extract_loop_exhausted url dest dc timeout rest 5 fails w Hf Hlen Hs).
Qed.

(** C7. A transfer URL whose extension is none of .gz, .tgz and .bz2 makes
    [target_extract] raise at once: nothing is sent to the device, no answer
    is consumed, no attempt is made, whatever the retry count. *)
Theorem target_extract_bad_extension url dest timeout num_retry w :
  good_extension url = false ->
  target_extract url dest timeout num_retry w =
    (Raise (RuntimeError ("bad file extension: " +:+ url)), w).
Proof.
  unfold good_extension, target_extract. intros H.
  apply orb_false_elim in H as [H1 H3]. rewrite H1, H3. msteps.
  rewrite append_empty_r. reflexivity.
Qed.

Lemma target_extract_retries_witness :
  exists w' evs,
    target_extract "http://dispatcher/images/tmp/scratch/boot.tgz" "/mnt/boot"
      (-1) 5 (fresh_world [Reply 1 EmptyString; Silent; Reply 0 EmptyString]) =
      (Ok tt, w')
    /\ script w' = []
    /\ transcript w' = [] ++ evs
    /\ List.filter is_sleep evs = [Sleep 60; Sleep 60]
    /\ length (List.filter is_run evs) = 3%nat.
Proof.
  refine (proj1 (target_extract_retries
                   "http://dispatcher/images/tmp/scratch/boot.tgz" "/mnt/boot"
                   (-1) (fresh_world [Reply 1 EmptyString; Silent; Reply 0 EmptyString])
                   [Reply 1 EmptyString; Silent] [] eq_refl eq_refl)
                _ EmptyString _).
  - cbn. lia.
  - reflexivity.
Defined.

Lemma target_extract_bad_extension_witness :
  target_extract "http://dispatcher/images/tmp/scratch/root.tar.xz" "/mnt/root"
    18000 5 (fresh_world [Reply 0 EmptyString]) =
  (Raise (RuntimeError "bad file extension: http://dispatcher/images/tmp/scratch/root.tar.xz"),
   fresh_world [Reply 0 EmptyString]).
Proof.
  apply (target_extract_bad_extension
           "http://dispatcher/images/tmp/scratch/root.tar.xz" "/mnt/root" 18000 5
           (fresh_world [Reply 0 EmptyString])).
  reflexivity.
Defined.

(** ** Existence probes of the master runner *)

Lemma is_file_exist_run path w :
  is_file_exist path w =
  let w1 := set_script (tl (script w))
              (record_event (Run ("ls " +:+ path +:+ " > /dev/null") (-1) true) w) in
  match hd Silent (script w) with
  | Reply rc _ => (Ok (rc =? 0)%nat, w1)
  | Silent => (Raise TIMEOUT, w1)
  | Closed => (Raise EOF, w1)
  | Fails e => (Raise e, w1)
  end.
Proof.
  unfold is_file_exist, run. msteps.
  destruct (hd Silent (script w)) as [rc t| | |e]; cbn; msteps; try reflexivity.
  destruct rc; reflexivity.
Qed.

(** C10. [has_partition_with_label] answers false for a null or empty
    label and leaves the world as it is (no command, no answer consumed);
    for any other label it is [is_file_exist] on the by-label path.
    [is_file_exist] sends the one command [ls <path> > /dev/null], with
    failure allowed, and reads one answer: it returns true for the exit
    code 0 and false for every other exit code, so it is true exactly when
    the exit code of the probe is 0; a timeout, a closed stream or an
    exception of the console passes through. *)
Theorem has_partition_with_label_probe w :
  has_partition_with_label None w = (Ok false, w)
  /\ has_partition_with_label (Some EmptyString) w = (Ok false, w)
  /\ (forall l, l <> EmptyString ->
        has_partition_with_label (Some l) w =
        is_file_exist ("/dev/disk/by-label/" +:+ l) w)
  /\ (forall path,
        let probed :=
          set_script (tl (script w))
            (record_event (Run ("ls " +:+ path +:+ " > /dev/null") (-1) true) w) in
        snd (is_file_exist path w) = probed
        /\ (forall rc text, hd Silent (script w) = Reply rc text ->
              fst (is_file_exist path w) = Ok (rc =? 0)%nat)
        /\ (hd Silent (script w) = Silent ->
              fst (is_file_exist path w) = Raise TIMEOUT)
        /\ (hd Silent (script w) = Closed ->
              fst (is_file_exist path w) = Raise EOF)
        /\ (forall e, hd Silent (script w) = Fails e ->
              fst (is_file_exist path w) = Raise e)
        /\ (fst (is_file_exist path w) = Ok true <->
            exists text, hd Silent (script w) = Reply 0 text)).
Proof.
  split; [reflexivity|]. split; [reflexivity|]. split.
  - intros l Hl. destruct l as [|c l]; [congruence|].
    unfold has_partition_with_label. unfold bind at 1.
    replace (format "/dev/disk/by-label/%s" [String c l])
      with (@ret string ("/dev/disk/by-label/" +:+ String c l)).
    + reflexivity.
    + unfold format. replace (percent "/dev/disk/by-label/%s" [String c l])
        with (@inr exn string ("/dev/disk/by-label/" +:+ (String c l +:+ EmptyString))) by reflexivity.
      rewrite append_empty_r. reflexivity.
  - intros path. rewrite is_file_exist_run. cbv zeta.
    split; [destruct (hd Silent (script w)); reflexivity|].
    split; [intros rc text ->; reflexivity|].
    split; [intros ->; reflexivity|].
    split; [intros ->; reflexivity|].
    split; [intros e ->; reflexivity|].
    destruct (hd Silent (script w)) as [rc t| | |e]; cbn; split;
      try (intros H; discriminate H); try (intros [text H]; discriminate H).
    + destruct rc; [eauto | intros H; discriminate H].
    + intros [text H]. injection H as -> _. reflexivity.
Qed.

Lemma has_partition_with_label_probe_witness :
  has_partition_with_label (Some "userdata") (fresh_world [Reply 2 "ls: cannot access"]) =
  is_file_exist "/dev/disk/by-label/userdata" (fresh_world [Reply 2 "ls: cannot access"])
  /\ is_file_exist "/dev/disk/by-label/userdata"
       (fresh_world [Reply 2 "ls: cannot access"]) =
     (Ok false,
      mkWorld None None None
        [Run "ls /dev/disk/by-label/userdata > /dev/null" (-1) true] [])
  /\ fst (is_file_exist "/dev/disk/by-label/userdata"
            (fresh_world [Reply 0 EmptyString])) = Ok true.
Proof.
  destruct (has_partition_with_label_probe (fresh_world [Reply 2 "ls: cannot access"]))
    as (_ & _ & Hlabel & Hprobe).
  destruct (Hprobe "/dev/disk/by-label/userdata") as (Hworld & Hcode & _).
  split; [apply (Hlabel "userdata"); discriminate|]. split.
  - rewrite (surjective_pairing (is_file_exist _ _)), Hworld.
    rewrite (Hcode 2%nat "ls: cannot access" eq_refl). reflexivity.
  - destruct (has_partition_with_label_probe (fresh_world [Reply 0 EmptyString]))
      as (_ & _ & _ & Hprobe0).
    apply (proj2 (proj2 (proj2 (proj2 (proj2 (Hprobe0 "/dev/disk/by-label/userdata")))))).
    exists EmptyString. reflexivity.
Defined.

(** ** Reboots and the cached master address *)

Lemma soft_reboot_run cfg w :
  _soft_reboot cfg w =
  let w1 := set_script (tl (script w))
      (record_event (Expect [PTimeout; Re "Restarting system.";
                             Re "The system is going down for reboot NOW";
                             Re "Will now restart"; Re "U-Boot"] 120)
      (record_event (Sendline (soft_boot_cmd cfg))
      (record_event (Sendcontrol "c")
      (set_master_ip None
      (record_event (Log INFO "Perform soft reboot the system") w))))) in
  match hd Silent (script w) with
  | Reply O _ | Silent => (Raise (OperationFailed "Soft reboot failed"), w1)
  | Reply (S _) _ => (Ok tt, w1)
  | Closed => (Raise EOF, w1)
  | Fails e => (Raise e, w1)
  end.
Proof.
  unfold _soft_reboot, logging, sendcontrol, sendline, expect. msteps.
  destruct (hd Silent (script w)) as [rc t| | |e]; cbn; msteps; try reflexivity.
  destruct rc; reflexivity.
Qed.

Lemma hard_reboot_run cfg w :
  _hard_reboot cfg w =
  let w0 := set_master_ip None
              (record_event (Log INFO "Perform hard reset on the system") w) in
  if String.eqb (hard_reset_command cfg) EmptyString
  then (Ok tt, record_event EmptyBuffer
                 (record_event (Sendline "hardreset")
                    (record_event (Send "~$") w0)))
  else (Ok tt, record_event (HostCommand (hard_reset_command cfg)) w0).
Proof.
  unfold _hard_reboot, logging, run_command, send, sendline, empty_buffer.
  msteps. destruct (String.eqb (hard_reset_command cfg) EmptyString); cbn; msteps; reflexivity.
Qed.

Lemma boot_master_attempt_forgets_master_ip cfg attempts old w :
  boot_master_attempt cfg attempts (set_master_ip old w) =
  boot_master_attempt cfg attempts w.
Proof.
  unfold boot_master_attempt, logging. msteps.
  match goal with
  | |- bind _ ?k (record_event ?e (set_master_ip old w)) = _ =>
      change (record_event e (set_master_ip old w))
        with (set_master_ip old (record_event e w));
      generalize (record_event e w); intros w0; generalize k; intros k0
  end.
  unfold bind.
  replace (boot_master_reboot cfg (set_master_ip old w0))
    with (boot_master_reboot cfg w0); [reflexivity|].
  unfold boot_master_reboot, try_except.
  replace ((_soft_reboot cfg;; _wait_for_master_boot cfg;; ret true)
             (set_master_ip old w0))
    with ((_soft_reboot cfg;; _wait_for_master_boot cfg;; ret true) w0);
    [reflexivity|].
  unfold bind. rewrite !soft_reboot_run. reflexivity.
Qed.

(** C9. Both reboot operations leave [master_ip] null, whether they return
    or raise; the address held before the reboot has no influence on the
    outcome or on the world after it; and the reset comes first: the reboot
    command is sent from a world whose [master_ip] is already null.  A pass
    of the master boot loop starts with a soft reboot, so it does not
    depend on the address held before it either: what [master_ip] holds
    afterwards is null or the address found in that pass. *)
Theorem reboot_resets_master_ip cfg w :
  master_ip (snd (_soft_reboot cfg w)) = None
  /\ master_ip (snd (_hard_reboot cfg w)) = None
  /\ (forall old,
        _soft_reboot cfg (set_master_ip old w) = _soft_reboot cfg w
        /\ _hard_reboot cfg (set_master_ip old w) = _hard_reboot cfg w)
  /\ (exists w0 rest,
        master_ip w0 = None
        /\ transcript w0 = transcript w ++ [Log INFO "Perform soft reboot the system"]
        /\ transcript (snd (_soft_reboot cfg w)) =
           transcript w0 ++ Sendcontrol "c" :: Sendline (soft_boot_cmd cfg) :: rest)
  /\ (exists w0 cmds,
        master_ip w0 = None
        /\ transcript w0 = transcript w ++ [Log INFO "Perform hard reset on the system"]
        /\ transcript (snd (_hard_reboot cfg w)) = transcript w0 ++ cmds
        /\ cmds <> [])
  /\ (forall old attempts,
        boot_master_attempt cfg attempts (set_master_ip old w) =
        boot_master_attempt cfg attempts w).
Proof.
  rewrite !soft_reboot_run, !hard_reboot_run. cbv zeta.
  split; [|split; [|split; [|split; [|split]]]];
    [| | | | |intros old attempts; apply boot_master_attempt_forgets_master_ip].
  - destruct (hd Silent (script w)) as [[|rc] t| | |e]; reflexivity.
  - destruct (String.eqb (hard_reset_command cfg) EmptyString); reflexivity.
  - intros old. rewrite !soft_reboot_run, !hard_reboot_run. split; reflexivity.
  - exists (set_master_ip None
              (record_event (Log INFO "Perform soft reboot the system") w)).
    eexists. split; [reflexivity|]. split; [reflexivity|].
    destruct (hd Silent (script w)) as [[|rc] t| | |e]; cbn;
      rewrite <- !app_assoc; reflexivity.
  - exists (set_master_ip None
              (record_event (Log INFO "Perform hard reset on the system") w)).
    destruct (String.eqb (hard_reset_command cfg) EmptyString); cbn; eexists;
      (split; [reflexivity|]); (split; [reflexivity|]);
      rewrite <- ?app_assoc; (split; [reflexivity|discriminate]).
Qed.

(** ** Booting the master image *)

Lemma adds_refl w : adds w w 0 0 0.
Proof. exists []. rewrite app_nil_r. repeat split. Qed.

Lemma adds_trans w1 w2 w3 a s h a' s' h' :
  adds w1 w2 a s h -> adds w2 w3 a' s' h' ->
  adds w1 w3 (a + a') (s + s') (h + h').
Proof.
  intros (e1 & T1 & A1 & S1 & H1) (e2 & T2 & A2 & S2 & H2).
  exists (e1 ++ e2). rewrite T2, T1, app_assoc. split; [reflexivity|].
  unfold tally in *. rewrite !List.filter_app, !length_app. lia.
Qed.

Ltac adds_now :=
  eexists; split;
  [ cbn; rewrite <- ?app_assoc; reflexivity
  | repeat split; reflexivity ].

Lemma wait_for_master_boot_adds cfg w :
  adds w (snd (_wait_for_master_boot cfg w)) 0 0 0
  /\ master_ip (snd (_wait_for_master_boot cfg w)) = master_ip w.
Proof.
  unfold _wait_for_master_boot, _wait_for_prompt, expect. msteps.
  destruct (hd Silent (script w)) as [n t| | |e]; cbn; msteps;
    try (split; [adds_now|reflexivity]).
  destruct (hd Silent (tl (script w))) as [n' t'| | |e']; cbn; msteps;
    (split; [adds_now|reflexivity]).
Qed.

Lemma soft_reboot_adds cfg w :
  adds w (snd (_soft_reboot cfg w)) 0 1 0
  /\ master_ip (snd (_soft_reboot cfg w)) = None.
Proof.
  rewrite soft_reboot_run. cbv zeta.
  destruct (hd Silent (script w)) as [[|rc] t| | |e]; cbn;
    (split; [adds_now|reflexivity]).
Qed.

Lemma hard_reboot_adds cfg w :
  adds w (snd (_hard_reboot cfg w)) 0 0 1
  /\ master_ip (snd (_hard_reboot cfg w)) = None
  /\ fst (_hard_reboot cfg w) = Ok tt.
Proof.
  rewrite hard_reboot_run. cbv zeta.
  destruct (String.eqb (hard_reset_command cfg) EmptyString); cbn;
    (split; [adds_now|split; reflexivity]).
Qed.

(** The body of the first [try] and the body of the [try] nested in its
    handler. *)
Lemma soft_path_adds cfg w :
  let r := (_soft_reboot cfg;; _wait_for_master_boot cfg;; ret true) w in
  adds w (snd r) 0 1 0 /\ master_ip (snd r) = None /\ fst r <> Ok false.
Proof.
  cbv zeta. unfold bind.
  destruct (soft_reboot_adds cfg w) as [Ha Hip].
  destruct (_soft_reboot cfg w) as [[[]|e] w1]; cbn in *;
    [|split; [assumption|split; [assumption|discriminate]]].
  destruct (wait_for_master_boot_adds cfg w1) as [Ha' Hip'].
  destruct (_wait_for_master_boot cfg w1) as [[[]|e] w2]; cbn in *;
    (split; [exact (adds_trans _ _ _ _ _ _ _ _ _ Ha Ha')|]);
    (split; [congruence|discriminate]).
Qed.

Lemma hard_path_adds cfg w :
  let r := (_hard_reboot cfg;; _wait_for_master_boot cfg;; ret true) w in
  adds w (snd r) 0 0 1 /\ master_ip (snd r) = None /\ fst r <> Ok false.
Proof.
  cbv zeta. unfold bind.
  destruct (hard_reboot_adds cfg w) as (Ha & Hip & _).
  destruct (_hard_reboot cfg w) as [[[]|e] w1]; cbn in *;
    [|split; [assumption|split; [assumption|discriminate]]].
  destruct (wait_for_master_boot_adds cfg w1) as [Ha' Hip'].
  destruct (_wait_for_master_boot cfg w1) as [[[]|e] w2]; cbn in *;
    (split; [exact (adds_trans _ _ _ _ _ _ _ _ _ Ha Ha')|]);
    (split; [congruence|discriminate]).
Qed.

Lemma log_adds lvl msg w :
  attempt_started (Log lvl msg) = false ->
  soft_reboot_started (Log lvl msg) = false ->
  hard_reboot_started (Log lvl msg) = false ->
  adds w (record_event (Log lvl msg) w) 0 0 0.
Proof.
  intros A S H. exists [Log lvl msg]. split; [reflexivity|].
  unfold tally. cbn [List.filter]. rewrite A, S, H. repeat split.
Qed.

(** A pass that ends in [attempts += 1; continue] inside the first [try]
    has made one soft reboot and one hard reboot. *)
Lemma boot_master_reboot_false cfg w w' :
  boot_master_reboot cfg w = (Ok false, w') ->
  adds w w' 0 1 1 /\ master_ip w' = None.
Proof.
  unfold boot_master_reboot, try_except.
  destruct (soft_path_adds cfg w) as (Ha & Hip & Hne). cbv zeta in *.
  destruct ((_soft_reboot cfg;; _wait_for_master_boot cfg;; ret true) w)
    as [[b|e] w1]; cbn in *.
  - intros [= -> ->]. congruence.
  - destruct (is_OperationFailed_or_TIMEOUT e); [|discriminate].
    unfold logging. msteps.
    set (w2 := record_event _ w1).
    assert (Hlog : adds w1 w2 0 0 0) by (apply log_adds; reflexivity).
    destruct (hard_path_adds cfg w2) as (Hb & Hip2 & Hne2). cbv zeta in *.
    destruct ((_hard_reboot cfg;; _wait_for_master_boot cfg;; ret true) w2)
      as [[b|e2] w3]; cbn in *.
    + intros [= -> ->]. congruence.
    + destruct (is_OperationFailed_or_TIMEOUT e2); [|discriminate].
      msteps. intros [= <-]. split; [|exact Hip2].
      set (w4 := record_event _ w3).
      assert (Hlog' : adds w3 w4 0 0 0) by (apply log_adds; reflexivity).
      exact (adds_trans _ _ _ _ _ _ _ _ _
               (adds_trans _ _ _ _ _ _ _ _ _
                  (adds_trans _ _ _ _ _ _ _ _ _ Ha Hlog) Hb) Hlog').
Qed.

(** The handlers of the second and third [try] build their message with
    [%] from a format that has no conversion: the operator raises
    [TypeError], so these two never reach their [attempts += 1; continue]. *)
Lemma boot_master_prompt_not_false cfg w :
  fst (boot_master_prompt cfg w) <> Ok false.
Proof.
  unfold boot_master_prompt, try_except, sendline, expect, logging. msteps.
  destruct (hd Silent (script w)) as [n t| | |e]; cbn; msteps; try discriminate.
  destruct e; cbn; msteps; discriminate.
Qed.

Lemma boot_master_network_not_false w :
  fst (boot_master_network w) <> Ok false.
Proof.
  unfold boot_master_network, try_except.
  destruct ((ip <- get_target_ip;; modify (set_master_ip ip);;
             v <- get_device_version;; modify (set_device_version v);;
             ret true) w) as [[b|e] w1] eqn:E.
  - revert E. unfold get_target_ip, get_device_version, run_expect, logging.
    msteps.
    destruct (hd Silent (script w)) as [[|n] t| | |e]; cbn; msteps;
      try discriminate;
      match goal with
      | |- context [hd Silent ?s] =>
          destruct (hd Silent s) as [[|n'] t'| | |e']; cbn; msteps;
          intros [= <- _]; discriminate
      end.
  - cbn. destruct (is_NetworkError e); [|discriminate]. unfold logging.
    msteps. discriminate.
Qed.

Lemma boot_master_attempt_false cfg k w w' :
  boot_master_attempt cfg k w = (Ok false, w') ->
  adds w w' 1 1 1 /\ master_ip w' = None.
Proof.
  unfold boot_master_attempt, logging. msteps.
  set (w0 := record_event _ w).
  assert (H0 : adds w w0 1 0 0) by adds_now.
  unfold bind at 1.
  destruct (boot_master_reboot cfg w0) as [[[|]|e] w1] eqn:E1; cbn [negb];
    [| |discriminate].
  - unfold bind at 1.
    pose proof (boot_master_prompt_not_false cfg w1) as Hp.
    destruct (boot_master_prompt cfg w1) as [[[|]|e] w2]; cbn in *;
      [| congruence | discriminate].
    unfold bind at 1.
    pose proof (boot_master_network_not_false w2) as Hn.
    destruct (boot_master_network w2) as [[[|]|e] w3]; cbn in *;
      [| congruence | discriminate].
    unfold bind at 1.
    match goal with
    | |- context [(if ?c then ?a else ?b) w3] =>
        destruct ((if c then a else b) w3) as [[[]|e] w4]
    end; [|discriminate].
    msteps. discriminate.
  - msteps. intros [= <-].
    destruct (boot_master_reboot_false cfg w0 w1 E1) as [Ha Hip].
    split; [|assumption].
    exact (adds_trans _ _ _ _ _ _ _ _ _ H0 Ha).
Qed.

Lemma boot_master_loop_all_fail cfg :
  forall n k w,
    attempts_all_fail cfg n k w = true ->
    exists w', boot_master_loop cfg n k w = (Ok false, w')
      /\ adds w w' n n n
      /\ (n <> O -> master_ip w' = None).
Proof.
  induction n as [|n IH]; intros k w H.
  - exists w. split; [reflexivity|]. split; [apply adds_refl|congruence].
  - cbn [attempts_all_fail] in H. cbn [boot_master_loop]. unfold bind at 1.
    destruct (boot_master_attempt cfg k w) as [[[|]|e] w1] eqn:E;
      try discriminate.
    destruct (boot_master_attempt_false cfg k w w1 E) as [Ha Hip].
    destruct (IH (k + 1) w1 H) as (w' & Hrun & Ha' & Hip').
    exists w'. split; [assumption|].
    split; [exact (adds_trans _ _ _ _ _ _ _ _ _ Ha Ha')|].
    intros _. destruct n as [|n']; [|apply Hip'; discriminate].
    cbn in Hrun. injection Hrun as <-. assumption.
Qed.

(** C1, as the code has it.  For every boot-retry count N >= 1, when every
    pass of the loop ends in its reboot phase (the soft-reboot path and then
    the hard-reboot path fail with OperationFailed or pexpect.TIMEOUT),
    [boot_master_image] makes exactly N passes, each with one soft reboot
    followed by one hard reboot, logs the failure and raises CriticalError;
    [master_ip] is null afterwards. *)
Theorem boot_master_image_exhausts_retries cfg w :
  1 <= boot_retries cfg ->
  attempts_all_fail cfg (Z.to_nat (boot_retries cfg)) 0 w = true ->
  exists w' evs,
    boot_master_image cfg w =
      (Raise (CriticalError "Could not get master image booted properly"), w')
    /\ transcript w' = transcript w ++ evs
    /\ tally attempt_started evs = Z.to_nat (boot_retries cfg)
    /\ tally soft_reboot_started evs = Z.to_nat (boot_retries cfg)
    /\ tally hard_reboot_started evs = Z.to_nat (boot_retries cfg)
    /\ last evs = Some (Log CRITICAL "Could not get master image booted properly")
    /\ master_ip w' = None.
Proof.
  intros HN Hfail.
  destruct (boot_master_loop_all_fail cfg _ _ _ Hfail)
    as (w1 & Hrun & (evs & Ht & Ha & Hs & Hh) & Hip).
  unfold boot_master_image, logging. unfold bind at 1. rewrite Hrun. cbn [negb].
  msteps.
  exists (record_event (Log CRITICAL "Could not get master image booted properly") w1),
         (evs ++ [Log CRITICAL "Could not get master image booted properly"]).
  split; [reflexivity|]. cbn [transcript record_event].
  split; [rewrite Ht, app_assoc; reflexivity|].
  unfold tally in *. rewrite !List.filter_app, !length_app, Ha, Hs, Hh. cbn.
  repeat split; try lia.
  - apply last_snoc.
  - apply Hip. lia.
Qed.

Lemma boot_master_image_exhausts_retries_witness :
  exists w' evs,
    boot_master_image (panda_cfg 3) (fresh_world []) =
      (Raise (CriticalError "Could not get master image booted properly"), w')
    /\ transcript w' = transcript (fresh_world []) ++ evs
    /\ tally attempt_started evs = Z.to_nat (boot_retries (panda_cfg 3))
    /\ tally soft_reboot_started evs = Z.to_nat (boot_retries (panda_cfg 3))
    /\ tally hard_reboot_started evs = Z.to_nat (boot_retries (panda_cfg 3))
    /\ last evs = Some (Log CRITICAL "Could not get master image booted properly")
    /\ master_ip w' = None.
Proof.
  apply (boot_master_image_exhausts_retries (panda_cfg 3) (fresh_world [])).
  - cbn. lia.
  - vm_compute. reflexivity.
Defined.

(** C1 as stated fails: with two retries in front of a silent device both
    passes fail and the error is raised after two passes, but the second
    pass starts with a soft reboot again, and the first one has already
    escalated to a hard reboot: two soft and two hard reboots, not one soft
    reboot followed by one hard reboot. *)
Lemma boot_master_image_every_pass_soft_first :
  let r := boot_master_image (panda_cfg 2) (fresh_world []) in
  attempts_all_fail (panda_cfg 2) 2 0 (fresh_world []) = true
  /\ fst r = Raise (CriticalError "Could not get master image booted properly")
  /\ tally attempt_started (transcript (snd r)) = 2%nat
  /\ ~ (tally soft_reboot_started (transcript (snd r)) = 1%nat
        /\ tally hard_reboot_started (transcript (snd r)) = 1%nat).
Proof.
  cbv zeta. split; [vm_compute; reflexivity|].
  split; [vm_compute; reflexivity|].
  split; [vm_compute; reflexivity|].
  intros [H _]. vm_compute in H. discriminate H.
Qed.

(** The slip in the later handlers, on a run: the device reboots and shows
    the master prompt, but the prompt set by [export PS1] never appears.
    The handler of [pexpect.TIMEOUT] raises [TypeError] while it builds its
    warning, so the first failed pass ends the call: no further attempt, no
    CriticalError. *)
Lemma boot_master_image_prompt_timeout :
  let r := boot_master_image (panda_cfg 3)
             (fresh_world [Reply 1 EmptyString; Reply 0 EmptyString;
                           Reply 0 EmptyString]) in
  fst r = Raise (TypeError "not all arguments converted during string formatting")
  /\ tally attempt_started (transcript (snd r)) = 1%nat.
Proof. cbv zeta. split; vm_compute; reflexivity. Qed.

(** ** Computations only add to the transcript *)

Create HintDb extending.

Lemma extending_ret {A} (a : A) : extending (ret a).
Proof. intros w. exists []. cbn. now rewrite app_nil_r. Qed.

Lemma extending_raise {A} (e : exn) : extending (@raise A e).
Proof. intros w. exists []. cbn. now rewrite app_nil_r. Qed.

Lemma extending_emit (e : event) : extending (emit e).
Proof. intros w. exists [e]. reflexivity. Qed.

Lemma extending_recv : extending recv.
Proof. intros w. exists []. cbn. now rewrite app_nil_r. Qed.

Lemma extending_get {S} (f : World -> S) : extending (get f).
Proof. intros w. exists []. cbn. now rewrite app_nil_r. Qed.

Lemma extending_format fmt args : extending (format fmt args).
Proof.
  unfold format. destruct (percent fmt args); [apply extending_raise|apply extending_ret].
Qed.

Lemma extending_bind {A B} (m : M A) (k : A -> M B) :
  extending m -> (forall a, extending (k a)) -> extending (bind m k).
Proof.
  intros Hm Hk w. unfold bind. destruct (Hm w) as [e1 H1].
  destruct (m w) as [[a|e] w1]; cbn in *; [|eauto].
  destruct (Hk a w1) as [e2 H2]. exists (e1 ++ e2).
  rewrite H2, H1, app_assoc. reflexivity.
Qed.

Lemma extending_try_except {A} (m : M A) sel h :
  extending m -> (forall e, extending (h e)) -> extending (try_except m sel h).
Proof.
  intros Hm Hh w. unfold try_except. destruct (Hm w) as [e1 H1].
  destruct (m w) as [[a|e] w1]; cbn in *; [eauto|].
  destruct (sel e); [|eauto].
  destruct (Hh e w1) as [e2 H2]. exists (e1 ++ e2).
  rewrite H2, H1, app_assoc. reflexivity.
Qed.

Lemma extending_try_finally {A} (m : M A) c :
  extending m -> extending c -> extending (try_finally m c).
Proof.
  intros Hm Hc w. unfold try_finally. destruct (Hm w) as [e1 H1].
  destruct (m w) as [r w1]; cbn in *.
  destruct (Hc w1) as [e2 H2]. exists (e1 ++ e2).
  destruct (c w1) as [[[]|e] w2]; cbn in *; rewrite H2, H1, app_assoc; reflexivity.
Qed.

#[local] Hint Resolve extending_ret extending_raise extending_emit
  extending_recv extending_get extending_format extending_bind
  extending_try_except extending_try_finally : extending.

(** Goals of the form [extending m], by the structure of [m]. *)
Ltac extend :=
  repeat first
    [ progress intros
    | apply extending_bind
    | apply extending_try_except
    | apply extending_try_finally
    | apply extending_ret
    | apply extending_raise
    | apply extending_emit
    | apply extending_recv
    | apply extending_get
    | apply extending_format
    | assumption
    | match goal with
      | |- extending (match ?x with _ => _ end) => destruct x
      | |- extending (let _ := _ in _) => cbv zeta
      end ].

Lemma extending_run cmd timeout failok : extending (run cmd timeout failok).
Proof. unfold run. extend. Qed.

Lemma extending_host op args : extending (host op args).
Proof. unfold host. extend. Qed.

Lemma extending_expect ps timeout : extending (expect ps timeout).
Proof. unfold expect. extend. Qed.

Lemma extending_target_extract_loop url dest dc timeout n :
  extending (target_extract_loop url dest dc timeout n).
Proof.
  induction n as [|n IH]; cbn [target_extract_loop]; [extend|].
  apply extending_bind; [|intros []; [extend|exact IH]].
  unfold target_extract_attempt, sendcontrol, sendline, sleep, logging.
  extend; apply extending_run.
Qed.

Lemma extending_target_extract url dest timeout num_retry :
  extending (target_extract url dest timeout num_retry).
Proof.
  unfold target_extract. extend; apply extending_target_extract_loop.
Qed.

Lemma extending_file_system_upload cfg x : extending (file_system_upload cfg x).
Proof.
  unfold file_system_upload, sendcontrol. extend;
    first [apply extending_host | apply extending_run | apply extending_target_extract].
Qed.

(** ** Exchange of a directory with the host *)

Lemma file_system_release_transcript w :
  transcript (snd (file_system_release w)) =
  transcript w ++ [Sendcontrol "c"; Run "umount /mnt" (-1) false].
Proof.
  unfold file_system_release, sendcontrol, run. msteps.
  destruct (hd Silent (script w)) as [[|rc] t| | |e]; cbn; msteps; cbn;
    rewrite <- app_assoc; reflexivity.
Qed.

Lemma try_finally_world {A} (m : M A) c w :
  snd (try_finally m c w) = snd (c (snd (m w))).
Proof.
  unfold try_finally. destruct (m w) as [r w1]. cbn.
  destruct (c w1) as [[[]|e] w2]; reflexivity.
Qed.

(** C3. Once [file_system] has mounted the partition, whatever happens
    next, the last two things it does before control returns to the caller
    are to interrupt the HTTP server (control-C) and to issue
    [umount /mnt].  In particular, when the block of the [with] statement
    has run, whether it returned or raised, the world it left is followed
    by the upload, then by the interrupt and the unmount.  When the mount
    itself fails nothing was mounted and the exception passes through. *)
Theorem file_system_always_releases cfg {A} partition directory
    (body : string -> M A) w :
  match file_system_mount cfg partition directory w with
  | (Raise e, w1) =>
      file_system cfg partition directory body w = (Raise e, w1)
  | (Ok _, w1) =>
      match file_system_serve cfg directory w1 with
      | (Raise e, w2) =>
          transcript (snd (file_system cfg partition directory body w)) =
          transcript w2 ++ [Sendcontrol "c"; Run "umount /mnt" (-1) false]
      | (Ok x, w2) =>
          let wb := snd (file_system_yield x body w2) in
          exists evs,
            transcript (snd (file_system cfg partition directory body w)) =
            transcript wb ++ evs ++ [Sendcontrol "c"; Run "umount /mnt" (-1) false]
      end
  end.
Proof.
  destruct (file_system_mount cfg partition directory w) as [[dev|e] w1] eqn:Em.
  - assert (Hfs : snd (file_system cfg partition directory body w) =
                  snd (file_system_release
                         (snd (file_system_exchange cfg directory body w1)))).
    { unfold file_system, bind. rewrite Em. apply try_finally_world. }
    rewrite Hfs, file_system_release_transcript.
    destruct (file_system_serve cfg directory w1) as [[x|e] w2] eqn:Es.
    + assert (Hex : snd (file_system_exchange cfg directory body w1) =
                    snd (file_system_upload cfg x
                           (snd (file_system_yield x body w2)))).
      { unfold file_system_exchange, bind. rewrite Es. apply try_finally_world. }
      cbv zeta. rewrite Hex.
      destruct (extending_file_system_upload cfg x
                  (snd (file_system_yield x body w2))) as [evs Hevs].
      exists evs. rewrite Hevs, <- app_assoc. reflexivity.
    + unfold file_system_exchange, bind. rewrite Es. reflexivity.
  - unfold file_system, bind. rewrite Em. reflexivity.
Qed.

(** A run in which the block of the [with] statement raises: the
    exception of the block is what the caller sees, the directory has been
    sent back, and the transcript ends with the interrupt and the
    unmount. *)
Lemma file_system_block_raises :
  let r := file_system (panda_cfg 3) 1 "lava/results"
             (fun _ => @raise unit (RuntimeError "no results"))
             (fresh_world
                [Reply 0 EmptyString; Reply 0 EmptyString; Reply 0 EmptyString;
                 Reply 0 EmptyString; Reply 0 EmptyString; Reply 0 "8000";
                 Reply 0 "/linaro/images/tmp/scratch/fs.tgz"; Reply 0 "1383.5";
                 Reply 0 EmptyString; Reply 0 EmptyString; Reply 0 EmptyString;
                 Reply 0 EmptyString; Reply 0 EmptyString; Reply 0 EmptyString]) in
  fst r = Raise (RuntimeError "no results")
  /\ script (snd r) = []
  /\ skipn (length (transcript (snd r)) - 2) (transcript (snd r)) =
     [Sendcontrol "c"; Run "umount /mnt" (-1) false].
Proof. cbv zeta. repeat split; vm_compute; reflexivity. Qed.

(** ** Deployment of the tarballs *)

(** C6, as the code has it.  An exception raised by the transfer and
    customization steps ([_deploy_linaro_rootfs], [_deploy_linaro_bootfs])
    is caught, logged and replaced by the single CriticalError
    "Deployment failed", and nothing is sent to the device afterwards: the
    world is the one the failure left, plus the log line.  An exception
    raised before the [try] (the session or the formatting of the
    partitions) leaves [_deploy_tarballs] as it is. *)
Theorem deploy_tarballs_failure cfg boot_tgz root_tgz w :
  let boot_url := tarball_url (lava_image_url cfg)
                    (str_replace boot_tgz (lava_image_tmpdir cfg) EmptyString) in
  let root_url := tarball_url (lava_image_url cfg)
                    (str_replace root_tgz (lava_image_tmpdir cfg) EmptyString) in
  match deploy_tarballs_prepare cfg w with
  | (Raise e, w1) => _deploy_tarballs cfg boot_tgz root_tgz w = (Raise e, w1)
  | (Ok _, w1) =>
      match deploy_tarballs_steps boot_url root_url w1 with
      | (Ok _, w2) => _deploy_tarballs cfg boot_tgz root_tgz w = (Ok tt, w2)
      | (Raise _, w2) =>
          _deploy_tarballs cfg boot_tgz root_tgz w =
          (Raise (CriticalError "Deployment failed"),
           record_event (Log ERROR "Deployment failed") w2)
      end
  end.
Proof.
  cbv zeta. unfold _deploy_tarballs.
  destruct (deploy_tarballs_prepare cfg w) as [[[]|e] w1] eqn:Ep.
  - destruct (deploy_tarballs_steps _ _ w1) as [[[]|e] w2] eqn:Es;
      unfold bind, try_except; rewrite Ep, Es; reflexivity.
  - unfold bind. rewrite Ep. reflexivity.
Qed.

(** C6 as stated fails for the formatting step: the master prompt is
    there, the first umount succeeds and mkfs exits with code 1.  The
    OperationFailed of [runner.run] leaves [_deploy_tarballs] unchanged; it
    is neither logged as a deployment failure nor turned into a
    CriticalError. *)
Lemma deploy_tarballs_format_failure_not_critical :
  let r := _deploy_tarballs (panda_cfg 3)
             "/linaro/images/tmp/scratch/boot.tgz"
             "/linaro/images/tmp/scratch/root.tgz"
             (fresh_world [Reply 0 EmptyString; Reply 0 EmptyString;
                           Reply 1 EmptyString]) in
  fst r = Raise (OperationFailed
                   "executing nice mkfs -t ext4 -q /dev/disk/by-label/testrootfs -L testrootfs failed")
  /\ (forall msg, fst r <> Raise (CriticalError msg))
  /\ last (transcript (snd r)) =
       Some (Run "nice mkfs -t ext4 -q /dev/disk/by-label/testrootfs -L testrootfs"
               1800 false).
Proof.
  cbv zeta. split; [vm_compute; reflexivity|].
  split; [intros msg H; vm_compute in H; discriminate H|].
  vm_compute. reflexivity.
Qed.

(** A transfer that fails is wrapped: the root tarball cannot be fetched
    (five failures), [target_extract] raises RuntimeError, and
    [_deploy_tarballs] raises CriticalError; the last thing in the
    transcript is the log line, no unmount or other rollback follows. *)
Lemma deploy_tarballs_transfer_failure_critical :
  let r := _deploy_tarballs (panda_cfg 3)
             "/linaro/images/tmp/scratch/boot.tgz"
             "/linaro/images/tmp/scratch/root.tgz"
             (fresh_world (repeat (Reply 0 EmptyString) 8)) in
  fst r = Raise (CriticalError "Deployment failed")
  /\ last (transcript (snd r)) = Some (Log ERROR "Deployment failed")
  /\ tally is_run (transcript (snd r)) = 12%nat.
Proof. cbv zeta. repeat split; vm_compute; reflexivity. Qed.

(** ** Boot commands read from the image are kept *)

Lemma read_boot_cmds_cached cfg image boot_tgz w cmds :
  boot_cmds_dynamic w = Some cmds ->
  _read_boot_cmds cfg image boot_tgz w =
  (Ok tt,
   if read_boot_cmds_from_image cfg
   then record_event (Log DEBUG "We already have boot commands in place.") w
   else w).
Proof.
  intros H. unfold _read_boot_cmds, logging.
  destruct (read_boot_cmds_from_image cfg); cbn [negb]; [|reflexivity].
  msteps. rewrite H. reflexivity.
Qed.

(** C8. Once [__boot_cmds_dynamic__] holds commands, every later call of
    [_read_boot_cmds] on the same target, whatever its arguments, returns
    normally with the same commands in place; it reads nothing from the
    host (no answer is consumed) and adds nothing to the transcript but its
    debug line.  The same holds for any number of later calls. *)
Theorem read_boot_cmds_once cfg w cmds :
  boot_cmds_dynamic w = Some cmds ->
  (forall image boot_tgz,
     let r := _read_boot_cmds cfg image boot_tgz w in
     fst r = Ok tt
     /\ boot_cmds_dynamic (snd r) = Some cmds
     /\ script (snd r) = script w
     /\ exists logs, transcript (snd r) = transcript w ++ logs
          /\ Forall (fun e => e = Log DEBUG "We already have boot commands in place.") logs)
  /\ (forall calls,
        let r := read_boot_cmds_calls cfg calls w in
        fst r = Ok tt
        /\ boot_cmds_dynamic (snd r) = Some cmds
        /\ script (snd r) = script w).
Proof.
  intros H. split.
  - intros image boot_tgz. cbv zeta.
    rewrite (read_boot_cmds_cached cfg image boot_tgz w cmds H). cbn.
    destruct (read_boot_cmds_from_image cfg); cbn.
    + repeat split; try assumption. eexists. split; [reflexivity|].
      repeat constructor.
    + repeat split; try assumption. exists []. rewrite app_nil_r.
      split; [reflexivity|constructor].
  - intros calls. cbv zeta. revert w H.
    induction calls as [|[image boot_tgz] rest IH]; intros w H.
    + cbn. auto.
    + cbn [read_boot_cmds_calls]. unfold bind.
      rewrite (read_boot_cmds_cached cfg image boot_tgz w cmds H).
      destruct (read_boot_cmds_from_image cfg).
      * destruct (IH (record_event (Log DEBUG "We already have boot commands in place.") w) H)
          as (Hr & Hd & Hs).
        repeat split; assumption.
      * apply IH. assumption.
Qed.

Lemma read_boot_cmds_once_witness :
  let w1 := snd (_read_boot_cmds (panda_cfg 3) None (Some "/scratch/boot.tgz")
                   (fresh_world [Reply 0 "/tmp/tmpA"; Reply 0 "/tmp/tmpA/boot.txt";
                                 Reply 1 EmptyString;
                                 Reply 0 "setenv bootargs root=UUID=4f1e-22 ro";
                                 Reply 0 "/tmp/tmpB"])) in
  boot_cmds_dynamic w1 = Some ["setenv bootargs root=LABEL=testrootfs ro"]
  /\ script w1 = [Reply 0 "/tmp/tmpB"]
  /\ boot_cmds_dynamic
       (snd (_read_boot_cmds (panda_cfg 3) (Some "/scratch/other.img") None w1)) =
     Some ["setenv bootargs root=LABEL=testrootfs ro"]
  /\ script (snd (_read_boot_cmds (panda_cfg 3) (Some "/scratch/other.img") None w1)) =
     [Reply 0 "/tmp/tmpB"].
Proof.
  intros w1.
  assert (H1 : boot_cmds_dynamic w1 = Some ["setenv bootargs root=LABEL=testrootfs ro"])
    by (vm_compute; reflexivity).
  assert (H2 : script w1 = [Reply 0 "/tmp/tmpB"]) by (vm_compute; reflexivity).
  destruct (proj1 (read_boot_cmds_once (panda_cfg 3) w1 _ H1)
              (Some "/scratch/other.img") None) as (_ & Hd & Hs & _).
  split; [exact H1|]. split; [exact H2|]. split; [exact Hd|].
  rewrite Hs. exact H2.
Defined.

(** ** Which boot commands are used *)

(** C4. The choice of boot commands in [_boot_linaro_image] follows one
    fixed order, and what is chosen is what [_boot] is called with.
    Interactive commands defined by the job are used whenever they are
    there, whatever the boot options and whether or not commands were read
    from the image; otherwise a [boot_cmds] boot option that differs from
    the literal "boot_cmds" names the configuration entry to use; otherwise
    the commands read from the image are used when there are some;
    otherwise the entry named by the deployment data is used.  An entry of
    the configuration is encoded as ASCII before it is split: a missing
    entry ends the call with NoOptionError and an entry that is not ASCII
    with UnicodeError, in both cases before any reboot.  Each case logs its
    own line, then the chosen commands. *)
Theorem boot_linaro_image_precedence cfg as_dict job_defined string_to_list
    (enter : M unit) (customize : pyval -> M unit) w :
  let options : gmap string string := as_dict (deployment_boot_cmds cfg) in
  let run := _boot_linaro_image cfg as_dict job_defined string_to_list
               enter customize w in
  let logged lines :=
    fold_left (fun w' line => record_event (Log INFO line) w') lines w in
  let boots cmds lines :=
    run = _boot cfg enter customize cmds
            (logged (lines ++ ["boot_cmds: " +:+ str_pyval cmds])) in
  let from_config key lines :=
    match cp_main cfg !! key with
    | None => run = (Raise (NoOptionError key), logged lines)
    | Some text =>
        match encode_ascii text with
        | inr ascii_text => boots (PList (string_to_list ascii_text)) lines
        | inl e => run = (Raise e, logged lines)
        end
    end in
  let overridden :=
    exists value, options !! "boot_cmds" = Some value /\ value <> "boot_cmds" in
  (job_defined (boot_cmds cfg) = true ->
   boots (boot_cmds cfg) ["Overriding boot_cmds from job file"])
  /\ (job_defined (boot_cmds cfg) = false ->
      forall value, options !! "boot_cmds" = Some value -> value <> "boot_cmds" ->
      from_config value ["Overriding boot_cmds from boot_options";
                         "boot_option=" +:+ value])
  /\ (job_defined (boot_cmds cfg) = false -> ~ overridden ->
      forall cmds, boot_cmds_dynamic w = Some cmds ->
      boots (PList cmds) ["Loading boot_cmds from image"])
  /\ (job_defined (boot_cmds cfg) = false -> ~ overridden ->
      boot_cmds_dynamic w = None ->
      from_config (deployment_boot_cmds cfg)
        ["Loading boot_cmds from device configuration"]).
Proof.
  cbv zeta. unfold _boot_linaro_image, select_boot_cmds, logging, cp_get, encode.
  destruct (job_defined (boot_cmds cfg)) eqn:Ej.
  { msteps. repeat split; intros; try discriminate; reflexivity. }
  split; [discriminate|].
  destruct (as_dict (deployment_boot_cmds cfg) !! "boot_cmds") as [value|] eqn:Eo.
  - destruct (String.eqb_spec value "boot_cmds") as [->|Hne]; cbn [negb].
    + split; [intros _ v [= <-] Hv; congruence|].
      split;
        [|intros _ _ Ed; msteps; rewrite Ed; msteps;
          destruct (cp_main cfg !! deployment_boot_cmds cfg) as [text|]; msteps;
          [|reflexivity];
          destruct (encode_ascii text) as [e|ascii_text]; msteps; reflexivity].
      intros _ _ cmds Ed. msteps. rewrite Ed. msteps. reflexivity.
    + split.
      * intros _ v [= <-] _. msteps. cbn [default].
        rewrite append_empty_r.
        destruct (cp_main cfg !! value) as [text|]; msteps; [|reflexivity].
        destruct (encode_ascii text) as [e|ascii_text]; msteps; reflexivity.
      * split; intros _ Hno; exfalso; apply Hno; eauto.
  - split; [intros _ v H; discriminate H|].
    split;
      [|intros _ _ Ed; msteps; rewrite Ed; msteps;
        destruct (cp_main cfg !! deployment_boot_cmds cfg) as [text|]; msteps;
        [|reflexivity];
        destruct (encode_ascii text) as [e|ascii_text]; msteps; reflexivity].
    intros _ _ cmds Ed. msteps. rewrite Ed. msteps. reflexivity.
Qed.

Lemma boot_linaro_image_precedence_witness :
  let cfg := with_boot_cmds (PList ["mmc rescan"; "bootm 0x80200000"]) (panda_cfg 3) in
  let w := set_boot_cmds_dynamic (Some ["fatload mmc 0:5 0x80200000 uImage"])
             (fresh_world []) in
  _boot_linaro_image cfg default_options is_job_list comma_list
    (sendline EmptyString) (fun cmds => sendline (str_pyval cmds)) w =
  _boot cfg (sendline EmptyString) (fun cmds => sendline (str_pyval cmds))
    (PList ["mmc rescan"; "bootm 0x80200000"])
    (record_event (Log INFO "boot_cmds: ['mmc rescan', 'bootm 0x80200000']")
       (record_event (Log INFO "Overriding boot_cmds from job file") w)).
Proof.
  exact (proj1 (boot_linaro_image_precedence
                  (with_boot_cmds (PList ["mmc rescan"; "bootm 0x80200000"])
                     (panda_cfg 3))
                  default_options is_job_list comma_list
                  (sendline EmptyString) (fun cmds => sendline (str_pyval cmds))
                  (set_boot_cmds_dynamic (Some ["fatload mmc 0:5 0x80200000 uImage"])
                     (fresh_world [])))
           eq_refl).
Defined.

(** ** Rewriting of the boot commands *)

Lemma sub_from_no_match m repl limited s :
  Re.search m s = false ->
  forall count, Re.sub_from m repl limited count O s = s.
Proof.
  induction s as [|c s IH]; intros H count; [reflexivity|].
  cbn [Re.sub_from]. destruct (limited && (count =? 0)%nat); [reflexivity|].
  cbn [Re.search] in H.
  destruct (m (String c s)) as [[[|len] group]|]; try discriminate;
    rewrite (IH H); reflexivity.
Qed.

Lemma split_char_cons sep s : exists p rest, split_char sep s = p :: rest.
Proof.
  destruct s as [|c s]; cbn; [eauto|].
  destruct (Ascii.eqb c sep); [eauto|].
  destruct (split_char sep s); eauto.
Qed.

Lemma join_split_char sep s :
  join (String sep EmptyString) (split_char sep s) = s.
Proof.
  induction s as [|c s IH]; [reflexivity|]. cbn [split_char].
  destruct (Ascii.eqb_spec c sep) as [->|Hne].
  - destruct (split_char_cons sep s) as (p & rest & E). rewrite E in *.
    change (join (String sep EmptyString) (EmptyString :: p :: rest))
      with (String sep (join (String sep EmptyString) (p :: rest))).
    now rewrite IH.
  - destruct (split_char sep s) as [|p [|q rest]] eqn:E.
    + destruct (split_char_cons sep s) as (p & rest & E'). congruence.
    + cbn in *. now rewrite IH.
    + change (join (String sep EmptyString) (String c p :: q :: rest))
        with (String c (join (String sep EmptyString) (p :: q :: rest))).
      now rewrite IH.
Qed.

(** C5, as the code has it.  On a command blob that contains no
    root=UUID= reference and no blank-delimited <major>:<minor> reference
    the rewrite changes nothing (the result is the blob, split into
    lines), and rewriting the result again gives the same lines. *)
Theorem rewrite_boot_cmds_without_references cfg blob :
  Re.search Re.root_uuid blob = false ->
  Re.search Re.partition_ref blob = false ->
  _rewrite_boot_cmds cfg blob = split_char "010" blob
  /\ _rewrite_boot_cmds cfg (join LF (_rewrite_boot_cmds cfg blob)) =
     _rewrite_boot_cmds cfg blob.
Proof.
  intros Hu Hp.
  assert (H : rewrite_boot_text cfg blob = blob).
  { unfold rewrite_boot_text, Re.sub.
    rewrite (sub_from_no_match _ _ _ _ Hu). apply sub_from_no_match, Hp. }
  unfold _rewrite_boot_cmds. rewrite H. split; [reflexivity|].
  unfold LF. rewrite join_split_char, H. reflexivity.
Qed.

Lemma rewrite_boot_cmds_without_references_witness :
  _rewrite_boot_cmds (panda_cfg 3)
    ("setenv bootcmd bootm 0x80200000" +:+ LF +:+ "boot") =
  ["setenv bootcmd bootm 0x80200000"; "boot"]
  /\ _rewrite_boot_cmds (panda_cfg 3)
       (join LF (_rewrite_boot_cmds (panda_cfg 3)
                   ("setenv bootcmd bootm 0x80200000" +:+ LF +:+ "boot"))) =
     _rewrite_boot_cmds (panda_cfg 3)
       ("setenv bootcmd bootm 0x80200000" +:+ LF +:+ "boot").
Proof.
  destruct (rewrite_boot_cmds_without_references (panda_cfg 3)
              ("setenv bootcmd bootm 0x80200000" +:+ LF +:+ "boot")
              eq_refl eq_refl) as [H1 H2].
  split; [rewrite H1; reflexivity|exact H2].
Defined.

(** C5 as stated fails: a blob without root=UUID= whose partition
    reference already carries the offset (partition 3 + 2 = 5 on device 0)
    is offset again by the rewrite, and once more by a second rewrite of
    the result. *)
Lemma rewrite_boot_cmds_offsets_again :
  let blob := "fatload mmc 0:5 0x80200000 uImage" in
  let once := _rewrite_boot_cmds (panda_cfg 3) blob in
  let twice := _rewrite_boot_cmds (panda_cfg 3) (join LF once) in
  Re.search Re.root_uuid blob = false
  /\ once = ["fatload mmc 0:7 0x80200000 uImage"]
  /\ twice = ["fatload mmc 0:9 0x80200000 uImage"]
  /\ twice <> once.
Proof.
  cbv zeta. split; [reflexivity|]. split; [vm_compute; reflexivity|].
  split; [vm_compute; reflexivity|]. vm_compute. discriminate.
Qed.

(** What the rewrite does to a blob with both kinds of reference, and the
    effect of [re.MULTILINE] in the place of [count]: the ninth root=UUID=
    reference is left as it is. *)
Lemma rewrite_boot_cmds_sample :
  _rewrite_boot_cmds (panda_cfg 3)
    ("setenv bootargs console=ttyO2 root=UUID=4f1e-22 ro" +:+ LF +:+
     "fatload mmc 0:3 0x80200000 uImage") =
  ["setenv bootargs console=ttyO2 root=LABEL=testrootfs ro";
   "fatload mmc 0:5 0x80200000 uImage"].
Proof. vm_compute. reflexivity. Qed.

Lemma rewrite_boot_cmds_ninth_uuid :
  rewrite_boot_text (panda_cfg 3)
    "root=UUID=1 root=UUID=2 root=UUID=3 root=UUID=4 root=UUID=5 root=UUID=6 root=UUID=7 root=UUID=8 root=UUID=9" =
  "root=LABEL=testrootfs root=LABEL=testrootfs root=LABEL=testrootfs root=LABEL=testrootfs root=LABEL=testrootfs root=LABEL=testrootfs root=LABEL=testrootfs root=LABEL=testrootfs root=UUID=9".
Proof. vm_compute. reflexivity. Qed.

(** * Further properties of the module *)

(** ** Computations that add no mark of the boot loop *)

Lemma quiet_ret {A} (a : A) : quiet (ret a).
Proof. intros w. apply adds_refl. Qed.

Lemma quiet_raise {A} (e : exn) : quiet (@raise A e).
Proof. intros w. apply adds_refl. Qed.

Lemma quiet_recv : quiet recv.
Proof. intros w. exists []. cbn. rewrite app_nil_r. repeat split. Qed.

Lemma quiet_get {S} (f : World -> S) : quiet (get f).
Proof. intros w. apply adds_refl. Qed.

Lemma quiet_modify_master_ip ip : quiet (modify (set_master_ip ip)).
Proof. intros w. exists []. cbn. rewrite app_nil_r. repeat split. Qed.

Lemma quiet_modify_device_version v : quiet (modify (set_device_version v)).
Proof. intros w. exists []. cbn. rewrite app_nil_r. repeat split. Qed.

Lemma quiet_emit (e : event) :
  attempt_started e = false -> soft_reboot_started e = false ->
  hard_reboot_started e = false -> quiet (emit e).
Proof.
  intros A S H w. exists [e]. split; [reflexivity|].
  unfold tally. cbn [List.filter]. rewrite A, S, H. repeat split.
Qed.

Lemma quiet_bind {A B} (m : M A) (k : A -> M B) :
  quiet m -> (forall a, quiet (k a)) -> quiet (bind m k).
Proof.
  intros Hm Hk w. unfold bind. specialize (Hm w).
  destruct (m w) as [[a|e] w1]; cbn in *; [|assumption].
  exact (adds_trans _ _ _ _ _ _ _ _ _ Hm (Hk a w1)).
Qed.

Lemma quiet_format_bind {A} fmt args (k : string -> M A) :
  (forall s, percent fmt args = inr s -> quiet (k s)) ->
  quiet (bind (format fmt args) k).
Proof.
  intros Hk w. unfold bind, format.
  destruct (percent fmt args) as [e|s]; cbn; [apply adds_refl|].
  apply Hk. reflexivity.
Qed.

Lemma quiet_try_except {A} (m : M A) sel h :
  quiet m -> (forall e, quiet (h e)) -> quiet (try_except m sel h).
Proof.
  intros Hm Hh w. unfold try_except. specialize (Hm w).
  destruct (m w) as [[a|e] w1]; cbn in *; [assumption|].
  destruct (sel e); [|assumption].
  exact (adds_trans _ _ _ _ _ _ _ _ _ Hm (Hh e w1)).
Qed.

(** Goals of the form [quiet m], by the structure of [m]. *)
Ltac hush :=
  repeat first
    [ progress intros
    | apply quiet_format_bind
    | apply quiet_bind
    | apply quiet_try_except
    | apply quiet_ret
    | apply quiet_raise
    | apply quiet_recv
    | apply quiet_get
    | apply quiet_modify_master_ip
    | apply quiet_modify_device_version
    | apply quiet_emit; reflexivity
    | match goal with
      | |- quiet (match ?x with _ => _ end) => destruct x
      end ].

Lemma quiet_run cmd timeout failok : quiet (run cmd timeout failok).
Proof. unfold run. hush. Qed.

Lemma quiet_expect ps timeout : quiet (expect ps timeout).
Proof. unfold expect. hush. Qed.

Lemma quiet_boot_master_prompt cfg : quiet (boot_master_prompt cfg).
Proof.
  unfold boot_master_prompt, sendline, logging. hush; apply quiet_expect.
Qed.

Lemma quiet_boot_master_network : quiet boot_master_network.
Proof.
  unfold boot_master_network, get_target_ip, get_device_version, run_expect,
    logging.
  hush.
Qed.

(** ** The boot loop in front of any device *)

(** The first [try] of a pass, whatever its outcome: one soft reboot, at
    most one hard reboot. *)
Lemma boot_master_reboot_any cfg w :
  exists h, (h <= 1)%nat /\ adds w (snd (boot_master_reboot cfg w)) 0 1 h.
Proof.
  unfold boot_master_reboot, try_except.
  destruct (soft_path_adds cfg w) as (Ha & _ & _). cbv zeta in *.
  destruct ((_soft_reboot cfg;; _wait_for_master_boot cfg;; ret true) w)
    as [[b|e] w1]; cbn in *; [exists O; split; [lia|assumption]|].
  destruct (is_OperationFailed_or_TIMEOUT e);
    [|exists O; split; [lia|assumption]].
  unfold logging. msteps.
  set (w2 := record_event _ w1).
  assert (Hlog : adds w1 w2 0 0 0) by (apply log_adds; reflexivity).
  destruct (hard_path_adds cfg w2) as (Hb & _ & _). cbv zeta in *.
  pose proof (adds_trans _ _ _ _ _ _ _ _ _
                (adds_trans _ _ _ _ _ _ _ _ _ Ha Hlog) Hb) as H3.
  exists 1%nat. split; [lia|].
  destruct ((_hard_reboot cfg;; _wait_for_master_boot cfg;; ret true) w2)
    as [[b|e2] w3]; cbn in *; [exact H3|].
  destruct (is_OperationFailed_or_TIMEOUT e2); [|exact H3].
  msteps. cbn.
  set (w4 := record_event _ w3).
  assert (Hlog' : adds w3 w4 0 0 0) by (apply log_adds; reflexivity).
  exact (adds_trans _ _ _ _ _ _ _ _ _ H3 Hlog').
Qed.

(** What follows the first [try] in a pass adds no mark. *)
Lemma quiet_boot_master_rest cfg :
  quiet (prompted <- boot_master_prompt cfg;;
         if negb prompted then ret false else
         connected <- boot_master_network;;
         if negb connected then ret false else
         (if truthy (lava_proxy cfg) then
            logging INFO "Setting up http proxy";;
            cmd <- format "export http_proxy=%s" [default EmptyString (lava_proxy cfg)];;
            run cmd 30 false;;
            ret tt
          else ret tt);;
         logging INFO "System is in master image now";;
         ret true).
Proof.
  apply quiet_bind; [apply quiet_boot_master_prompt|]. intros prompted.
  destruct prompted; cbn [negb]; [|apply quiet_ret].
  apply quiet_bind; [apply quiet_boot_master_network|]. intros connected.
  destruct connected; cbn [negb]; [|apply quiet_ret].
  unfold logging. hush; apply quiet_run.
Qed.

Lemma boot_master_attempt_any cfg k w :
  exists h, (h <= 1)%nat /\ adds w (snd (boot_master_attempt cfg k w)) 1 1 h.
Proof.
  unfold boot_master_attempt, logging. msteps.
  set (w0 := record_event _ w).
  assert (H0 : adds w w0 1 0 0) by adds_now.
  unfold bind at 1.
  destruct (boot_master_reboot_any cfg w0) as (h & Hh & Hr).
  exists h. split; [assumption|].
  destruct (boot_master_reboot cfg w0) as [[[|]|e] w1]; cbn [negb snd] in *.
  - pose proof (quiet_boot_master_rest cfg w1) as Hq.
    replace h with (h + 0)%nat by lia.
    exact (adds_trans _ _ _ _ _ _ _ _ _
             (adds_trans _ _ _ _ _ _ _ _ _ H0 Hr) Hq).
  - exact (adds_trans _ _ _ _ _ _ _ _ _ H0 Hr).
  - exact (adds_trans _ _ _ _ _ _ _ _ _ H0 Hr).
Qed.

Lemma boot_master_loop_any cfg :
  forall n k w,
    exists a h, (a <= n)%nat /\ (h <= a)%nat
      /\ adds w (snd (boot_master_loop cfg n k w)) a a h.
Proof.
  induction n as [|n IH]; intros k w.
  - exists O, O. cbn. split; [lia|]. split; [lia|apply adds_refl].
  - cbn [boot_master_loop]. unfold bind at 1.
    destruct (boot_master_attempt_any cfg k w) as (h & Hh & Ha).
    destruct (boot_master_attempt cfg k w) as [[[|]|e] w1]; cbn [snd] in *.
    + exists 1%nat, h. split; [lia|]. split; [lia|assumption].
    + destruct (IH (k + 1) w1) as (a' & h' & Ha' & Hh' & Hl).
      exists (1 + a')%nat, (h + h')%nat. split; [lia|]. split; [lia|].
      exact (adds_trans _ _ _ _ _ _ _ _ _ Ha Hl).
    + exists 1%nat, h. split; [lia|]. split; [lia|assumption].
Qed.

(** X1. Whatever the device answers, [boot_master_image] makes at most
    [boot_retries] passes; every pass makes exactly one soft reboot and at
    most one hard reboot. *)
Theorem boot_master_image_bounded cfg w :
  exists evs,
    transcript (snd (boot_master_image cfg w)) = transcript w ++ evs
    /\ (tally attempt_started evs <= Z.to_nat (boot_retries cfg))%nat
    /\ tally soft_reboot_started evs = tally attempt_started evs
    /\ (tally hard_reboot_started evs <= tally attempt_started evs)%nat.
Proof.
  unfold boot_master_image. unfold bind at 1.
  destruct (boot_master_loop_any cfg (Z.to_nat (boot_retries cfg)) 0 w)
    as (a & h & Ha & Hh & (evs & Ht & A & S & H)).
  destruct (boot_master_loop cfg (Z.to_nat (boot_retries cfg)) 0 w)
    as [[[|]|e] w1]; cbn [snd negb] in *.
  - exists evs. cbn. rewrite A, S, H. repeat split; assumption || lia.
  - unfold logging. msteps. cbn.
    exists (evs ++ [Log CRITICAL "Could not get master image booted properly"]).
    rewrite Ht, app_assoc. split; [reflexivity|].
    unfold tally in *. rewrite !List.filter_app, !length_app, A, S, H. cbn.
    repeat split; lia.
  - exists evs. rewrite A, S, H. repeat split; assumption || lia.
Qed.

(** X2. With no retry allowed ([boot_retries] zero or negative) the loop
    is not entered: the call logs and raises CriticalError at once, without
    a reboot and without any action on the console. *)
Theorem boot_master_image_no_retries cfg w :
  boot_retries cfg <= 0 ->
  boot_master_image cfg w =
    (Raise (CriticalError "Could not get master image booted properly"),
     record_event (Log CRITICAL "Could not get master image booted properly") w).
Proof.
  intros H. unfold boot_master_image.
  replace (Z.to_nat (boot_retries cfg)) with O by lia. reflexivity.
Qed.

Lemma boot_master_image_no_retries_witness :
  boot_master_image (panda_cfg 0) (fresh_world [Reply 1 EmptyString]) =
    (Raise (CriticalError "Could not get master image booted properly"),
     record_event (Log CRITICAL "Could not get master image booted properly")
       (fresh_world [Reply 1 EmptyString])).
Proof.
  apply (boot_master_image_no_retries (panda_cfg 0)
           (fresh_world [Reply 1 EmptyString])).
  cbn. lia.
Defined.

Lemma boot_master_attempt_true cfg k w w' :
  boot_master_attempt cfg k w = (Ok true, w') ->
  last (transcript w') = Some (Log INFO "System is in master image now").
Proof.
  unfold boot_master_attempt, logging. msteps.
  set (w0 := record_event _ w). unfold bind at 1.
  destruct (boot_master_reboot cfg w0) as [[[|]|e] w1]; cbn [negb];
    [|msteps; discriminate|discriminate].
  unfold bind at 1.
  destruct (boot_master_prompt cfg w1) as [[[|]|e] w2]; cbn [negb];
    [|msteps; discriminate|discriminate].
  unfold bind at 1.
  destruct (boot_master_network w2) as [[[|]|e] w3]; cbn [negb];
    [|msteps; discriminate|discriminate].
  unfold bind at 1.
  match goal with
  | |- context [(if ?c then ?a else ?b) w3] =>
      destruct ((if c then a else b) w3) as [[[]|e] w4]
  end; [|discriminate].
  msteps. intros [= <-]. cbn. apply last_snoc.
Qed.

Lemma boot_master_loop_true cfg :
  forall n k w w',
    boot_master_loop cfg n k w = (Ok true, w') ->
    n <> O
    /\ last (transcript w') = Some (Log INFO "System is in master image now").
Proof.
  induction n as [|n IH]; intros k w w' H; [discriminate H|].
  split; [discriminate|].
  cbn [boot_master_loop] in H. unfold bind at 1 in H.
  destruct (boot_master_attempt cfg k w) as [[[|]|e] w1] eqn:E;
    [| |discriminate].
  - injection H as <-. exact (boot_master_attempt_true cfg k w w1 E).
  - exact (proj2 (IH _ _ _ H)).
Qed.

(** X3. When [boot_master_image] returns normally, at least one retry was
    configured and the last thing it did was to log that the system is in
    the master image: every other way out of the loop raises. *)
Theorem boot_master_image_returns cfg w w' :
  boot_master_image cfg w = (Ok tt, w') ->
  1 <= boot_retries cfg
  /\ last (transcript w') = Some (Log INFO "System is in master image now").
Proof.
  unfold boot_master_image. unfold bind at 1.
  destruct (boot_master_loop cfg (Z.to_nat (boot_retries cfg)) 0 w)
    as [[[|]|e] w1] eqn:E; cbn [negb].
  - intros [= <-]. destruct (boot_master_loop_true cfg _ _ _ _ E) as [Hn Hl].
    split; [lia|assumption].
  - unfold logging. msteps. discriminate.
  - discriminate.
Qed.

(** X4. The two ways a first pass reaches the master image.  When the
    soft reboot is acknowledged and the boot banner, the master prompt and
    the new prompt are seen, the address and the version the runner finds
    are stored and no hard reboot is made.  When the soft reboot is not
    acknowledged, the hard reboot of the same pass takes over: still one
    pass, with both reboots.  No proxy is configured here. *)
Theorem boot_master_image_first_pass cfg w ip ver rest :
  1 <= boot_retries cfg ->
  truthy (lava_proxy cfg) = false ->
  (forall m t1 n2 t2 n3 t3 n4 t4,
     script w = Reply (S m) t1 :: Reply n2 t2 :: Reply n3 t3 :: Reply n4 t4
                  :: Reply 0 ip :: Reply 0 ver :: rest ->
     exists w' evs,
       boot_master_image cfg w = (Ok tt, w')
       /\ master_ip w' = Some ip /\ device_version w' = Some ver
       /\ script w' = rest
       /\ transcript w' = transcript w ++ evs
       /\ tally attempt_started evs = 1%nat
       /\ tally soft_reboot_started evs = 1%nat
       /\ tally hard_reboot_started evs = 0%nat)
  /\ (forall n2 t2 n3 t3 n4 t4,
        script w = Silent :: Reply n2 t2 :: Reply n3 t3 :: Reply n4 t4
                     :: Reply 0 ip :: Reply 0 ver :: rest ->
        exists w' evs,
          boot_master_image cfg w = (Ok tt, w')
          /\ master_ip w' = Some ip /\ device_version w' = Some ver
          /\ script w' = rest
          /\ transcript w' = transcript w ++ evs
          /\ tally attempt_started evs = 1%nat
          /\ tally soft_reboot_started evs = 1%nat
          /\ tally hard_reboot_started evs = 1%nat).
Proof.
  intros HN Hproxy.
  destruct (Z.to_nat (boot_retries cfg)) as [|n] eqn:En; [lia|].
  destruct w as [ip0 dv0 dyn0 tr0 sc0].
  split; intros; cbn [script] in *; subst sc0;
    unfold boot_master_image; rewrite En; cbn [boot_master_loop];
    unfold boot_master_attempt, boot_master_reboot, boot_master_prompt,
      boot_master_network, _soft_reboot, _hard_reboot, _wait_for_master_boot,
      _wait_for_prompt, get_target_ip, get_device_version, run_expect, expect,
      logging, sendline, sendcontrol, send, empty_buffer, run_command;
    rewrite Hproxy;
    repeat (msteps; cbn);
    destruct (String.eqb (hard_reset_command cfg) EmptyString);
    repeat (msteps; cbn);
    eexists _, _; (split; [reflexivity|]); cbn;
    (split; [reflexivity|]); (split; [reflexivity|]); (split; [reflexivity|]);
    (split; [rewrite <- ?app_assoc; reflexivity|]);
    repeat split; reflexivity.
Qed.

Lemma boot_master_image_returns_witness :
  1 <= boot_retries (panda_cfg 3)
  /\ last (transcript
             (snd (boot_master_image (panda_cfg 3)
                     (fresh_world [Reply 1 EmptyString; Reply 0 EmptyString;
                                   Reply 0 EmptyString; Reply 0 EmptyString;
                                   Reply 0 "10.0.0.7"; Reply 0 "2013-1/2013-2"])))) =
     Some (Log INFO "System is in master image now").
Proof.
  apply (boot_master_image_returns (panda_cfg 3)
           (fresh_world [Reply 1 EmptyString; Reply 0 EmptyString;
                         Reply 0 EmptyString; Reply 0 EmptyString;
                         Reply 0 "10.0.0.7"; Reply 0 "2013-1/2013-2"])).
  vm_compute. reflexivity.
Defined.

Lemma boot_master_image_first_pass_witness :
  exists w' evs,
    boot_master_image (panda_cfg 3)
      (fresh_world [Silent; Reply 0 EmptyString; Reply 0 EmptyString;
                    Reply 0 EmptyString; Reply 0 "10.0.0.7";
                    Reply 0 "2013-1/2013-2"]) = (Ok tt, w')
    /\ master_ip w' = Some "10.0.0.7" /\ device_version w' = Some "2013-1/2013-2"
    /\ script w' = []
    /\ transcript w' = [] ++ evs
    /\ tally attempt_started evs = 1%nat
    /\ tally soft_reboot_started evs = 1%nat
    /\ tally hard_reboot_started evs = 1%nat.
Proof.
  refine (proj2 (boot_master_image_first_pass (panda_cfg 3)
                   (fresh_world [Silent; Reply 0 EmptyString; Reply 0 EmptyString;
                                 Reply 0 EmptyString; Reply 0 "10.0.0.7";
                                 Reply 0 "2013-1/2013-2"])
                   "10.0.0.7" "2013-1/2013-2" [] _ eq_refl)
            O EmptyString O EmptyString O EmptyString eq_refl).
  cbn. lia.
Defined.

(** ** The master session and the runner *)

(** X5. [_as_master] does not reboot a device that already shows the
    master prompt: the probe is all it does, and the address and version
    of the master image stay as they were.  When the probe times out, what
    follows is exactly [boot_master_image]. *)
Theorem as_master_reentrant cfg w :
  let probed :=
    set_script (tl (script w))
      (record_event (Expect [Re (MASTER_PS1_PATTERN cfg); PTimeout] 10)
         (record_event (Sendline EmptyString) w)) in
  (forall n t, hd Silent (script w) = Reply n t -> n <> 1%nat ->
     _as_master cfg w = (Ok tt, probed)
     /\ master_ip probed = master_ip w
     /\ device_version probed = device_version w)
  /\ (hd Silent (script w) = Silent ->
      _as_master cfg w = boot_master_image cfg probed).
Proof.
  cbv zeta. unfold _as_master, sendline, expect. split.
  - intros n t H Hn. msteps. rewrite H. cbn. msteps. cbn.
    destruct n as [|[|n]]; [| congruence |]; repeat split; reflexivity.
  - intros H. msteps. rewrite H. cbn. msteps. reflexivity.
Qed.

Lemma as_master_reentrant_witness :
  _as_master (panda_cfg 3) (fresh_world [Reply 0 EmptyString; Reply 1 EmptyString]) =
  (Ok tt,
   set_script [Reply 1 EmptyString]
     (record_event (Expect [Re (MASTER_PS1_PATTERN (panda_cfg 3)); PTimeout] 10)
        (record_event (Sendline EmptyString)
           (fresh_world [Reply 0 EmptyString; Reply 1 EmptyString])))).
Proof.
  refine (proj1 (proj1 (as_master_reentrant (panda_cfg 3)
                          (fresh_world [Reply 0 EmptyString; Reply 1 EmptyString]))
                   O EmptyString eq_refl _)).
  discriminate.
Defined.

(** X6. [get_device_version] is best effort: unless the console call
    itself raises, it returns; the version is the text of the match when
    the version pattern matched, and null on any other match, on a timeout
    and on a closed stream.  One command is sent, with a 5 second
    timeout. *)
Theorem get_device_version_best_effort w :
  (forall e, hd Silent (script w) <> Fails e) ->
  fst (get_device_version w) =
    Ok (match hd Silent (script w) with
        | Reply O text => Some text
        | _ => None
        end)
  /\ exists cmd ps logs,
       transcript (snd (get_device_version w)) =
       transcript w ++ RunExpect cmd ps 5 :: logs
       /\ Forall (fun e => exists lvl msg, e = Log lvl msg) logs.
Proof.
  intros H. unfold get_device_version, run_expect, logging. msteps.
  destruct (hd Silent (script w)) as [[|n] t| | |e]; cbn; msteps; cbn;
    try (exfalso; eapply H; reflexivity);
    (split; [reflexivity|]); eexists _, _, _;
    (split; [rewrite <- ?app_assoc; reflexivity|]);
    repeat constructor; eauto.
Qed.

Lemma get_device_version_best_effort_witness :
  fst (get_device_version (fresh_world [])) = Ok None
  /\ fst (get_device_version (fresh_world [Reply 0 "2013-1/2013-2"])) =
     Ok (Some "2013-1/2013-2").
Proof.
  split.
  - apply (proj1 (get_device_version_best_effort (fresh_world [])
                    ltac:(discriminate))).
  - apply (proj1 (get_device_version_best_effort
                    (fresh_world [Reply 0 "2013-1/2013-2"]) ltac:(discriminate))).
Defined.

Lemma android_data_label_run w :
  _android_data_label w =
  match is_file_exist "/dev/disk/by-label/userdata" w with
  | (Ok found, w1) => (Ok (if found then "userdata" else "sdcard"), w1)
  | (Raise e, w1) => (Raise e, w1)
  end.
Proof.
  unfold _android_data_label, has_partition_with_label.
  change (format "/dev/disk/by-label/%s" ["userdata"])
    with (@ret string "/dev/disk/by-label/userdata").
  msteps. unfold bind.
  destruct (is_file_exist "/dev/disk/by-label/userdata" w) as [[[|]|e] w1];
    reflexivity.
Qed.

Lemma android_data_label_names w l :
  fst (_android_data_label w) = Ok l -> l = "userdata" \/ l = "sdcard".
Proof.
  rewrite android_data_label_run, is_file_exist_run. cbv zeta.
  destruct (hd Silent (script w)) as [[|rc] t| | |e]; cbn;
    intros [= <-]; auto.
Qed.

(** X7. [_android_data_label] probes the userdata partition once, with
    failure allowed: exit code 0 gives "userdata", any other exit code
    gives "sdcard"; it never names another label. *)
Theorem android_data_label_probe w :
  (forall rc t, hd Silent (script w) = Reply rc t ->
     fst (_android_data_label w) =
       Ok (if (rc =? 0)%nat then "userdata" else "sdcard")
     /\ transcript (snd (_android_data_label w)) =
        transcript w ++ [Run "ls /dev/disk/by-label/userdata > /dev/null" (-1) true])
  /\ (forall l, fst (_android_data_label w) = Ok l ->
        l = "userdata" \/ l = "sdcard").
Proof.
  split; [|apply android_data_label_names].
  rewrite android_data_label_run, is_file_exist_run. cbv zeta.
  intros rc t Hs. rewrite Hs. destruct rc; cbn; split; reflexivity.
Qed.

Lemma android_data_label_probe_witness :
  fst (_android_data_label (fresh_world [Reply 2 EmptyString])) = Ok "sdcard".
Proof.
  apply (proj1 (proj1 (android_data_label_probe (fresh_world [Reply 2 EmptyString]))
                  2%nat EmptyString eq_refl)).
Defined.

(** X8. [get_partition] maps the four partition numbers of the
    configuration to by-label devices, the first equal one in the order
    boot, root, sdcard, data; only the data partition needs the device (the
    label probe); any other number raises RuntimeError without touching
    the console; and every device it returns is under
    /dev/disk/by-label/. *)
Theorem get_partition_devices cfg partition w :
  (partition = boot_part cfg ->
   get_partition cfg partition w = (Ok "/dev/disk/by-label/testboot", w))
  /\ (partition <> boot_part cfg -> partition = root_part cfg ->
      get_partition cfg partition w = (Ok "/dev/disk/by-label/testrootfs", w))
  /\ (partition <> boot_part cfg -> partition <> root_part cfg ->
      partition = sdcard_part_android_org cfg ->
      get_partition cfg partition w = (Ok "/dev/disk/by-label/sdcard", w))
  /\ (partition <> boot_part cfg -> partition <> root_part cfg ->
      partition <> sdcard_part_android_org cfg ->
      partition <> data_part_android_org cfg ->
      get_partition cfg partition w =
        (Raise (RuntimeError ("unknown master image partition("
                              +:+ str_Z partition +:+ ")")), w))
  /\ (forall device, fst (get_partition cfg partition w) = Ok device ->
        startswith "/dev/disk/by-label/" device = true).
Proof.
  unfold get_partition.
  destruct (Z.eqb_spec partition (boot_part cfg)) as [Hb|Hb].
  { do 4 (split; [intros; congruence || reflexivity|]).
    intros d [= <-]. reflexivity. }
  destruct (Z.eqb_spec partition (root_part cfg)) as [Hr|Hr].
  { do 4 (split; [intros; congruence || reflexivity|]).
    intros d [= <-]. reflexivity. }
  destruct (Z.eqb_spec partition (sdcard_part_android_org cfg)) as [Hs|Hs].
  { do 4 (split; [intros; congruence || reflexivity|]).
    intros d [= <-]. reflexivity. }
  destruct (Z.eqb_spec partition (data_part_android_org cfg)) as [Hd|Hd].
  - do 4 (split; [intros; congruence|]).
    intros d. unfold bind.
    pose proof (android_data_label_names w) as Hl.
    destruct (_android_data_label w) as [[l|e] w1]; cbn in *; [|discriminate].
    destruct (Hl l eq_refl) as [-> | ->]; intros [= <-]; reflexivity.
  - do 3 (split; [intros; congruence|]).
    split; [intros; msteps; reflexivity|].
    msteps. discriminate.
Qed.

Lemma get_partition_devices_witness :
  get_partition (panda_cfg 3) 1 (fresh_world []) =
    (Ok "/dev/disk/by-label/testboot", fresh_world [])
  /\ get_partition (panda_cfg 3) 9 (fresh_world []) =
     (Raise (RuntimeError ("unknown master image partition(" +:+ str_Z 9 +:+ ")")),
      fresh_world []).
Proof.
  destruct (get_partition_devices (panda_cfg 3) 1 (fresh_world []))
    as (Hboot & _).
  destruct (get_partition_devices (panda_cfg 3) 9 (fresh_world []))
    as (_ & _ & _ & Hunknown & _).
  split; [apply Hboot; reflexivity|apply Hunknown; discriminate].
Defined.

(** ** Formatting of the test partitions *)

(** X9. [_format_testpartition] tolerates whatever the two umount
    commands exit with, and needs both mkfs commands to exit with 0: then
    it returns after exactly four commands.  When the mkfs of the root
    partition fails, OperationFailed is raised and the boot partition is
    not touched: no command follows. *)
Theorem format_testpartition_tolerates_umount fstype w rest
    u1 t1 t2 u3 t3 t4 :
  let mkfs := "nice mkfs -t " +:+ fstype +:+
              " -q /dev/disk/by-label/testrootfs -L testrootfs" in
  (script w = Reply u1 t1 :: Reply 0 t2 :: Reply u3 t3 :: Reply 0 t4 :: rest ->
   exists w',
     _format_testpartition fstype w = (Ok tt, w')
     /\ script w' = rest
     /\ transcript w' = transcript w ++
          [Log INFO "Format testboot and testrootfs partitions";
           Run "umount /dev/disk/by-label/testrootfs" (-1) true;
           Run mkfs 1800 false;
           Run "umount /dev/disk/by-label/testboot" (-1) true;
           Run "nice mkfs.vfat /dev/disk/by-label/testboot -n testboot" (-1) false])
  /\ (forall rc, rc <> O ->
      script w = Reply u1 t1 :: Reply rc t2 :: rest ->
      exists w',
        _format_testpartition fstype w =
          (Raise (OperationFailed ("executing " +:+ mkfs +:+ " failed")), w')
        /\ script w' = rest
        /\ transcript w' = transcript w ++
             [Log INFO "Format testboot and testrootfs partitions";
              Run "umount /dev/disk/by-label/testrootfs" (-1) true;
              Run mkfs 1800 false]).
Proof.
  cbv zeta. destruct w as [ip0 dv0 dyn0 tr0 sc0].
  unfold _format_testpartition, logging, run. split.
  - intros Hs. cbn [script] in Hs. subst sc0.
    repeat (msteps; cbn; rewrite ?andb_false_r).
    eexists. split; [reflexivity|]. cbn. split; [reflexivity|].
    rewrite <- !app_assoc. reflexivity.
  - intros rc Hrc Hs. cbn [script] in Hs. subst sc0.
    repeat (msteps; cbn; rewrite ?andb_false_r).
    destruct rc as [|rc]; [congruence|]. cbn. repeat (msteps; cbn).
    eexists. split; [reflexivity|]. cbn. split; [reflexivity|].
    rewrite <- !app_assoc. reflexivity.
Qed.

Lemma format_testpartition_tolerates_umount_witness :
  exists w',
    _format_testpartition "ext4"
      (fresh_world [Reply 32 "umount: not mounted"; Reply 0 EmptyString;
                    Reply 32 "umount: not mounted"; Reply 0 EmptyString]) =
      (Ok tt, w')
    /\ script w' = []
    /\ transcript w' = [] ++
         [Log INFO "Format testboot and testrootfs partitions";
          Run "umount /dev/disk/by-label/testrootfs" (-1) true;
          Run ("nice mkfs -t " +:+ "ext4" +:+
               " -q /dev/disk/by-label/testrootfs -L testrootfs") 1800 false;
          Run "umount /dev/disk/by-label/testboot" (-1) true;
          Run "nice mkfs.vfat /dev/disk/by-label/testboot -n testboot" (-1) false].
Proof.
  apply (proj1 (format_testpartition_tolerates_umount "ext4"
                  (fresh_world [Reply 32 "umount: not mounted"; Reply 0 EmptyString;
                                Reply 32 "umount: not mounted"; Reply 0 EmptyString])
                  [] 32%nat "umount: not mounted" EmptyString
                  32%nat "umount: not mounted" EmptyString)).
  reflexivity.
Defined.

(** ** The transfer loop in front of any device *)

Lemma target_extract_uses_codec url dest timeout num_retry w :
  good_extension url = true ->
  target_extract url dest timeout num_retry w =
  target_extract_loop url dest (codec url) timeout (Z.to_nat num_retry) w.
Proof.
  unfold good_extension, target_extract, codec. intros H.
  destruct (endswith url ".gz" || endswith url ".tgz") eqn:E; [reflexivity|].
  cbn in H. rewrite H. reflexivity.
Qed.

Lemma target_extract_bad_extension_world url dest timeout num_retry w :
  good_extension url = false ->
  snd (target_extract url dest timeout num_retry w) = w.
Proof.
  unfold good_extension, target_extract. intros H.
  apply orb_false_elim in H as [H1 H3]. rewrite H1, H3. msteps. reflexivity.
Qed.

(** One pass of the loop, whatever the answer: one command, and a sleep
    only after a failure that leaves a retry. *)
Lemma target_extract_attempt_any url dest dc timeout n w :
  exists evs,
    transcript (snd (target_extract_attempt url dest dc timeout n w)) =
      transcript w ++ evs
    /\ hd_error evs = Some (Run (transfer_command url dest dc) timeout false)
    /\ length (List.filter is_run evs) = 1%nat
    /\ List.filter is_sleep evs =
       match fst (target_extract_attempt url dest dc timeout n w), n with
       | Ok false, S _ => [Sleep 60]
       | _, _ => []
       end.
Proof.
  unfold target_extract_attempt, run, sendline, sendcontrol, sleep, logging.
  msteps.
  assert (Hn : (1 <? Z.of_nat (S n)) = match n with O => false | S _ => true end).
  { destruct n; [reflexivity|]. apply Z.ltb_lt. lia. }
  destruct (hd Silent (script w)) as [[|rc] t| | |e]; cbn; msteps;
    try (destruct (is_OperationFailed_or_TIMEOUT e); msteps);
    rewrite ?Hn; destruct n; msteps; cbn;
    eexists; (split; [rewrite <- ?app_assoc; reflexivity|]);
    repeat split; reflexivity.
Qed.

Lemma target_extract_loop_any url dest dc timeout :
  forall n w,
    exists evs,
      transcript (snd (target_extract_loop url dest dc timeout n w)) =
        transcript w ++ evs
      /\ (length (List.filter is_run evs) <= n)%nat
      /\ (n <> O -> length (List.filter is_run evs) <> O)
      /\ List.filter is_sleep evs =
         repeat (Sleep 60) (length (List.filter is_run evs) - 1).
Proof.
  induction n as [|n IH]; intros w.
  - cbn [target_extract_loop]. msteps. exists []. cbn.
    rewrite app_nil_r. repeat split; try lia; try congruence.
  - cbn [target_extract_loop]. unfold bind at 1.
    destruct (target_extract_attempt_any url dest dc timeout n w)
      as (e1 & T1 & _ & R1 & S1).
    destruct (target_extract_attempt url dest dc timeout n w)
      as [[[|]|e] w1]; cbn [fst snd] in *.
    + exists e1. rewrite R1, S1. repeat split; try lia. assumption.
    + destruct (IH w1) as (e2 & T2 & R2 & N2 & S2).
      exists (e1 ++ e2). rewrite T2, T1, app_assoc.
      rewrite !List.filter_app, length_app, R1, S1, S2.
      split; [reflexivity|]. split; [lia|]. split; [lia|].
      destruct n as [|n'].
      * assert (length (List.filter is_run e2) = O) by lia.
        replace (length (List.filter is_run e2)) with O by lia. reflexivity.
      * specialize (N2 ltac:(discriminate)).
        destruct (length (List.filter is_run e2)) as [|r]; [congruence|].
        cbn. rewrite Nat.sub_0_r. reflexivity.
    + exists e1. rewrite R1, S1. repeat split; try lia. assumption.
Qed.

Lemma target_extract_any url dest timeout num_retry w :
  exists evs,
    transcript (snd (target_extract url dest timeout num_retry w)) =
      transcript w ++ evs
    /\ (length (List.filter is_run evs) <= Z.to_nat num_retry)%nat
    /\ List.filter is_sleep evs =
       repeat (Sleep 60) (length (List.filter is_run evs) - 1).
Proof.
  destruct (good_extension url) eqn:E.
  - rewrite (target_extract_uses_codec _ _ _ _ _ E).
    destruct (target_extract_loop_any url dest (codec url) timeout
                (Z.to_nat num_retry) w) as (evs & T & R & _ & S).
    exists evs. auto.
  - rewrite (target_extract_bad_extension_world url dest timeout num_retry w E).
    exists []. cbn. rewrite app_nil_r. repeat split. lia.
Qed.

(** X10. Whatever the device answers, [target_extract] sends the
    fetch-and-unpack command at most [num_retry] times, and sleeps 60
    seconds exactly between two consecutive attempts: one sleep fewer than
    attempts, never after the last one. *)
Theorem target_extract_bounded url dest timeout num_retry w :
  exists evs,
    transcript (snd (target_extract url dest timeout num_retry w)) =
      transcript w ++ evs
    /\ (length (List.filter is_run evs) <= Z.to_nat num_retry)%nat
    /\ List.filter is_sleep evs =
       repeat (Sleep 60) (length (List.filter is_run evs) - 1).
Proof.
  destruct (target_extract_any url dest timeout num_retry w)
    as (evs & Ht & Hr & Hs).
  exists evs. split; [exact Ht|]. split; [exact Hr|exact Hs].
Qed.

(** X11. Only OperationFailed and pexpect.TIMEOUT are retried.  When the
    first attempt ends otherwise (the console stream is closed, or the call
    raises another exception), [target_extract] lets that exception through
    after this one attempt: one command, with the codec letter of the
    extension (z for .gz and .tgz, j for .bz2), no sleep, no retry. *)
Theorem target_extract_not_retried url dest timeout num_retry w e :
  good_extension url = true ->
  1 <= num_retry ->
  (hd Silent (script w) = Closed /\ e = EOF)
  \/ (hd Silent (script w) = Fails e /\ is_OperationFailed_or_TIMEOUT e = false) ->
  target_extract url dest timeout num_retry w =
    (Raise e,
     set_script (tl (script w))
       (record_event (Run (transfer_command url dest (codec url)) timeout false) w)).
Proof.
  intros Hext Hn Hans. rewrite (target_extract_uses_codec _ _ _ _ _ Hext).
  destruct (Z.to_nat num_retry) as [|n] eqn:En; [lia|].
  cbn [target_extract_loop].
  unfold target_extract_attempt, run, logging. msteps.
  destruct Hans as [[-> ->]|[-> He]]; cbn; msteps; [reflexivity|].
  rewrite He. reflexivity.
Qed.

Lemma target_extract_not_retried_witness :
  target_extract "http://dispatcher/images/tmp/scratch/root.tar.bz2" "/mnt/root"
    18000 5 (fresh_world [Closed; Reply 0 EmptyString]) =
  (Raise EOF,
   set_script [Reply 0 EmptyString]
     (record_event
        (Run (transfer_command "http://dispatcher/images/tmp/scratch/root.tar.bz2"
                "/mnt/root" "j") 18000 false)
        (fresh_world [Closed; Reply 0 EmptyString]))).
Proof.
  apply (target_extract_not_retried
           "http://dispatcher/images/tmp/scratch/root.tar.bz2" "/mnt/root"
           18000 5 (fresh_world [Closed; Reply 0 EmptyString]) EOF eq_refl).
  - lia.
  - left. split; reflexivity.
Defined.

(** X12. The retry behaviour for every retry count, not only the default:
    with [num_retry] = n, a command that fails K < n times and then
    succeeds gives K + 1 attempts and K sleeps; n failures give n attempts,
    n - 1 sleeps and the RuntimeError; and with n <= 0 the error is raised
    without any attempt. *)
Theorem target_extract_any_retry_count url dest timeout num_retry w fails rest :
  good_extension url = true ->
  forallb transfer_fails fails = true ->
  ((length fails < Z.to_nat num_retry)%nat ->
   forall text, script w = fails ++ Reply 0 text :: rest ->
   exists w' evs,
     target_extract url dest timeout num_retry w = (Ok tt, w')
     /\ script w' = rest
     /\ transcript w' = transcript w ++ evs
     /\ List.filter is_sleep evs = repeat (Sleep 60) (length fails)
     /\ length (List.filter is_run evs) = S (length fails))
  /\ (length fails = Z.to_nat num_retry ->
      script w = fails ++ rest ->
      exists w' evs,
        target_extract url dest timeout num_retry w =
          (Raise (RuntimeError ("extracting " +:+ url +:+ " on target failed")), w')
        /\ script w' = rest
        /\ transcript w' = transcript w ++ evs
        /\ List.filter is_sleep evs = repeat (Sleep 60) (Z.to_nat num_retry - 1)
        /\ length (List.filter is_run evs) = Z.to_nat num_retry)
  /\ (num_retry <= 0 ->
      target_extract url dest timeout num_retry w =
        (Raise (RuntimeError ("extracting " +:+ url +:+ " on target failed")), w)).
Proof.
  intros Hext Hf. rewrite (target_extract_uses_codec _ _ _ _ _ Hext).
  split; [|split].
  - intros Hlen text Hs.
    exact (target_extract_loop_recovers url dest (codec url) timeout text rest
             fails _ w Hf Hlen Hs).
  - intros Hlen Hs.
    exact (target_extract_loop_exhausted url dest (codec url) timeout rest
             _ fails w Hf Hlen Hs).
  - intros Hn. replace (Z.to_nat num_retry) with O by lia.
    cbn [target_extract_loop]. msteps. reflexivity.
Qed.

Lemma target_extract_any_retry_count_witness :
  (exists w' evs,
     target_extract "http://dispatcher/images/tmp/scratch/boot.tgz" "/mnt/boot"
       (-1) 2 (fresh_world [Silent; Silent; Reply 0 EmptyString]) =
       (Raise (RuntimeError
                 ("extracting " +:+ "http://dispatcher/images/tmp/scratch/boot.tgz"
                  +:+ " on target failed")), w')
     /\ script w' = [Reply 0 EmptyString]
     /\ transcript w' = [] ++ evs
     /\ List.filter is_sleep evs = repeat (Sleep 60) (Z.to_nat 2 - 1)
     /\ length (List.filter is_run evs) = Z.to_nat 2)
  /\ target_extract "http://dispatcher/images/tmp/scratch/boot.tgz" "/mnt/boot"
       (-1) 0 (fresh_world [Reply 0 EmptyString]) =
     (Raise (RuntimeError
               ("extracting " +:+ "http://dispatcher/images/tmp/scratch/boot.tgz"
                +:+ " on target failed")), fresh_world [Reply 0 EmptyString]).
Proof.
  split.
  - refine (proj1 (proj2 (target_extract_any_retry_count
                            "http://dispatcher/images/tmp/scratch/boot.tgz"
                            "/mnt/boot" (-1) 2
                            (fresh_world [Silent; Silent; Reply 0 EmptyString])
                            [Silent; Silent] [Reply 0 EmptyString]
                            eq_refl eq_refl)) eq_refl eq_refl).
  - refine (proj2 (proj2 (target_extract_any_retry_count
                            "http://dispatcher/images/tmp/scratch/boot.tgz"
                            "/mnt/boot" (-1) 0
                            (fresh_world [Reply 0 EmptyString])
                            [] [Reply 0 EmptyString] eq_refl eq_refl)) _).
    lia.
Defined.

(** ** The exchange of a directory: guards and outcomes *)

(** X13. [file_system] refuses the root of a partition: for the directory
    "/" the assertion fails before the master session is entered; nothing
    is sent to the device, nothing is mounted and the block of the [with]
    statement is not run. *)
Theorem file_system_refuses_root cfg {A} partition (body : string -> M A) w :
  file_system cfg partition "/" body w =
    (Raise (AssertionError "cannot mount entire partition"),
     record_event
       (Log INFO ("attempting to access master filesystem "
                  +:+ str_Z partition +:+ ":/")) w).
Proof.
  unfold file_system, file_system_mount, logging. msteps. reflexivity.
Qed.

(** X14. Which outcome the caller of [file_system] sees once the
    directory is served: an exception of the final unmount hides everything
    else, an exception of the upload hides the outcome of the block, and
    the block's own result or exception comes through only when both
    clean-ups succeed. *)
Theorem file_system_outcome cfg {A} partition directory (body : string -> M A)
    w dev w1 x w2 :
  file_system_mount cfg partition directory w = (Ok dev, w1) ->
  file_system_serve cfg directory w1 = (Ok x, w2) ->
  file_system cfg partition directory body w =
    (let after_block := file_system_yield x body w2 in
     let after_upload := file_system_upload cfg x (snd after_block) in
     let after_release := file_system_release (snd after_upload) in
     (match fst after_release, fst after_upload with
      | Raise e, _ => Raise e
      | Ok _, Raise e => Raise e
      | Ok _, Ok _ => fst after_block
      end, snd after_release)).
Proof.
  intros Hm Hs. cbv zeta.
  unfold file_system, file_system_exchange, bind, try_finally.
  rewrite Hm, Hs.
  destruct (file_system_yield x body w2) as [r wb]. cbn [fst snd].
  destruct (file_system_upload cfg x wb) as [[[]|eu] wu]; cbn [fst snd];
    destruct (file_system_release wu) as [[[]|er] wr]; reflexivity.
Qed.

(** X15. When the HTTP server on the device does not announce itself (a
    timeout, a closed stream, or another pattern than the banner),
    [file_system] logs the error and raises CriticalError; nothing is
    downloaded, the block is not run, and the server is still interrupted
    and the partition unmounted.  Here the directory exists and the
    commands before and after answer with exit code 0. *)
Theorem file_system_server_not_started cfg {A} partition directory
    (body : string -> M A) w dev w1 t0 t1 t2 banner t4 rest :
  file_system_mount cfg partition directory w = (Ok dev, w1) ->
  script w1 = Reply 0 t0 :: Reply 0 t1 :: Reply 0 t2 :: banner
                :: Reply 0 t4 :: rest ->
  banner = Silent \/ banner = Closed \/ (exists n t, banner = Reply (S n) t) ->
  let targetdir := "/mnt/" +:+ directory in
  exists w',
    file_system cfg partition directory body w =
      (Raise (CriticalError "Unable to start HTTP server on master"), w')
    /\ script w' = rest
    /\ transcript w' = transcript w1 ++
         [Run ("ls " +:+ targetdir +:+ " > /dev/null") (-1) true;
          Run ("nice tar -czf /tmp/fs.tgz -C " +:+ fst (os_path_split targetdir)
               +:+ " " +:+ snd (os_path_split targetdir)) (-1) false;
          Run "cd /tmp" (-1) false;
          Sendline "python -m SimpleHTTPServer 0 2>/dev/null";
          Expect [Re "Serving HTTP on 0.0.0.0 port (\d+) \.\."; PEof; PTimeout] (-1);
          Log ERROR "Unable to start HTTP server on master";
          Sendcontrol "c";
          Run "umount /mnt" (-1) false].
Proof.
  intros Hm Hs Hb. cbv zeta.
  unfold file_system. unfold bind at 1. rewrite Hm.
  destruct w1 as [ip0 dv0 dyn0 tr0 sc0]. cbn [script] in Hs. subst sc0.
  unfold try_finally, file_system_exchange, file_system_serve,
    file_system_release, is_file_exist, run, expect, sendline, sendcontrol,
    logging.
  destruct Hb as [->|[->|(n & t & ->)]];
    repeat (msteps; cbn; rewrite ?andb_false_r; rewrite ?append_empty_r);
    eexists; (split; [reflexivity|]); cbn; (split; [reflexivity|]);
    rewrite <- !app_assoc; reflexivity.
Qed.

Lemma file_system_outcome_witness :
  fst (file_system (panda_cfg 3) 1 "lava/results"
         (fun _ => @raise unit (RuntimeError "no results"))
         (fresh_world
            [Reply 0 EmptyString; Reply 0 EmptyString; Reply 0 EmptyString;
             Reply 0 EmptyString; Reply 0 EmptyString; Reply 0 "8000";
             Reply 0 "/linaro/images/tmp/scratch/fs.tgz"; Reply 0 "1383.5";
             Reply 0 EmptyString; Reply 0 EmptyString; Reply 0 EmptyString;
             Reply 0 EmptyString; Reply 0 EmptyString; Reply 3 EmptyString])) =
  Raise (OperationFailed "executing umount /mnt failed").
Proof.
  set (w0 := fresh_world _).
  set (body := fun _ : string => @raise unit (RuntimeError "no results")).
  let m := eval vm_compute in (file_system_mount (panda_cfg 3) 1 "lava/results" w0) in
  match m with
  | (Ok ?dev, ?w1) =>
      let s := eval vm_compute in (file_system_serve (panda_cfg 3) "lava/results" w1) in
      match s with
      | (Ok ?x, ?w2) =>
          pose proof (file_system_outcome (panda_cfg 3) 1 "lava/results" body
                        w0 dev w1 x w2
                        ltac:(vm_compute; reflexivity)
                        ltac:(vm_compute; reflexivity)) as H
      end
  end.
  rewrite H. vm_compute. reflexivity.
Defined.

Lemma file_system_server_not_started_witness :
  exists w',
    file_system (panda_cfg 3) 1 "lava/results" (fun _ => ret tt)
      (fresh_world
         [Reply 0 EmptyString; Reply 0 EmptyString; Reply 0 EmptyString;
          Reply 0 EmptyString; Reply 0 EmptyString; Silent;
          Reply 0 EmptyString]) =
      (Raise (CriticalError "Unable to start HTTP server on master"), w')
    /\ script w' = []
    /\ last (transcript w') = Some (Run "umount /mnt" (-1) false).
Proof.
  set (w0 := fresh_world _).
  let m := eval vm_compute in (file_system_mount (panda_cfg 3) 1 "lava/results" w0) in
  match m with
  | (Ok ?dev, ?w1) =>
      destruct (file_system_server_not_started (panda_cfg 3) 1 "lava/results"
                  (fun _ => ret tt) w0 dev w1
                  EmptyString EmptyString EmptyString Silent EmptyString []
                  ltac:(vm_compute; reflexivity) eq_refl
                  ltac:(left; reflexivity)) as (w' & Hr & Hs & Ht)
  end.
  exists w'. split; [exact Hr|]. split; [exact Hs|].
  rewrite Ht. vm_compute. reflexivity.
Defined.

(** ** Deployment of the root file system *)

Lemma bind_ok {A B} (m : M A) (k : A -> M B) w a w' :
  m w = (Ok a, w') -> bind m k w = k a w'.
Proof. intros H. unfold bind. rewrite H. reflexivity. Qed.

Lemma bind_fail {A B} (m : M A) (k : A -> M B) w e w' :
  m w = (Raise e, w') -> bind m k w = (Raise e, w').
Proof. intros H. unfold bind. rewrite H. reflexivity. Qed.

Lemma target_extract_first_try url dest timeout num_retry w text rest :
  good_extension url = true ->
  1 <= num_retry ->
  script w = Reply 0 text :: rest ->
  target_extract url dest timeout num_retry w =
    (Ok tt,
     set_script rest
       (record_event (Run (transfer_command url dest (codec url)) timeout false) w)).
Proof.
  intros Hext Hn Hs. rewrite (target_extract_uses_codec _ _ _ _ _ Hext).
  destruct (Z.to_nat num_retry) as [|n] eqn:En; [lia|].
  cbn [target_extract_loop].
  unfold target_extract_attempt, run, logging. msteps. rewrite Hs. cbn.
  msteps. reflexivity.
Qed.

(** X16. [_deploy_linaro_rootfs] neutralizes flash-kernel exactly when
    the deployed root file system has dpkg-divert: the probe may fail
    without failing the deployment, and the two diversion commands are sent
    only after a probe that exits with 0.  The other commands are the
    same, and the root partition is unmounted at the end. *)
Theorem deploy_linaro_rootfs_diversion rootfs w rc t t1 t2 t3 t4 t5 t6 t7 rest :
  good_extension rootfs = true ->
  let common :=
    [Log INFO "Deploying linaro image";
     Run "udevadm trigger" (-1) false;
     Run "mkdir -p /mnt/root" (-1) false;
     Run "mount /dev/disk/by-label/testrootfs /mnt/root" (-1) false;
     Run (transfer_command rootfs "/mnt/root" (codec rootfs)) 18000 false;
     Run "chroot /mnt/root which dpkg-divert" (-1) true] in
  (rc <> O ->
   script w = Reply 0 t1 :: Reply 0 t2 :: Reply 0 t3 :: Reply 0 t4
                :: Reply rc t :: Reply 0 t5 :: rest ->
   exists w',
     _deploy_linaro_rootfs rootfs w = (Ok tt, w')
     /\ script w' = rest
     /\ transcript w' = transcript w ++ common ++
          [Run "umount /mnt/root" (-1) false])
  /\ (script w = Reply 0 t1 :: Reply 0 t2 :: Reply 0 t3 :: Reply 0 t4
                   :: Reply 0 t :: Reply 0 t5 :: Reply 0 t6 :: Reply 0 t7 :: rest ->
      exists w',
        _deploy_linaro_rootfs rootfs w = (Ok tt, w')
        /\ script w' = rest
        /\ transcript w' = transcript w ++ common ++
             [Run "chroot /mnt/root dpkg-divert --local /usr/sbin/flash-kernel" (-1) false;
              Run "chroot /mnt/root ln -sf /bin/true /usr/sbin/flash-kernel" (-1) false;
              Run "umount /mnt/root" (-1) false]).
Proof.
  intros Hext. cbv zeta. destruct w as [ip0 dv0 dyn0 tr0 sc0].
  unfold _deploy_linaro_rootfs, logging. split.
  - intros Hrc Hs. cbn [script] in Hs. subst sc0. unfold run at 1 2 3.
    repeat (msteps; cbn).
    erewrite bind_ok
      by (eapply target_extract_first_try; [exact Hext|lia|reflexivity]).
    unfold run. repeat (msteps; cbn; rewrite ?andb_false_r).
    destruct rc as [|rc]; [congruence|]. cbn. repeat (msteps; cbn).
    eexists. split; [reflexivity|]. cbn. split; [reflexivity|].
    rewrite <- !app_assoc. reflexivity.
  - intros Hs. cbn [script] in Hs. subst sc0. unfold run at 1 2 3.
    repeat (msteps; cbn).
    erewrite bind_ok
      by (eapply target_extract_first_try; [exact Hext|lia|reflexivity]).
    unfold run. repeat (msteps; cbn; rewrite ?andb_false_r).
    eexists. split; [reflexivity|]. cbn. split; [reflexivity|].
    rewrite <- !app_assoc. reflexivity.
Qed.

Lemma deploy_linaro_rootfs_diversion_witness :
  exists w',
    _deploy_linaro_rootfs "http://dispatcher/images/tmp/scratch/root.tgz"
      (fresh_world [Reply 0 EmptyString; Reply 0 EmptyString; Reply 0 EmptyString;
                    Reply 0 EmptyString; Reply 1 "which: no dpkg-divert";
                    Reply 0 EmptyString]) = (Ok tt, w')
    /\ script w' = []
    /\ tally is_run (transcript w') = 6%nat.
Proof.
  destruct (proj1 (deploy_linaro_rootfs_diversion
                     "http://dispatcher/images/tmp/scratch/root.tgz"
                     (fresh_world [Reply 0 EmptyString; Reply 0 EmptyString;
                                   Reply 0 EmptyString; Reply 0 EmptyString;
                                   Reply 1 "which: no dpkg-divert";
                                   Reply 0 EmptyString])
                     1%nat "which: no dpkg-divert" EmptyString EmptyString
                     EmptyString EmptyString EmptyString EmptyString EmptyString
                     [] eq_refl)
              ltac:(discriminate) eq_refl) as (w' & Hr & Hs & Ht).
  exists w'. split; [exact Hr|]. split; [exact Hs|].
  rewrite Ht. reflexivity.
Defined.

(** ** Where the boot commands are looked for *)

Lemma find_boot_file_extracted_none later extracted acc :
  (forall g, In g later -> extracted_as g extracted = None) ->
  find_boot_file_extracted later extracted acc = acc.
Proof.
  revert acc. induction later as [|g later IH]; intros acc H; [reflexivity|].
  cbn [find_boot_file_extracted].
  fold (extracted_as g extracted). rewrite (H g (or_introl eq_refl)).
  apply IH. intros g' Hg'. apply H. right. exact Hg'.
Qed.

(** X17. In the tarball the search keeps going after a hit (the [break]
    leaves the inner loop only): the boot file used is the one for the
    last name of [boot_files] that occurs among the extracted files, the
    first extracted path with that base name; when no name occurs nothing
    is found. *)
Theorem find_boot_file_extracted_last_name files boot_file later extracted
    file_path acc :
  extracted_as boot_file extracted = Some file_path ->
  (forall g, In g later -> extracted_as g extracted = None) ->
  find_boot_file_extracted (files ++ boot_file :: later) extracted acc =
    Some file_path
  /\ find_boot_file_extracted later extracted None = None.
Proof.
  intros Hf Hl. split; [|apply find_boot_file_extracted_none, Hl].
  revert acc. induction files as [|g files IH]; intros acc.
  - cbn [app find_boot_file_extracted]. fold (extracted_as boot_file extracted).
    rewrite Hf. apply find_boot_file_extracted_none, Hl.
  - cbn [app find_boot_file_extracted]. apply IH.
Qed.

Lemma find_boot_file_extracted_last_name_witness :
  find_boot_file_extracted (["boot.txt"] ++ "uEnv.txt" :: ["boot.scr"])
    ["/tmp/tmpA/boot.txt"; "/tmp/tmpA/uImage"; "/tmp/tmpA/uEnv.txt"] None =
  Some "/tmp/tmpA/uEnv.txt".
Proof.
  apply (proj1 (find_boot_file_extracted_last_name ["boot.txt"] "uEnv.txt"
                  ["boot.scr"]
                  ["/tmp/tmpA/boot.txt"; "/tmp/tmpA/uImage"; "/tmp/tmpA/uEnv.txt"]
                  "/tmp/tmpA/uEnv.txt" None eq_refl
                  ltac:(intros g [<-|[]]; reflexivity))).
Defined.

(** X18. On the mounted image the search stops at the first name of
    [boot_files] that exists: the names before it are probed once each,
    the names after it are not probed at all. *)
Theorem find_boot_file_mounted_first_name mnt boot_file later n t rest :
  forall absent texts w,
    length texts = length absent ->
    script w = map (Reply 0) texts ++ Reply (S n) t :: rest ->
    find_boot_file_mounted mnt (absent ++ boot_file :: later) w =
      (Ok (Some (os_path_join mnt boot_file)),
       set_script rest
         (mkWorld (master_ip w) (device_version w) (boot_cmds_dynamic w)
            (transcript w ++
             map (fun f => Host "os.path.exists" [os_path_join mnt f])
               (absent ++ [boot_file]))
            (script w))).
Proof.
  induction absent as [|f absent IH]; intros texts w Hlen Hs.
  - destruct texts; [|discriminate]. cbn in Hs.
    cbn [app find_boot_file_mounted]. unfold host. msteps. rewrite Hs. cbn.
    msteps. reflexivity.
  - destruct texts as [|x texts]; [discriminate|]. cbn in Hs.
    injection Hlen as Hlen.
    cbn [app find_boot_file_mounted]. unfold host. msteps. rewrite Hs. cbn.
    msteps. cbn.
    rewrite IH with (texts := texts); [|exact Hlen|reflexivity].
    cbn. rewrite <- app_assoc. reflexivity.
Qed.

Lemma find_boot_file_mounted_first_name_witness :
  fst (find_boot_file_mounted "/tmp/mnt" (["boot.txt"] ++ "uEnv.txt" :: ["boot.scr"])
         (fresh_world [Reply 0 EmptyString; Reply 1 EmptyString;
                       Reply 1 EmptyString])) =
  Ok (Some "/tmp/mnt/uEnv.txt").
Proof.
  rewrite (find_boot_file_mounted_first_name "/tmp/mnt" "uEnv.txt" ["boot.scr"]
             O EmptyString [Reply 1 EmptyString] ["boot.txt"] [EmptyString]
             (fresh_world [Reply 0 EmptyString; Reply 1 EmptyString;
                           Reply 1 EmptyString]) eq_refl eq_refl).
  reflexivity.
Defined.

Lemma bind_world_cases {A B} (m : M A) (k : A -> M B) w (Q : World -> Prop) :
  (forall a w1, m w = (Ok a, w1) -> Q (snd (k a w1))) ->
  (forall e w1, m w = (Raise e, w1) -> Q w1) ->
  Q (snd (bind m k w)).
Proof.
  intros Hok Herr. unfold bind.
  destruct (m w) as [[a|e] w1]; [eapply Hok|eapply Herr]; reflexivity.
Qed.

(** ** Computations that leave a field of the target alone *)

Section Keeps.
Context {S : Type} (f : World -> S).
Hypothesis f_record_event : forall e w, f (record_event e w) = f w.
Hypothesis f_set_script : forall s w, f (set_script s w) = f w.

Lemma keeps_ret {A} (a : A) : keeps f (ret a).
Proof. intros w. reflexivity. Qed.

Lemma keeps_raise {A} (e : exn) : keeps f (@raise A e).
Proof. intros w. reflexivity. Qed.

Lemma keeps_emit (e : event) : keeps f (emit e).
Proof. intros w. apply f_record_event. Qed.

Lemma keeps_recv : keeps f recv.
Proof. intros w. apply f_set_script. Qed.

Lemma keeps_get {T} (g : World -> T) : keeps f (get g).
Proof. intros w. reflexivity. Qed.

Lemma keeps_format fmt args : keeps f (format fmt args).
Proof. intros w. unfold format. destruct (percent fmt args); reflexivity. Qed.

Lemma keeps_bind {A B} (m : M A) (k : A -> M B) :
  keeps f m -> (forall a, keeps f (k a)) -> keeps f (bind m k).
Proof.
  intros Hm Hk w. unfold bind. specialize (Hm w).
  destruct (m w) as [[a|e] w1]; cbn in *; [|assumption].
  rewrite Hk. assumption.
Qed.

Lemma keeps_try_except {A} (m : M A) sel h :
  keeps f m -> (forall e, keeps f (h e)) -> keeps f (try_except m sel h).
Proof.
  intros Hm Hh w. unfold try_except. specialize (Hm w).
  destruct (m w) as [[a|e] w1]; cbn in *; [assumption|].
  destruct (sel e); [|assumption]. rewrite Hh. assumption.
Qed.

Lemma keeps_try_finally {A} (m : M A) c :
  keeps f m -> keeps f c -> keeps f (try_finally m c).
Proof.
  intros Hm Hc w. rewrite try_finally_world, Hc. apply Hm.
Qed.

Lemma keeps_run cmd timeout failok : keeps f (run cmd timeout failok).
Proof.
  unfold run. apply keeps_bind; [apply keeps_emit|]. intros _.
  apply keeps_bind; [apply keeps_recv|]. intros [rc t| | |e];
    try apply keeps_raise.
  destruct (negb (rc =? 0)%nat && negb failok);
    [apply keeps_raise|apply keeps_ret].
Qed.

Lemma keeps_host op args : keeps f (host op args).
Proof.
  unfold host. apply keeps_bind; [apply keeps_emit|]. intros _.
  apply keeps_bind; [apply keeps_recv|]. intros [rc t| | |e];
    apply keeps_raise || apply keeps_ret.
Qed.

Lemma keeps_expect ps timeout : keeps f (expect ps timeout).
Proof.
  unfold expect. apply keeps_bind; [apply keeps_emit|]. intros _.
  apply keeps_bind; [apply keeps_recv|]. intros [rc t| | |e];
    try apply keeps_raise; try apply keeps_ret;
    match goal with |- keeps f (match ?x with _ => _ end) => destruct x end;
    apply keeps_raise || apply keeps_ret.
Qed.

Lemma keeps_find_boot_file_mounted mnt files :
  keeps f (find_boot_file_mounted mnt files).
Proof.
  induction files as [|g files IH]; cbn [find_boot_file_mounted];
    [apply keeps_ret|].
  apply keeps_bind; [apply keeps_host|]. intros p.
  destruct (negb (fst p =? 0)%nat); [apply keeps_ret|exact IH].
Qed.

End Keeps.

(** The search for the boot file, on the image or in the tarball, does not
    touch the stored commands. *)
Lemma keeps_read_boot_cmds_search cfg image boot_tgz :
  keeps boot_cmds_dynamic
    (if truthy image then
       mnt <- host "image_partition_mounted.__enter__"
                [default EmptyString image; str_Z (boot_part cfg)];;
       try_finally
         (find_boot_file_mounted (snd mnt) (boot_files cfg))
         (host "image_partition_mounted.__exit__" [snd mnt];; ret tt)
     else if truthy boot_tgz then
       tmp_dir <- host "mkdtemp" [];;
       extracted <- host "extract_targz"
                      [default EmptyString boot_tgz; snd tmp_dir];;
       ret (find_boot_file_extracted (boot_files cfg)
              (split_char "010" (snd extracted)) None)
     else ret None).
Proof.
  assert (Hr : forall e w, boot_cmds_dynamic (record_event e w) = boot_cmds_dynamic w)
    by reflexivity.
  assert (Hs : forall s w, boot_cmds_dynamic (set_script s w) = boot_cmds_dynamic w)
    by reflexivity.
  destruct (truthy image); [|destruct (truthy boot_tgz)].
  - apply keeps_bind; [apply keeps_host; assumption|]. intros mnt.
    apply keeps_try_finally.
    + apply keeps_find_boot_file_mounted; assumption.
    + apply keeps_bind; [apply keeps_host; assumption|]. intros _.
      apply keeps_ret.
  - apply keeps_bind; [apply keeps_host; assumption|]. intros tmp.
    apply keeps_bind; [apply keeps_host; assumption|]. intros ex.
    apply keeps_ret.
  - apply keeps_ret.
Qed.

(** X19. What a call of [_read_boot_cmds] can do to the stored commands:
    nothing, or, when none were stored, store the rewriting of the content
    of a boot file.  Stored commands are never dropped or replaced, and
    what gets stored always went through [_rewrite_boot_cmds]. *)
Theorem read_boot_cmds_stores_rewritten cfg image boot_tgz w :
  let w' := snd (_read_boot_cmds cfg image boot_tgz w) in
  boot_cmds_dynamic w' = boot_cmds_dynamic w
  \/ (boot_cmds_dynamic w = None
      /\ read_boot_cmds_from_image cfg = true
      /\ exists content,
           boot_cmds_dynamic w' = Some (_rewrite_boot_cmds cfg content)).
Proof.
  cbv zeta. unfold _read_boot_cmds.
  destruct (read_boot_cmds_from_image cfg); cbn [negb]; [|left; reflexivity].
  rewrite bind_get.
  destruct (boot_cmds_dynamic w) as [cmds|] eqn:Ed; [left; exact Ed|].
  set (Q := fun w' : World =>
              boot_cmds_dynamic w' = None
              \/ (@None (list string) = None /\ true = true
                  /\ exists content,
                       boot_cmds_dynamic w' = Some (_rewrite_boot_cmds cfg content))).
  match goal with |- _ \/ (_ /\ _ /\ exists c, boot_cmds_dynamic (snd ?r) = _) =>
    change (Q (snd r)) end.
  assert (Hr : forall e w, boot_cmds_dynamic (record_event e w) = boot_cmds_dynamic w)
    by reflexivity.
  assert (Hs : forall s w, boot_cmds_dynamic (set_script s w) = boot_cmds_dynamic w)
    by reflexivity.
  apply bind_world_cases.
  - intros path w1 E1.
    pose proof (keeps_read_boot_cmds_search cfg image boot_tgz w) as Hk.
    rewrite E1 in Hk. cbn [snd] in Hk. rewrite Ed in Hk.
    apply bind_world_cases.
    + intros present w2 E2.
      assert (Hp : boot_cmds_dynamic w2 = None).
      { destruct (truthy path).
        - pose proof (keeps_bind boot_cmds_dynamic _ _
                        (keeps_host boot_cmds_dynamic Hr Hs "os.path.exists"
                           [default EmptyString path])
                        (fun p => keeps_ret boot_cmds_dynamic (negb (fst p =? 0)%nat))
                        w1) as H.
          rewrite E2 in H. cbn [snd] in H. congruence.
        - injection E2 as _ <-. exact Hk. }
      destruct present.
      * apply bind_world_cases.
        -- intros content w3 E3. right. split; [reflexivity|].
           split; [reflexivity|]. exists (snd content). reflexivity.
        -- intros e w3 E3. left.
           pose proof (keeps_host boot_cmds_dynamic Hr Hs "open.read"
                         [default EmptyString path] w2) as H.
           rewrite E3 in H. cbn [snd] in H. congruence.
      * left. exact Hp.
    + intros e w2 E2. left.
      destruct (truthy path); [|discriminate E2].
      pose proof (keeps_bind boot_cmds_dynamic _ _
                    (keeps_host boot_cmds_dynamic Hr Hs "os.path.exists"
                       [default EmptyString path])
                    (fun p => keeps_ret boot_cmds_dynamic (negb (fst p =? 0)%nat))
                    w1) as H.
      rewrite E2 in H. cbn [snd] in H. congruence.
  - intros e w1 E1. left.
    pose proof (keeps_read_boot_cmds_search cfg image boot_tgz w) as Hk.
    rewrite E1 in Hk. cbn [snd] in Hk. congruence.
Qed.

(** ** Booting the test image *)

Lemma soft_reboot_then_keeps cfg (enter : M unit) w :
  keeps master_ip enter ->
  master_ip (snd ((_soft_reboot cfg;; enter) w)) = None.
Proof.
  intros Hk.
  apply (bind_world_cases (_soft_reboot cfg) (fun _ => enter) w
           (fun w' => master_ip w' = None)).
  - intros a w1 E. rewrite Hk.
    pose proof (proj2 (soft_reboot_adds cfg w)) as H. rewrite E in H. exact H.
  - intros e w1 E.
    pose proof (proj2 (soft_reboot_adds cfg w)) as H. rewrite E in H. exact H.
Qed.

Lemma hard_reboot_then_keeps cfg (enter : M unit) w :
  keeps master_ip enter ->
  master_ip (snd ((_hard_reboot cfg;; enter) w)) = None.
Proof.
  intros Hk.
  apply (bind_world_cases (_hard_reboot cfg) (fun _ => enter) w
           (fun w' => master_ip w' = None)).
  - intros a w1 E. rewrite Hk.
    pose proof (proj1 (proj2 (hard_reboot_adds cfg w))) as H.
    rewrite E in H. exact H.
  - intros e w1 E.
    pose proof (proj1 (proj2 (hard_reboot_adds cfg w))) as H.
    rewrite E in H. exact H.
Qed.

(** X20. Booting the test image forgets the address of the master image:
    whatever happens in [_boot] (the soft reboot or its hard-reboot
    fallback, the bootloader not answering, the commands failing), the
    cached [master_ip] is null afterwards, provided the two bootloader
    steps of the base class do not set it themselves. *)
Theorem boot_forgets_master_ip cfg (enter : M unit) (customize : pyval -> M unit)
    cmds w :
  keeps master_ip enter ->
  (forall c, keeps master_ip (customize c)) ->
  master_ip (snd (_boot cfg enter customize cmds w)) = None.
Proof.
  intros He Hc. unfold _boot.
  assert (Htry : forall w0,
            master_ip (snd (try_except (_soft_reboot cfg;; enter) (fun _ => true)
                              (fun _ => logging ERROR "_enter_bootloader failed";;
                                        _hard_reboot cfg;; enter) w0)) = None).
  { intros w0. unfold try_except.
    pose proof (soft_reboot_then_keeps cfg enter w0 He) as Hs.
    destruct ((_soft_reboot cfg;; enter) w0) as [[[]|e] w1]; cbn [snd] in *;
      [exact Hs|].
    unfold logging. rewrite bind_emit.
    apply (hard_reboot_then_keeps cfg enter _ He). }
  match goal with
  | |- master_ip (snd (bind ?m ?k w)) = None =>
      apply (bind_world_cases m k w (fun w' => master_ip w' = None))
  end.
  - intros a w1 E. rewrite Hc. specialize (Htry w). rewrite E in Htry. exact Htry.
  - intros e w1 E. specialize (Htry w). rewrite E in Htry. exact Htry.
Qed.

Lemma boot_forgets_master_ip_witness :
  master_ip
    (snd (_boot (panda_cfg 3)
            (expect [Re "Hit any key to stop autoboot"] (-1);; sendline EmptyString)
            (fun cmds => sendline (str_pyval cmds))
            (PList ["mmc rescan"; "bootm 0x80200000"])
            (set_master_ip (Some "10.0.0.7") (fresh_world [Reply 1 EmptyString])))) =
  None.
Proof.
  apply boot_forgets_master_ip.
  - apply keeps_bind; try reflexivity.
    + apply keeps_expect; reflexivity.
    + intros _. apply keeps_emit. reflexivity.
  - intros c. apply keeps_emit. reflexivity.
Defined.

(** ** extract_tarball *)

Lemma run_transcript cmd timeout failok w :
  transcript (snd (run cmd timeout failok w)) =
  transcript w ++ [Run cmd timeout failok].
Proof.
  unfold run. msteps.
  destruct (hd Silent (script w)) as [rc t| | |e]; cbn; try reflexivity.
  destruct (negb (rc =? 0)%nat && negb failok); reflexivity.
Qed.

(** X21. Once [extract_tarball] has mounted the partition, the last thing
    it does is to issue [umount /mnt], whether the transfer succeeded,
    exhausted its retries or raised at once.  At most five transfer
    commands come in between, and for a URL with an unsupported extension
    none at all: the unmount follows the mount directly.  When the mount
    fails its exception passes through. *)
Theorem extract_tarball_always_unmounts cfg url partition directory w :
  match extract_tarball_mount cfg url partition w with
  | (Raise e, w1) => extract_tarball cfg url partition directory w = (Raise e, w1)
  | (Ok _, w1) =>
      exists evs,
        transcript (snd (extract_tarball cfg url partition directory w)) =
          transcript w1 ++ evs ++ [Run "umount /mnt" (-1) false]
        /\ (length (List.filter is_run evs) <= 5)%nat
        /\ (good_extension url = false -> evs = [])
  end.
Proof.
  destruct (extract_tarball_mount cfg url partition w) as [[dev|e] w1] eqn:Em;
    [|unfold extract_tarball, bind; rewrite Em; reflexivity].
  assert (H : snd (extract_tarball cfg url partition directory w) =
              snd ((run "umount /mnt" (-1) false;; ret tt)
                     (snd ((dest <- format "/mnt/%s" [directory];;
                            target_extract url dest (-1) 5) w1)))).
  { unfold extract_tarball. unfold bind at 1. rewrite Em.
    apply try_finally_world. }
  rewrite H. clear H.
  assert (Hu : forall w0, transcript (snd ((run "umount /mnt" (-1) false;; ret tt) w0)) =
                          transcript w0 ++ [Run "umount /mnt" (-1) false]).
  { intros w0. rewrite <- (run_transcript "umount /mnt" (-1) false w0).
    unfold bind. destruct (run "umount /mnt" (-1) false w0) as [[rc|e] w2];
      reflexivity. }
  rewrite Hu. msteps.
  match goal with
  | |- context [target_extract url ?dest (-1) 5 w1] =>
      destruct (target_extract_any url dest (-1) 5 w1) as (evs & Ht & Hr & _)
  end.
  exists evs. rewrite Ht, <- app_assoc. split; [reflexivity|].
  split; [exact Hr|].
  intros Hbad.
  rewrite (target_extract_bad_extension_world _ _ _ _ _ Hbad) in Ht.
  rewrite <- (app_nil_r (transcript w1)) in Ht at 1.
  apply app_inv_head in Ht. congruence.
Qed.

(** ** The Android deployment *)

(** X22. At the end of an Android deployment the sdcard partition is
    reformatted only when the device has both a userdata and an sdcard
    partition.  Without a userdata partition the sdcard is not even
    probed; with userdata but no sdcard nothing is formatted. *)
Theorem deploy_android_purge_condition w rc t rest :
  (rc <> O ->
   script w = Reply rc t :: rest ->
   deploy_android_purge w =
     (Ok tt,
      set_script rest
        (record_event (Run "ls /dev/disk/by-label/userdata > /dev/null" (-1) true) w)))
  /\ (forall t2, rc <> O ->
      script w = Reply 0 t :: Reply rc t2 :: rest ->
      exists w',
        deploy_android_purge w = (Ok tt, w')
        /\ script w' = rest
        /\ transcript w' = transcript w ++
             [Run "ls /dev/disk/by-label/userdata > /dev/null" (-1) true;
              Run "ls /dev/disk/by-label/sdcard > /dev/null" (-1) true])
  /\ (forall t2 t3 t4,
      script w = Reply 0 t :: Reply 0 t2 :: Reply 0 t3 :: Reply 0 t4 :: rest ->
      exists w',
        deploy_android_purge w = (Ok tt, w')
        /\ script w' = rest
        /\ transcript w' = transcript w ++
             [Run "ls /dev/disk/by-label/userdata > /dev/null" (-1) true;
              Run "ls /dev/disk/by-label/sdcard > /dev/null" (-1) true;
              Log INFO "Reformatting Linaro Android sdcard filesystem";
              Run "nice mkfs.vfat /dev/disk/by-label/sdcard -n sdcard" (-1) false;
              Run "udevadm trigger" (-1) false]).
Proof.
  destruct w as [ip0 dv0 dyn0 tr0 sc0].
  unfold deploy_android_purge, has_partition_with_label, is_file_exist,
    _purge_linaro_android_sdcard, run, logging.
  split; [|split].
  - intros Hrc Hs. cbn [script] in Hs. subst sc0.
    destruct rc as [|rc]; [congruence|].
    repeat (msteps; cbn; rewrite ?andb_false_r). reflexivity.
  - intros t2 Hrc Hs. cbn [script] in Hs. subst sc0.
    destruct rc as [|rc]; [congruence|].
    repeat (msteps; cbn; rewrite ?andb_false_r).
    eexists. split; [reflexivity|]. cbn. split; [reflexivity|].
    rewrite <- !app_assoc. reflexivity.
  - intros t2 t3 t4 Hs. cbn [script] in Hs. subst sc0.
    repeat (msteps; cbn; rewrite ?andb_false_r).
    eexists. split; [reflexivity|]. cbn. split; [reflexivity|].
    rewrite <- !app_assoc. reflexivity.
Qed.

Lemma deploy_android_purge_condition_witness :
  deploy_android_purge (fresh_world [Reply 2 EmptyString; Reply 0 EmptyString]) =
  (Ok tt,
   set_script [Reply 0 EmptyString]
     (record_event (Run "ls /dev/disk/by-label/userdata > /dev/null" (-1) true)
        (fresh_world [Reply 2 EmptyString; Reply 0 EmptyString]))).
Proof.
  apply (proj1 (deploy_android_purge_condition
                  (fresh_world [Reply 2 EmptyString; Reply 0 EmptyString])
                  2%nat EmptyString [Reply 0 EmptyString])).
  - discriminate.
  - reflexivity.
Defined.

(** X23. [_deploy_linaro_android_data] puts the data on the partition the
    probe selects and on no other: with a userdata partition the commands
    unmount, format and mount userdata; without one they do the same to
    sdcard, which is reformatted as ext4.  The exit code of the unmount is
    ignored. *)
Theorem deploy_linaro_android_data_label datatbz2 w rc t u tu t1 t2 t3 t4 t5 t6 rest :
  good_extension datatbz2 = true ->
  script w = Reply rc t :: Reply u tu :: Reply 0 t1 :: Reply 0 t2 :: Reply 0 t3
               :: Reply 0 t4 :: Reply 0 t5 :: Reply 0 t6 :: rest ->
  let label := if (rc =? 0)%nat then "userdata" else "sdcard" in
  exists w',
    _deploy_linaro_android_data datatbz2 w = (Ok tt, w')
    /\ script w' = rest
    /\ transcript w' = transcript w ++
         [Run "ls /dev/disk/by-label/userdata > /dev/null" (-1) true;
          Run ("umount /dev/disk/by-label/" +:+ label) (-1) true;
          Run ("nice mkfs.ext4 -q /dev/disk/by-label/" +:+ label +:+ " -L " +:+ label)
            (-1) false;
          Run "udevadm trigger" (-1) false;
          Run "mkdir -p /mnt/lava/data" (-1) false;
          Run ("mount /dev/disk/by-label/" +:+ label +:+ " /mnt/lava/data") (-1) false;
          Run (transfer_command datatbz2 "/mnt/lava" (codec datatbz2)) 600 false;
          Run "umount /mnt/lava/data" (-1) false].
Proof.
  intros Hext Hs. cbv zeta. destruct w as [ip0 dv0 dyn0 tr0 sc0].
  cbn [script] in Hs. subst sc0.
  unfold _deploy_linaro_android_data, _android_data_label,
    has_partition_with_label, is_file_exist.
  destruct rc as [|rc]; cbn [Nat.eqb];
    unfold run at 1 2 3 4 5 6;
    repeat (msteps; cbn; rewrite ?andb_false_r);
    (erewrite bind_ok
       by (eapply target_extract_first_try; [exact Hext|lia|reflexivity]));
    unfold run; repeat (msteps; cbn);
    eexists; (split; [reflexivity|]); cbn; (split; [reflexivity|]);
    rewrite <- !app_assoc; reflexivity.
Qed.

Lemma deploy_linaro_android_data_label_witness :
  exists w',
    _deploy_linaro_android_data "http://dispatcher/images/tmp/scratch/userdata.tar.bz2"
      (fresh_world [Reply 2 EmptyString; Reply 32 EmptyString; Reply 0 EmptyString;
                    Reply 0 EmptyString; Reply 0 EmptyString; Reply 0 EmptyString;
                    Reply 0 EmptyString; Reply 0 EmptyString]) = (Ok tt, w')
    /\ script w' = []
    /\ In (Run "nice mkfs.ext4 -q /dev/disk/by-label/sdcard -L sdcard" (-1) false)
          (transcript w').
Proof.
  destruct (deploy_linaro_android_data_label
              "http://dispatcher/images/tmp/scratch/userdata.tar.bz2"
              (fresh_world [Reply 2 EmptyString; Reply 32 EmptyString;
                            Reply 0 EmptyString; Reply 0 EmptyString;
                            Reply 0 EmptyString; Reply 0 EmptyString;
                            Reply 0 EmptyString; Reply 0 EmptyString])
              2%nat EmptyString 32%nat EmptyString EmptyString EmptyString
              EmptyString EmptyString EmptyString EmptyString [] eq_refl eq_refl)
    as (w' & Hr & Hs & Ht).
  exists w'. split; [exact Hr|]. split; [exact Hs|].
  rewrite Ht. cbn. auto.
Defined.

(** X24. [_recreate_uInitrd] rewrites only init files that are in the
    ramdisk: when none of the candidates of [possible_partitions_files]
    exists, each one is probed once and no sed or cat command is sent. *)
Theorem update_partitions_files_absent cfg sys_org cache_org pad_org sys_lava
    data_lava pad_lava blk_org blk_lava rest :
  forall files answers w,
    length answers = length files ->
    script w = map (fun a : nat * string => Reply (S (fst a)) (snd a)) answers
                 ++ rest ->
    update_partitions_files cfg sys_org cache_org pad_org sys_lava data_lava
      pad_lava blk_org blk_lava files w =
      (Ok tt,
       set_script rest
         (mkWorld (master_ip w) (device_version w) (boot_cmds_dynamic w)
            (transcript w ++
             map (fun f => Run ("ls " +:+ f +:+ " > /dev/null") (-1) true) files)
            (script w))).
Proof.
  induction files as [|f files IH]; intros answers w Hlen Hs.
  - destruct answers; [|discriminate]. cbn in Hs. cbn. rewrite app_nil_r.
    destruct w; cbn in *. subst. reflexivity.
  - destruct answers as [|[rc t] answers]; [discriminate|]. cbn in Hs.
    injection Hlen as Hlen. cbn [update_partitions_files].
    unfold bind at 1. rewrite is_file_exist_run, Hs.
    cbn. msteps.
    rewrite IH with (answers := answers); [|exact Hlen|reflexivity].
    cbn. rewrite <- app_assoc. reflexivity.
Qed.

Lemma update_partitions_files_absent_witness :
  fst (update_partitions_files (panda_cfg 3) "3" "5" "p" "2" "6" "p"
         "mmcblk0" "mmcblk1" ["init.rc"; "init.partitions.rc"]
         (fresh_world [Reply 2 EmptyString; Reply 2 EmptyString;
                       Reply 0 EmptyString])) = Ok tt.
Proof.
  rewrite (update_partitions_files_absent (panda_cfg 3) "3" "5" "p" "2" "6" "p"
             "mmcblk0" "mmcblk1" [Reply 0 EmptyString]
             ["init.rc"; "init.partitions.rc"]
             [(1%nat, EmptyString); (1%nat, EmptyString)]
             (fresh_world [Reply 2 EmptyString; Reply 2 EmptyString;
                           Reply 0 EmptyString]) eq_refl eq_refl).
  reflexivity.
Defined.

Lemma extract_tarball_always_unmounts_witness :
  transcript
    (snd (extract_tarball (panda_cfg 3) "http://dispatcher/images/tmp/overlay.tar.xz"
            2 "/" (fresh_world [Reply 0 EmptyString; Reply 0 EmptyString;
                                Reply 0 EmptyString]))) =
  [Log INFO "extracting http://dispatcher/images/tmp/overlay.tar.xz to target";
   Sendline EmptyString;
   Expect [Re (MASTER_PS1_PATTERN (panda_cfg 3)); PTimeout] 10;
   Run "mount /dev/disk/by-label/testrootfs /mnt" (-1) false;
   Run "umount /mnt" (-1) false].
Proof.
  pose proof (extract_tarball_always_unmounts (panda_cfg 3)
                "http://dispatcher/images/tmp/overlay.tar.xz" 2 "/"
                (fresh_world [Reply 0 EmptyString; Reply 0 EmptyString;
                              Reply 0 EmptyString])) as H.
  let m := eval vm_compute in
      (extract_tarball_mount (panda_cfg 3)
         "http://dispatcher/images/tmp/overlay.tar.xz" 2
         (fresh_world [Reply 0 EmptyString; Reply 0 EmptyString;
                       Reply 0 EmptyString])) in
  change (extract_tarball_mount (panda_cfg 3)
            "http://dispatcher/images/tmp/overlay.tar.xz" 2
            (fresh_world [Reply 0 EmptyString; Reply 0 EmptyString;
                          Reply 0 EmptyString])) with m in H.
  cbv beta iota in H. destruct H as (evs & Ht & _ & Hbad).
  rewrite Ht, (Hbad eq_refl). reflexivity.
Defined.

(** X25. When the configuration entry that should supply the boot
    commands is missing (no job commands, no boot option override, nothing
    read from the image), [_boot_linaro_image] raises the NoOptionError of
    the lookup before any reboot: the device is not touched and the cached
    master address is kept. *)
Theorem boot_linaro_image_missing_entry cfg as_dict job_defined string_to_list
    (enter : M unit) (customize : pyval -> M unit) w :
  job_defined (boot_cmds cfg) = false ->
  (as_dict (deployment_boot_cmds cfg) !! "boot_cmds" = None
   \/ as_dict (deployment_boot_cmds cfg) !! "boot_cmds" = Some "boot_cmds") ->
  boot_cmds_dynamic w = None ->
  cp_main cfg !! deployment_boot_cmds cfg = None ->
  _boot_linaro_image cfg as_dict job_defined string_to_list enter customize w =
    (Raise (NoOptionError (deployment_boot_cmds cfg)),
     record_event (Log INFO "Loading boot_cmds from device configuration") w).
Proof.
  intros Hj Ho Hd Hc.
  unfold _boot_linaro_image, select_boot_cmds, cp_get, logging.
  rewrite Hj.
  assert (Hno : match as_dict (deployment_boot_cmds cfg) !! "boot_cmds" with
                | Some value => negb (String.eqb value "boot_cmds")
                | None => false
                end = false) by (destruct Ho as [-> | ->]; reflexivity).
  rewrite Hno. msteps. rewrite Hd. msteps. rewrite Hc. msteps. reflexivity.
Qed.

Lemma boot_linaro_image_missing_entry_witness :
  _boot_linaro_image
    (with_deployment_boot_cmds "boot_cmds_android" (panda_cfg 3))
    (fun _ => ∅) is_job_list comma_list
    (sendline EmptyString) (fun _ => ret tt)
    (set_master_ip (Some "10.0.0.7") (fresh_world [])) =
  (Raise (NoOptionError "boot_cmds_android"),
   record_event (Log INFO "Loading boot_cmds from device configuration")
     (set_master_ip (Some "10.0.0.7") (fresh_world []))).
Proof.
  apply (boot_linaro_image_missing_entry
           (with_deployment_boot_cmds "boot_cmds_android" (panda_cfg 3))
           (fun _ => ∅) is_job_list comma_list
           (sendline EmptyString) (fun _ => ret tt)
           (set_master_ip (Some "10.0.0.7") (fresh_world []))).
  - reflexivity.
  - left. reflexivity.
  - reflexivity.
  - vm_compute. reflexivity.
Defined.



(** ** What the deployment steps never do *)

Section KeepsTransfer.
Context {S : Type} (f : World -> S).
Hypothesis f_record_event : forall e w, f (record_event e w) = f w.
Hypothesis f_set_script : forall s w, f (set_script s w) = f w.

Lemma keeps_target_extract url dest timeout num_retry :
  keeps f (target_extract url dest timeout num_retry).
Proof.
  unfold target_extract.
  apply keeps_bind.
  - destruct (endswith url ".gz" || endswith url ".tgz"); [apply keeps_ret|].
    destruct (endswith url ".bz2"); [apply keeps_ret|].
    apply keeps_bind; [apply keeps_format|]. intros msg. apply keeps_raise.
  - intros dc. induction (Z.to_nat num_retry) as [|n IH];
      cbn [target_extract_loop].
    + apply keeps_bind; [apply keeps_format|]. intros msg. apply keeps_raise.
    + apply keeps_bind; [|intros []; [apply keeps_ret|exact IH]].
      unfold target_extract_attempt, sendcontrol, sendline, sleep, logging.
      apply keeps_bind.
      * apply keeps_try_except.
        -- apply keeps_bind; [apply keeps_format|]. intros cmd.
           apply keeps_bind; [apply keeps_run; assumption|]. intros _.
           apply keeps_ret.
        -- intros e. apply keeps_bind; [apply keeps_format|]. intros msg.
           apply keeps_bind; [apply keeps_emit; assumption|]. intros _.
           apply keeps_ret.
      * intros []; [apply keeps_ret|].
        apply keeps_bind; [|intros _; apply keeps_ret].
        destruct (1 <? Z.of_nat (Datatypes.S n)); [|apply keeps_ret].
        apply keeps_bind; [apply keeps_emit; assumption|]. intros _.
        apply keeps_bind; [apply keeps_format|]. intros line.
        apply keeps_bind; [apply keeps_emit; assumption|]. intros _.
        apply keeps_bind; [apply keeps_format|]. intros msg.
        apply keeps_bind; [apply keeps_emit; assumption|]. intros _.
        apply keeps_emit; assumption.
Qed.

Lemma keeps_deploy_tarballs_steps boot_url root_url :
  keeps f (deploy_tarballs_steps boot_url root_url).
Proof.
  unfold deploy_tarballs_steps, _deploy_linaro_rootfs, _deploy_linaro_bootfs,
    logging.
  repeat first
    [ apply keeps_run; assumption
    | apply keeps_target_extract
    | apply keeps_emit; assumption
    | apply keeps_ret
    | apply keeps_bind
    | progress intros
    | match goal with
      | |- keeps f (if ?c then _ else _) => destruct c
      end ].
Qed.

End KeepsTransfer.

Lemma quiet_target_extract url dest timeout num_retry :
  quiet (target_extract url dest timeout num_retry).
Proof.
  unfold target_extract.
  apply quiet_bind; [hush|].
  intros dc. induction (Z.to_nat num_retry) as [|n IH];
    cbn [target_extract_loop]; [hush|].
  apply quiet_bind; [|intros []; [apply quiet_ret|exact IH]].
  unfold target_extract_attempt, sendcontrol, sendline, sleep, logging.
  apply quiet_bind.
  - apply quiet_try_except.
    + apply quiet_format_bind. intros cmd _.
      apply quiet_bind; [apply quiet_run|]. intros _. apply quiet_ret.
    + intros e. hush.
  - intros []; [apply quiet_ret|].
    apply quiet_bind; [|intros _; apply quiet_ret].
    destruct (1 <? Z.of_nat (S n)); [|apply quiet_ret].
    apply quiet_bind; [apply quiet_emit; reflexivity|]. intros _.
    apply quiet_format_bind. intros line _.
    apply quiet_bind; [apply quiet_emit; reflexivity|]. intros _.
    apply quiet_format_bind. intros msg Hmsg.
    cbv -[String.append str_Z] in Hmsg. injection Hmsg as <-.
    apply quiet_bind; [apply quiet_emit; reflexivity|]. intros _.
    apply quiet_emit; reflexivity.
Qed.

(** X27. The transfer and customization steps of a deployment never
    reboot the device and never touch what the target caches: after
    [_deploy_linaro_rootfs] and [_deploy_linaro_bootfs], whatever the device
    answered and however they ended, the master address, the device
    version and the stored boot commands are what they were, and no soft
    or hard reboot is in the transcript they added. *)
Theorem deploy_tarballs_steps_never_reboot boot_url root_url w :
  let w' := snd (deploy_tarballs_steps boot_url root_url w) in
  master_ip w' = master_ip w
  /\ device_version w' = device_version w
  /\ boot_cmds_dynamic w' = boot_cmds_dynamic w
  /\ exists evs,
       transcript w' = transcript w ++ evs
       /\ tally soft_reboot_started evs = 0%nat
       /\ tally hard_reboot_started evs = 0%nat.
Proof.
  cbv zeta.
  split; [apply (keeps_deploy_tarballs_steps master_ip); reflexivity|].
  split; [apply (keeps_deploy_tarballs_steps device_version); reflexivity|].
  split; [apply (keeps_deploy_tarballs_steps boot_cmds_dynamic); reflexivity|].
  assert (Hq : quiet (deploy_tarballs_steps boot_url root_url)).
  { unfold deploy_tarballs_steps, _deploy_linaro_rootfs, _deploy_linaro_bootfs,
      logging.
    repeat first
      [ apply quiet_run
      | apply quiet_target_extract
      | apply quiet_emit; reflexivity
      | apply quiet_ret
      | apply quiet_bind
      | progress intros
      | match goal with
        | |- quiet (if ?c then _ else _) => destruct c
        end ]. }
  destruct (Hq w) as (evs & Ht & _ & Hs & Hh). exists evs. auto.
Qed.

(** ** The limit of eight replacements *)

Lemma append_cons c a b : String c a +:+ b = String c (a +:+ b).
Proof. reflexivity. Qed.

Lemma append_nil_l b : EmptyString +:+ b = b.
Proof. reflexivity. Qed.

Lemma string_app_assoc a b c : (a +:+ b) +:+ c = a +:+ (b +:+ c).
Proof.
  induction a as [|x a IH]; [reflexivity|].
  rewrite !append_cons, IH. reflexivity.
Qed.

Lemma length_append a b :
  String.length (a +:+ b) = (String.length a + String.length b)%nat.
Proof.
  induction a as [|x a IH]; [reflexivity|].
  rewrite append_cons. cbn [String.length]. rewrite IH. reflexivity.
Qed.

Lemma substring_all s : substring 0 (String.length s) s = s.
Proof. induction s as [|c s IH]; [reflexivity|]. cbn. now rewrite IH. Qed.

Lemma span_nonblank u t :
  all_chars (fun c => negb (Re.is_space c)) u = true ->
  t = EmptyString \/ (exists t', t = String "010" t') ->
  Re.span (fun c => negb (Re.is_space c)) (u +:+ t) = (u, t).
Proof.
  intros Hu Ht. induction u as [|c u IH].
  - rewrite append_nil_l. destruct Ht as [->|[t' ->]]; reflexivity.
  - cbn [all_chars] in Hu. apply andb_prop in Hu as [Hc Hu].
    rewrite append_cons. cbn [Re.span]. rewrite Hc, (IH Hu). reflexivity.
Qed.

Lemma root_uuid_line u t :
  nonblank u = true ->
  t = EmptyString \/ (exists t', t = String "010" t') ->
  Re.root_uuid ("root=UUID=" +:+ (u +:+ t)) =
    Some (S (9 + String.length u), EmptyString).
Proof.
  intros Hu Ht. unfold Re.root_uuid.
  change ("root=UUID=" +:+ (u +:+ t))
    with (String "r" (String "o" (String "o" (String "t" (String "="
          (String "U" (String "U" (String "I" (String "D" (String "="
          (u +:+ t))))))))))).
  cbn [startswith Ascii.eqb Bool.eqb andb String.length Nat.sub substring].
  rewrite Nat.sub_0_r, substring_all.
  destruct u as [|c u]; [discriminate|]. cbn [nonblank] in Hu.
  rewrite (span_nonblank _ _ Hu Ht). reflexivity.
Qed.

Lemma sub_from_skip m repl lim count a b :
  Re.sub_from m repl lim count (String.length a) (a +:+ b) =
  Re.sub_from m repl lim count O b.
Proof.
  induction a as [|x a IH]; [reflexivity|].
  rewrite append_cons. cbn [String.length Re.sub_from]. exact IH.
Qed.

Lemma sub_from_zero m repl s : Re.sub_from m repl true 0 O s = s.
Proof. destruct s; reflexivity. Qed.

Lemma join_cons sep p rest :
  join sep (p :: rest) =
  p +:+ match rest with [] => EmptyString | _ => sep +:+ join sep rest end.
Proof.
  destruct rest; [|reflexivity]. cbn [join]. now rewrite append_empty_r.
Qed.

Lemma sub_uuid_lines uuids :
  forallb nonblank uuids = true ->
  forall count,
    Re.sub_from Re.root_uuid (fun _ => "root=LABEL=testrootfs") true count O
      (join LF (map (String.append "root=UUID=") uuids)) =
    join LF (map (fun _ => "root=LABEL=testrootfs") (firstn count uuids)
             ++ map (String.append "root=UUID=") (skipn count uuids)).
Proof.
  induction uuids as [|u rest IH]; intros Hu count.
  - destruct count; reflexivity.
  - cbn [forallb] in Hu. apply andb_prop in Hu as [Hu Hrest].
    destruct count as [|count]; [apply sub_from_zero|].
    cbn [map firstn skipn app]. rewrite !join_cons.
    set (tail := match map (String.append "root=UUID=") rest with
                 | [] => EmptyString
                 | _ => LF +:+ join LF (map (String.append "root=UUID=") rest)
                 end).
    assert (Ht : tail = EmptyString \/ exists t', tail = String "010" t').
    { subst tail. destruct rest; [left; reflexivity|right; eexists; reflexivity]. }
    rewrite string_app_assoc.
    pose proof (root_uuid_line u tail Hu Ht) as Hm.
    change ("root=UUID=" +:+ (u +:+ tail))
      with (String "r" ("oot=UUID=" +:+ (u +:+ tail))) in *.
    cbn [Re.sub_from andb Nat.eqb]. rewrite Hm.
    replace (9 + String.length u)%nat with (String.length ("oot=UUID=" +:+ u))
      by (rewrite length_append; reflexivity).
    rewrite <- string_app_assoc, sub_from_skip.
    replace (S count - 1)%nat with count by lia.
    f_equal. subst tail. specialize (IH Hrest count).
    destruct rest as [|u2 rest2]; [destruct count; reflexivity|].
    set (rest := u2 :: rest2) in *.
    assert (Hl : exists p q,
               map (fun _ => "root=LABEL=testrootfs") (firstn count rest)
               ++ map (String.append "root=UUID=") (skipn count rest) = p :: q).
    { subst rest. destruct count; cbn; eauto. }
    destruct Hl as (p & q & Hl). rewrite Hl in *. rewrite <- IH.
    subst rest. cbn [map]. cbv beta iota.
    set (J := join LF _).
    change (LF +:+ J) with (String "010" J).
    destruct count as [|count]; [now rewrite !sub_from_zero|].
    reflexivity.
Qed.

Lemma search_partition_ref_nonblank l t :
  all_chars (fun c => negb (Re.is_space c)) l = true ->
  Re.search Re.partition_ref (l +:+ t) = Re.search Re.partition_ref t.
Proof.
  induction l as [|c l IH]; intros Hl; [reflexivity|].
  cbn [all_chars] in Hl. apply andb_prop in Hl as [Hc Hl].
  rewrite append_cons. cbn [Re.search].
  assert (E : Re.partition_ref (String c (l +:+ t)) = None).
  { unfold Re.partition_ref. cbn [Re.span].
    destruct (Re.is_space c); [discriminate|]. cbv beta iota.
    destruct (Re.span Re.is_digit (String c (l +:+ t))). reflexivity. }
  rewrite E. exact (IH Hl).
Qed.

(** A line of the rewritten text: it starts with the letter r and holds
    no blank. *)
Lemma search_partition_ref_lines lines :
  forallb (fun l => startswith "r" l
                    && all_chars (fun c => negb (Re.is_space c)) l) lines = true ->
  Re.search Re.partition_ref (join LF lines) = false.
Proof.
  induction lines as [|l rest IH]; intros H; [reflexivity|].
  cbn [forallb] in H. apply andb_prop in H as [Hl Hrest].
  apply andb_prop in Hl as [_ Hl].
  rewrite join_cons, search_partition_ref_nonblank by exact Hl.
  specialize (IH Hrest).
  destruct rest as [|l2 rest2]; [reflexivity|].
  cbn [forallb] in Hrest. apply andb_prop in Hrest as [Hl2 _].
  apply andb_prop in Hl2 as [Hr _].
  rewrite join_cons in *.
  destruct l2 as [|c l2]; [discriminate|].
  cbn [startswith] in Hr. apply andb_prop in Hr as [Hr _].
  apply Ascii.eqb_eq in Hr. subst c.
  rewrite append_cons in *. exact IH.
Qed.

Lemma split_char_line sep l t :
  all_chars (fun c => negb (Ascii.eqb c sep)) l = true ->
  split_char sep (l +:+ String sep t) = l :: split_char sep t.
Proof.
  induction l as [|c l IH]; intros Hl.
  - rewrite append_nil_l. cbn [split_char]. now rewrite Ascii.eqb_refl.
  - cbn [all_chars] in Hl. apply andb_prop in Hl as [Hc Hl].
    rewrite append_cons. cbn [split_char].
    destruct (Ascii.eqb c sep); [discriminate|]. now rewrite (IH Hl).
Qed.

Lemma split_char_one sep l :
  all_chars (fun c => negb (Ascii.eqb c sep)) l = true ->
  split_char sep l = [l].
Proof.
  induction l as [|c l IH]; intros Hl; [reflexivity|].
  cbn [all_chars] in Hl. apply andb_prop in Hl as [Hc Hl].
  cbn [split_char]. destruct (Ascii.eqb c sep); [discriminate|].
  now rewrite (IH Hl).
Qed.

Lemma split_char_join sep lines :
  lines <> [] ->
  forallb (all_chars (fun c => negb (Ascii.eqb c sep))) lines = true ->
  split_char sep (join (String sep EmptyString) lines) = lines.
Proof.
  induction lines as [|l rest IH]; intros Hne H; [congruence|].
  cbn [forallb] in H. apply andb_prop in H as [Hl Hrest].
  rewrite join_cons. destruct rest as [|l2 rest2].
  - rewrite append_empty_r. now apply split_char_one.
  - rewrite append_cons, append_nil_l, (split_char_line _ _ _ Hl).
    rewrite IH; [reflexivity|discriminate|exact Hrest].
Qed.

Lemma all_chars_impl (p q : ascii -> bool) s :
  (forall c, p c = true -> q c = true) ->
  all_chars p s = true -> all_chars q s = true.
Proof.
  intros Hpq. induction s as [|c s IH]; [reflexivity|].
  cbn [all_chars]. intros H. apply andb_prop in H as [Hc Hs].
  now rewrite (Hpq c Hc), (IH Hs).
Qed.

Lemma all_chars_append p a b :
  all_chars p (a +:+ b) = all_chars p a && all_chars p b.
Proof.
  induction a as [|c a IH]; [reflexivity|].
  rewrite append_cons. cbn [all_chars]. now rewrite IH, andb_assoc.
Qed.

Lemma nonblank_all_chars u :
  nonblank u = true -> all_chars (fun c => negb (Re.is_space c)) u = true.
Proof. destruct u; [discriminate|exact id]. Qed.

Lemma not_space_not_LF c :
  negb (Re.is_space c) = true -> negb (Ascii.eqb c "010") = true.
Proof.
  destruct (Ascii.eqb_spec c "010") as [->|]; [discriminate|reflexivity].
Qed.

(** X28. [_rewrite_boot_cmds] passes [re.MULTILINE], which is 8, where
    [re.sub] takes [count]: of a blob whose lines are root=UUID=
    references, the first eight are rewritten to root=LABEL=testrootfs and
    every later one is returned as it was. *)
Theorem rewrite_boot_cmds_first_eight cfg uuids :
  uuids <> [] ->
  forallb nonblank uuids = true ->
  _rewrite_boot_cmds cfg (join LF (map (String.append "root=UUID=") uuids)) =
    map (fun _ => "root=LABEL=testrootfs") (firstn 8 uuids)
    ++ map (String.append "root=UUID=") (skipn 8 uuids).
Proof.
  intros Hne Hu.
  unfold _rewrite_boot_cmds, rewrite_boot_text, Re.sub.
  change (negb (Re.MULTILINE =? 0)) with true.
  change (Z.to_nat Re.MULTILINE) with 8%nat.
  rewrite (sub_uuid_lines uuids Hu 8).
  set (lines := map _ (firstn 8 uuids) ++ map _ (skipn 8 uuids)).
  assert (Hlines : forallb (fun l => startswith "r" l
                     && all_chars (fun c => negb (Re.is_space c)) l) lines = true).
  { subst lines. rewrite forallb_app.
    rewrite forallb_forall in Hu.
    apply andb_true_intro. split; apply forallb_forall; intros l Hin;
      apply in_map_iff in Hin as (u & <- & Hin); [reflexivity|].
    change ("root=UUID=" +:+ u) with (String "r" ("oot=UUID=" +:+ u)).
    cbn [startswith Ascii.eqb Bool.eqb andb all_chars].
    rewrite all_chars_append.
    rewrite (nonblank_all_chars u); [reflexivity|].
    apply Hu. rewrite <- (firstn_skipn 8 uuids). apply in_or_app. now right. }
  rewrite sub_from_no_match by (apply search_partition_ref_lines, Hlines).
  apply split_char_join.
  - subst lines. destruct uuids; [congruence|]. discriminate.
  - apply forallb_forall. intros l Hin.
    rewrite forallb_forall in Hlines. specialize (Hlines l Hin).
    apply andb_prop in Hlines as [_ Hl].
    eapply all_chars_impl; [|exact Hl]. apply not_space_not_LF.
Qed.

Lemma rewrite_boot_cmds_first_eight_witness :
  _rewrite_boot_cmds (panda_cfg 3)
    (join LF (map (String.append "root=UUID=")
                ["a1"; "a2"; "a3"; "a4"; "a5"; "a6"; "a7"; "a8"; "a9"; "b0"])) =
  ["root=LABEL=testrootfs"; "root=LABEL=testrootfs"; "root=LABEL=testrootfs";
   "root=LABEL=testrootfs"; "root=LABEL=testrootfs"; "root=LABEL=testrootfs";
   "root=LABEL=testrootfs"; "root=LABEL=testrootfs";
   "root=UUID=a9"; "root=UUID=b0"].
Proof.
  refine (rewrite_boot_cmds_first_eight (panda_cfg 3)
            ["a1"; "a2"; "a3"; "a4"; "a5"; "a6"; "a7"; "a8"; "a9"; "b0"] _ eq_refl).
  discriminate.
Defined.

(** ** A partition reference in a command *)

Lemma space_not_digit c : Re.is_space c = true -> Re.is_digit c = false.
Proof. destruct c as [[] [] [] [] [] [] [] []]; vm_compute; congruence. Qed.

Lemma space_not_colon c : Re.is_space c = true -> Ascii.eqb c ":" = false.
Proof. destruct c as [[] [] [] [] [] [] [] []]; vm_compute; congruence. Qed.

Lemma span_all p a t :
  all_chars p a = true -> stops p t = true -> Re.span p (a +:+ t) = (a, t).
Proof.
  intros Ha Ht. induction a as [|c a IH].
  - rewrite append_nil_l. destruct t as [|c t]; [reflexivity|].
    cbn in *. destruct (p c); [discriminate|reflexivity].
  - cbn [all_chars] in Ha. apply andb_prop in Ha as [Hc Ha].
    rewrite append_cons. cbn [Re.span]. rewrite Hc, (IH Ha). reflexivity.
Qed.

Lemma span_decomp p s :
  forall run r, Re.span p s = (run, r) ->
  s = run +:+ r /\ all_chars p run = true /\ stops p r = true.
Proof.
  induction s as [|c s IH]; intros run r H.
  - cbn in H. injection H as <- <-. repeat split.
  - cbn [Re.span] in H. destruct (p c) eqn:Hc.
    + destruct (Re.span p s) as [run' r'] eqn:E. injection H as <- <-.
      destruct (IH _ _ eq_refl) as (-> & Hrun & Hr).
      split; [reflexivity|]. split; [|exact Hr].
      cbn [all_chars]. now rewrite Hc, Hrun.
    + injection H as <- <-. rewrite append_nil_l.
      split; [reflexivity|]. split; [reflexivity|]. cbn. now rewrite Hc.
Qed.

Lemma span_more p s run c r t :
  Re.span p s = (run, String c r) ->
  Re.span p (s +:+ t) = (run, String c (r +:+ t)).
Proof.
  intros H. destruct (span_decomp _ _ _ _ H) as (-> & Hrun & Hr).
  rewrite string_app_assoc, append_cons. apply span_all; [exact Hrun|exact Hr].
Qed.

Lemma ends_with_blank_app a c b :
  ends_with_blank (a +:+ String c b) = ends_with_blank (String c b).
Proof.
  induction a as [|x a IH]; [reflexivity|]. rewrite append_cons.
  destruct (a +:+ String c b) as [|y z] eqn:E; [destruct a; discriminate|].
  exact IH.
Qed.

Lemma all_blank_ends s :
  all_chars Re.is_space s = true -> s <> EmptyString ->
  ends_with_blank s = true.
Proof.
  induction s as [|c s IH]; intros H Hne; [congruence|].
  cbn [all_chars] in H. apply andb_prop in H as [Hc Hs].
  destruct s as [|d s]; [exact Hc|]. apply IH; [exact Hs|discriminate].
Qed.

(** An attempt to match that starts in a text not ending with a blank
    fails before a blank whenever it fails before one blank. *)
Lemma partition_ref_fails_before_blank s b t :
  ends_with_blank s = false -> s <> EmptyString ->
  Re.is_space b = true ->
  Re.partition_ref (s +:+ " ") = None ->
  Re.partition_ref (s +:+ String b t) = None.
Proof.
  intros He Hne Hb H. unfold Re.partition_ref in *.
  assert (Hstop : stops Re.is_digit (String b t) = true).
  { cbn. now rewrite (space_not_digit b Hb). }
  destruct (Re.span Re.is_space s) as [ws1 s1] eqn:E1.
  destruct (span_decomp _ _ _ _ E1) as (Hs & Hws1 & _).
  destruct s1 as [|c1 s1].
  { exfalso. rewrite append_empty_r in Hs. subst ws1.
    rewrite (all_blank_ends s Hws1 Hne) in He. discriminate. }
  rewrite (span_more _ _ _ _ _ " " E1) in H.
  rewrite (span_more _ _ _ _ _ (String b t) E1).
  rewrite <- append_cons in *.
  destruct (Re.span Re.is_digit (String c1 s1)) as [major s2] eqn:E2.
  destruct (span_decomp _ _ _ _ E2) as (Hs1 & Hmajor & _).
  destruct s2 as [|c2 s3].
  { rewrite append_empty_r in Hs1. rewrite Hs1.
    rewrite (span_all _ major (String b t) Hmajor Hstop).
    rewrite (space_not_colon b Hb).
    destruct ws1; [reflexivity|]. destruct major; reflexivity. }
  rewrite (span_more _ _ _ _ _ " " E2) in H.
  rewrite (span_more _ _ _ _ _ (String b t) E2).
  destruct ws1 as [|w ws1]; [reflexivity|].
  destruct major as [|m major]; [reflexivity|].
  destruct (Ascii.eqb c2 ":"); [|reflexivity].
  destruct (Re.span Re.is_digit s3) as [minor s4] eqn:E3.
  destruct (span_decomp _ _ _ _ E3) as (Hs3 & Hminor & _).
  destruct s4 as [|c4 s5].
  { rewrite append_empty_r in Hs3. rewrite Hs3 in *.
    rewrite (span_all _ minor " " Hminor eq_refl) in H.
    rewrite (span_all _ minor (String b t) Hminor Hstop).
    destruct minor; [|discriminate H].
    destruct (Re.span Re.is_space (String b t)). reflexivity. }
  rewrite (span_more _ _ _ _ _ " " E3) in H.
  rewrite (span_more _ _ _ _ _ (String b t) E3).
  rewrite <- append_cons in *.
  destruct (Re.span Re.is_space (String c4 s5)) as [ws2 s6] eqn:E4.
  destruct (span_decomp _ _ _ _ E4) as (Hs4 & Hws2 & _).
  destruct s6 as [|c6 s7].
  { exfalso. rewrite append_empty_r in Hs4.
    rewrite Hs, ends_with_blank_app, Hs1, ends_with_blank_app, Hs3,
      <- append_cons, ends_with_blank_app in He.
    rewrite all_blank_ends in He; [discriminate|now rewrite Hs4|discriminate]. }
  rewrite (span_more _ _ _ _ _ " " E4) in H.
  rewrite (span_more _ _ _ _ _ (String b t) E4).
  exact H.
Qed.

Lemma digit_not_space c : Re.is_digit c = true -> Re.is_space c = false.
Proof. destruct c as [[] [] [] [] [] [] [] []]; vm_compute; congruence. Qed.

Lemma partition_ref_nonempty s group : Re.partition_ref s <> Some (O, group).
Proof.
  unfold Re.partition_ref.
  destruct (Re.span Re.is_space s) as [ws1 s1].
  destruct (Re.span Re.is_digit s1) as [major s2].
  destruct ws1; [discriminate|]. destruct major; [discriminate|].
  destruct s2 as [|colon s3]; [discriminate|].
  destruct (Ascii.eqb colon ":"); [|discriminate].
  destruct (Re.span Re.is_digit s3) as [minor s4].
  destruct (Re.span Re.is_space s4) as [ws2 s5].
  destruct minor; [discriminate|]. destruct ws2; discriminate.
Qed.

Lemma sub_from_before_blank repl limited b t :
  Re.is_space b = true ->
  forall pre count,
    ends_with_blank pre = false ->
    Re.search Re.partition_ref (pre +:+ " ") = false ->
    Re.sub_from Re.partition_ref repl limited count O (pre +:+ String b t) =
    pre +:+ Re.sub_from Re.partition_ref repl limited count O (String b t).
Proof.
  intros Hb. induction pre as [|c pre IH]; intros count He Hs; [reflexivity|].
  rewrite !append_cons in *. cbn [Re.search] in Hs.
  cbn [Re.sub_from]. destruct (limited && (count =? 0)%nat) eqn:L; [reflexivity|].
  destruct (Re.partition_ref (String c (pre +:+ " "))) as [[[|len] g]|] eqn:E;
    [destruct (partition_ref_nonempty _ _ E)|discriminate|].
  rewrite <- append_cons in E.
  rewrite <- (append_cons c pre (String b t)) at 1.
  rewrite (partition_ref_fails_before_blank _ b t He ltac:(discriminate) Hb E).
  f_equal.
  assert (He' : ends_with_blank pre = false) by (destruct pre; [reflexivity|exact He]).
  rewrite (IH count He' Hs). cbn [Re.sub_from]. now rewrite L.
Qed.

Lemma partition_ref_on_reference ws1 major minor ws2 post :
  run_of Re.is_space ws1 = true -> run_of Re.is_digit major = true ->
  run_of Re.is_digit minor = true -> run_of Re.is_space ws2 = true ->
  stops Re.is_space post = true ->
  Re.partition_ref (ws1 +:+ major +:+ ":" +:+ minor +:+ ws2 +:+ post) =
    Some ((String.length ws1 + String.length major + 1 +
           String.length minor + String.length ws2)%nat, minor).
Proof.
  intros H1 H2 H3 H4 H5. unfold Re.partition_ref.
  destruct ws1 as [|w ws1]; [discriminate|].
  destruct major as [|m major]; [discriminate|].
  destruct minor as [|n minor]; [discriminate|].
  destruct ws2 as [|v ws2]; [discriminate|].
  cbn [run_of] in *.
  rewrite (span_all _ _ _ H1);
    [|cbn [all_chars] in H2; apply andb_prop in H2 as [H2 _];
      rewrite append_cons; cbn; now rewrite (digit_not_space _ H2)].
  rewrite (span_all _ _ _ H2) by reflexivity.
  change (":" +:+ String n minor +:+ String v ws2 +:+ post)
    with (String ":" (String n minor +:+ String v ws2 +:+ post)).
  cbv beta iota. change (Ascii.eqb ":" ":") with true. cbv beta iota.
  rewrite (span_all _ _ _ H3);
    [|cbn [all_chars] in H4; apply andb_prop in H4 as [H4 _];
      rewrite append_cons; cbn; now rewrite (space_not_digit _ H4)].
  rewrite (span_all _ _ _ H4 H5). reflexivity.
Qed.

(** X29. A command with one partition reference <major>:<minor> between
    blanks is rewritten to the boot device and to minor + testboot_offset:
    the major number of the command is not kept, and each run of blanks
    around the reference (line breaks included) becomes one space.  The
    text before the reference holds no reference, also when a blank
    follows it, and does not end with a blank; the text after it holds
    none and does not start with one. *)
Theorem rewrite_boot_cmds_partition_reference cfg pre ws1 major minor ws2 post :
  let cmd := pre +:+ ws1 +:+ major +:+ ":" +:+ minor +:+ ws2 +:+ post in
  Re.search Re.root_uuid cmd = false ->
  ends_with_blank pre = false ->
  Re.search Re.partition_ref (pre +:+ " ") = false ->
  run_of Re.is_space ws1 = true -> run_of Re.is_digit major = true ->
  run_of Re.is_digit minor = true -> run_of Re.is_space ws2 = true ->
  stops Re.is_space post = true ->
  Re.search Re.partition_ref post = false ->
  _rewrite_boot_cmds cfg cmd =
    split_char "010"
      (pre +:+ " " +:+ boot_device cfg +:+ ":" +:+
       str_Z (Re.int_of_digits minor + testboot_offset cfg) +:+ " " +:+ post).
Proof.
  intros cmd Hu He Hpre H1 H2 H3 H4 H5 Hpost.
  unfold _rewrite_boot_cmds, rewrite_boot_text, Re.sub. f_equal.
  change (negb (Re.MULTILINE =? 0)) with true.
  change (Z.to_nat Re.MULTILINE) with 8%nat.
  rewrite (sub_from_no_match _ _ _ _ Hu). subst cmd.
  pose proof (partition_ref_on_reference ws1 major minor ws2 post H1 H2 H3 H4 H5) as Hm.
  destruct ws1 as [|w ws1]; [discriminate|].
  cbn [run_of all_chars] in H1. apply andb_prop in H1 as [Hw _].
  rewrite append_cons in *.
  rewrite (sub_from_before_blank _ _ w _ Hw pre 8 He Hpre). f_equal.
  cbn [String.length Nat.add] in Hm.
  cbn [Re.sub_from andb Nat.eqb Nat.sub]. rewrite Hm.
  replace (ws1 +:+ major +:+ ":" +:+ minor +:+ ws2 +:+ post)
    with ((ws1 +:+ major +:+ ":" +:+ minor +:+ ws2) +:+ post)
    by (now rewrite !string_app_assoc).
  replace (String.length ws1 + String.length major + 1 +
           String.length minor + String.length ws2)%nat
    with (String.length (ws1 +:+ major +:+ ":" +:+ minor +:+ ws2))
    by (rewrite !length_append; cbn [String.length]; lia).
  rewrite sub_from_skip, (sub_from_no_match _ _ _ _ Hpost).
  unfold _rewrite_partition_number. now rewrite !string_app_assoc.
Qed.

Lemma rewrite_boot_cmds_partition_reference_witness :
  _rewrite_boot_cmds (panda_cfg 3) "fatload mmc 1:3 0x80200000 uImage" =
    ["fatload mmc 0:5 0x80200000 uImage"].
Proof.
  exact (rewrite_boot_cmds_partition_reference (panda_cfg 3)
           "fatload mmc" " " "1" "3" " " "0x80200000 uImage"
           eq_refl eq_refl eq_refl eq_refl eq_refl eq_refl eq_refl eq_refl eq_refl).
Defined.
